(** * Order protocol engine of the NFT wallet: a shallow embedding

    The functions below are translated from the order-building module of the
    wallet (getOrderHash, encodeReplacementPattern, _getTimeParameters,
    computeFees, _makeSellOrder, _makeMatchingOrder, _approveAll,
    _atomicMatch).

    Conventions of the embedding:
    - a JavaScript [number] and a bignumber.js [BigNumber] are rationals
      ([Q]); [NaN], the infinities and binary rounding are not modelled;
    - a thrown [Error] is the [Throw] case of [Result];
    - [Date.now()] is read several times inside one call; the model takes all
      the readings of one call to be the same instant [now] (milliseconds);
    - the functions of ethers, bignumber.js and bn.js, and the schema table of
      the wallet, are not part of the translated module: they are variables
      of the sections that need them. *)

From Stdlib Require Import ZArith QArith Qround List String Ascii Bool Lia Lqa.
From Stdlib Require Import DecimalString DecimalPos DecimalZ.
From Stdlib Require Import Qpower Qfield.
Import ListNotations.

Local Open Scope Z_scope.

(** ** Errors and results *)

Inductive Error : Type :=
| ExpirationTooSoon            (* Expiration time must be at least 10 seconds from now, or zero *)
| ListingInPast                (* Listing time cannot be in the past. *)
| ListingNotBeforeExpiration   (* Listing time must be before the expiration time. *)
| EnglishNeedsExpiration       (* English auctions must have an expiration time. *)
| EnglishScheduled             (* Cannot schedule an English auction for the future. *)
| ExpirationNotWhole           (* Expiration timestamp must be a whole number of seconds *)
| DefaultValueNotImplemented   (* Default value not yet implemented for type *)
| DynamicReplacement           (* Replacement is not supported for dynamic parameters. *)
| OnlyOneDestination           (* Only 1 input can match transfer destination *)
| InvalidOrderMetadata         (* Invalid order metadata *)
| BountyExceedsCap             (* Total bounty exceeds the maximum for this asset type *)
| StartingPriceInvalid         (* Starting price must be a number >= 0 *)
| EnglishNeedsToken            (* English auctions must use wrapped ETH or an ERC-20 token. *)
| OffersNeedToken              (* Offers must use wrapped ETH or an ERC-20 token. *)
| EndPriceAboveStart           (* End price must be less than or equal to the start price. *)
| ExpirationNeededForPriceChange (* Expiration time must be set if order will change in price. *)
| ReserveOnlyEnglish           (* Reserve prices may only be set on English auctions. *)
| ReserveBelowStart            (* Reserve price must be greater than or equal to the start amount. *)
| TokenIdRequired              (* Token ID Required. *)
| MissingOwnershipSchema       (* Missing ownership schema for this asset type *)
| UnableToGetOwner             (* Unable to get current owner from smart contract *)
| NotEnoughOwned               (* You don't own enough to do that *)
| UnknownSchema                (* Unkown Schema *)
| ApprovalFailed               (* Couldn't get permission to approve these tokens for trading. *)
| UninitializedAccount         (* Uninitialized account *)
| AccountNotRetrieved          (* Couldn't retrieve your account from the blockchain *)
| ProxyInitializationFailed    (* Failed to initialize your account *)
| TransactionWillFail          (* Transaction will fail, check Ether balance and gas limit. *)
| OrdersIncompatible           (* Error matching this listing *)
| InvalidOrderParameters       (* Failed to validate order parameters *)
| InsufficientBalance          (* Insufficient balance. *)
| TypeError                    (* property read on undefined *)
| LibraryError.                (* an exception raised inside ethers or the node *)

Inductive Result (A : Type) : Type :=
| Ok (a : A)
| Throw (e : Error).
Arguments Ok {A} a.
Arguments Throw {A} e.

Definition bind {A B : Type} (r : Result A) (k : A -> Result B) : Result B :=
  match r with
  | Ok a => k a
  | Throw e => Throw e
  end.

Declare Scope result_scope.
Delimit Scope result_scope with result.
Notation "'let*' x ':=' r 'in' k" := (bind r (fun x => k))
  (at level 10, x pattern, r at level 100, k at level 200) : result_scope.
Local Open Scope result_scope.

(** [if (c) throw e; rest] *)
Definition throwIf {A : Type} (c : bool) (e : Error) (rest : Result A) : Result A :=
  if c then Throw e else rest.

(** ** JavaScript numbers *)

Definition number := Q.
Definition BigNumber := Q.

Definition num_eqb (x y : number) : bool := Qeq_bool x y.
Definition num_ltb (x y : number) : bool := negb (Qle_bool y x).
Definition num_gtb (x y : number) : bool := num_ltb y x.
Definition num_geb (x y : number) : bool := Qle_bool y x.

(** Truthiness of a number: every number but zero. *)
Definition truthy_num (x : number) : bool := negb (num_eqb x 0%Q).

(** Truthiness of an optional number argument ([undefined] is falsy). *)
Definition truthy_opt (x : option number) : bool :=
  match x with
  | Some v => truthy_num v
  | None => false
  end.

(** [Math.round]: the nearest integer, halves towards plus infinity. *)
Definition Math_round (x : number) : Z := Qfloor (x + (1 # 2))%Q.

(** [parseInt(x.toString()) === x]: [toString] prints a whole number below
    10^21 in magnitude with all its digits, and [parseInt] reads them back;
    a fraction loses its digits after the point, and from 10^21 on the
    exponent notation makes [parseInt] stop at the first digits. *)
Definition isWholeNumber (x : number) : bool :=
  Qeq_bool (inject_Z (Qfloor x)) x && (Z.abs (Qfloor x) <? 10 ^ 21).

(** ** Constants of the module *)

Definition INVERSE_BASIS_POINT : Z := 10000.
Definition MIN_EXPIRATION_SECONDS : Z := 10.
Definition ORDER_MATCHING_LATENCY_SECONDS : Z := 60 * 60 * 24 * 7.
Definition DEFAULT_BUYER_FEE_BASIS_POINTS : Z := 0.
Definition DEFAULT_SELLER_FEE_BASIS_POINTS : Z := 250.
Definition OPENSEA_SELLER_BOUNTY_BASIS_POINTS : Z := 100.
Definition DEFAULT_MAX_BOUNTY : Z := DEFAULT_SELLER_FEE_BASIS_POINTS.
Definition MAX_DIGITS_IN_UNSIGNED_256_INT : Z := 72.
Definition NULL_ADDRESS : string := "0x0000000000000000000000000000000000000000".
Definition NULL_BLOCK_HASH : string :=
  "0x0000000000000000000000000000000000000000000000000000000000000000".
Definition OPENSEA_FEE_RECIPIENT : string := "0x5b3256965e7c3cf26e11fcaf296dfc8807c01073".
Definition WETH_ADDRESS : string := "0xc02aaa39b223fe8d0a0e5c4f27ead9083c756cc2".

(** ** _getTimeParameters *)

Record TimeParameters : Type := {
  tp_expirationTime : BigNumber;
  tp_listingTime : BigNumber
}.

(** [Date.now() / 1000], in seconds. *)
Definition seconds (now : Z) : number := (inject_Z now / inject_Z 1000)%Q.

Definition minExpirationTimestamp (now : Z) : number :=
  inject_Z (Math_round (seconds now + inject_Z MIN_EXPIRATION_SECONDS)%Q).

Definition minListingTimestamp (now : Z) : number :=
  inject_Z (Math_round (seconds now)).

Definition _getTimeParameters (now : Z) (expirationTimestamp : number)
    (listingTimestamp : option number) (waitingForBestCounterOrder : bool)
    : Result TimeParameters :=
  let listing := match listingTimestamp with Some l => l | None => 0%Q end in
  throwIf (negb (num_eqb expirationTimestamp 0%Q)
           && num_ltb expirationTimestamp (minExpirationTimestamp now))
    ExpirationTooSoon
  (throwIf (truthy_opt listingTimestamp && num_ltb listing (minListingTimestamp now))
    ListingInPast
  (throwIf (truthy_opt listingTimestamp && negb (num_eqb expirationTimestamp 0%Q)
            && num_geb listing expirationTimestamp)
    ListingNotBeforeExpiration
  (throwIf (waitingForBestCounterOrder && num_eqb expirationTimestamp 0%Q)
    EnglishNeedsExpiration
  (throwIf (waitingForBestCounterOrder && truthy_opt listingTimestamp)
    EnglishScheduled
  (throwIf (negb (isWholeNumber expirationTimestamp))
    ExpirationNotWhole
  (if waitingForBestCounterOrder then
     Ok {| tp_expirationTime :=
             (expirationTimestamp + inject_Z ORDER_MATCHING_LATENCY_SECONDS)%Q;
           tp_listingTime := expirationTimestamp |}
   else
     Ok {| tp_expirationTime := expirationTimestamp;
           tp_listingTime :=
             if truthy_opt listingTimestamp then listing
             else inject_Z (Math_round (seconds now - inject_Z 100)%Q) |})))))).

(** ** Strings and byte buffers *)

(** [String.prototype.toLowerCase], on the letters A to Z. *)
Definition lower_ascii (c : ascii) : ascii :=
  let n := nat_of_ascii c in
  if ((65 <=? n) && (n <=? 90))%nat then ascii_of_nat (n + 32) else c.

Fixpoint toLowerCase (s : string) : string :=
  match s with
  | EmptyString => EmptyString
  | String c r => String (lower_ascii c) (toLowerCase r)
  end.

(** [s.slice(n)] for a non-negative [n]. *)
Fixpoint slice (n : nat) (s : string) : string :=
  match n, s with
  | O, _ => s
  | S m, EmptyString => EmptyString
  | S m, String _ r => slice m r
  end.

Definition byte := Byte.byte.

Definition hexDigit (c : ascii) : option N :=
  let n := N_of_ascii c in
  if ((48 <=? n) && (n <=? 57))%N then Some (n - 48)%N
  else if ((97 <=? n) && (n <=? 102))%N then Some (n - 87)%N
  else if ((65 <=? n) && (n <=? 70))%N then Some (n - 55)%N
  else None.

Definition byte_of_N (n : N) : byte :=
  match Byte.of_N n with
  | Some b => b
  | None => Byte.x00
  end.

(** [Buffer.from(s, 'hex')]: pairs of hexadecimal digits are decoded until the
    first pair that is not one; a trailing single digit is dropped. *)
Fixpoint Buffer_from_hex (s : string) : list byte :=
  match s with
  | String a (String b r) =>
      match hexDigit a, hexDigit b with
      | Some h, Some l => byte_of_N (16 * h + l) :: Buffer_from_hex r
      | _, _ => []
      end
  | _ => []
  end.

Definition hexChar (n : N) : ascii :=
  if (n <? 10)%N then ascii_of_N (48 + n) else ascii_of_N (87 + n).

(** [buf.toString('hex')] *)
Fixpoint Buffer_toString_hex (b : list byte) : string :=
  match b with
  | [] => EmptyString
  | x :: r =>
      String (hexChar (Byte.to_N x / 16)) (String (hexChar (Byte.to_N x mod 16))
        (Buffer_toString_hex r))
  end.

(** Number of bytes that a [0x]-prefixed hexadecimal string stands for. *)
Definition byteLength (hex : string) : nat := List.length (Buffer_from_hex (slice 2 hex)).

(** [n.toString()] of a whole number (enum members, small integers). *)
Definition Z_toString (z : Z) : string := NilZero.string_of_int (Z.to_int z).

(** Truthiness of a string: every string but the empty one. *)
Definition truthy_str (s : string) : bool :=
  match s with
  | EmptyString => false
  | String _ _ => true
  end.

(** ** Values and function descriptions *)

Inductive JsValue : Type :=
| JUndefined
| JBool (b : bool)
| JNum (n : number)
| JStr (s : string)
| JBuf (b : list byte)
| JEmptyArray.             (* the array literal [[]] *)

(** [!value] is [negb (truthy value)]. *)
Definition truthy (v : JsValue) : bool :=
  match v with
  | JUndefined => false
  | JBool b => b
  | JNum n => truthy_num n
  | JStr s => truthy_str s
  | JBuf _ => true
  | JEmptyArray => true
  end.

Inductive FunctionInputKind : Type := Replaceable | Asset | Owner.

Definition kind_eqb (a b : FunctionInputKind) : bool :=
  match a, b with
  | Replaceable, Replaceable | Asset, Asset | Owner, Owner => true
  | _, _ => false
  end.

Record AbiInput : Type := {
  kind : FunctionInputKind;
  name : string;
  type : string;
  value : JsValue          (* [JUndefined] when the input carries no value *)
}.

Record FunctionAbi : Type := {
  abi_name : string;
  inputs : list AbiInput;
  abi_target : string
}.

Inductive SolidityTypes : Type := Address | Uint256 | Uint8 | Bytes.

(** ** Assets, schemas and orders *)

Record WyvernAsset : Type := {
  wy_address : string;
  wy_id : string;
  wy_quantity : option string
}.

Record AssetFields : Type := {
  f_Address : string;
  f_ID : string;
  f_Name : string;
  f_Quantity : string
}.

Record Schema : Type := {
  schema_name : string;
  assetFromFields : AssetFields -> WyvernAsset;
  functions_transfer : WyvernAsset -> FunctionAbi;
  functions_countOf : bool;     (* whether [schema.functions.countOf] is defined *)
  functions_ownerOf : bool      (* whether [schema.functions.ownerOf] is defined *)
}.

Record Collection : Type := {
  (* what [parseInt] reads from the field; [None] when it reads no number *)
  col_dev_buyer_fee_basis_points : option number;
  col_dev_seller_fee_basis_points : option number
}.

Record AssetContract : Type := {
  ac_address : string;
  ac_schema_name : option string;
  opensea_buyer_fee_basis_points : number;
  opensea_seller_fee_basis_points : number;
  dev_buyer_fee_basis_points : number;
  dev_seller_fee_basis_points : number
}.

Record NftAsset : Type := {
  asset_contract : AssetContract;
  collection : option Collection;
  token_id : string;
  asset_name : string;
  transfer_fee : option BigNumber;
  transfer_fee_payment_token : option string
}.

Record Metadata : Type := {
  md_asset : option WyvernAsset;     (* [None] when the metadata has no [asset] *)
  md_schema : string;
  md_referrerAddress : option string
}.

(** Enum members are numbers at run time. The declarations are in the types
    module of the wallet; the exchange protocol fixes the values. *)
Definition NftOrderSide_Buy : Z := 0.
Definition NftOrderSide_Sell : Z := 1.
Definition NftSaleKind_FixedPrice : Z := 0.
Definition NftSaleKind_DutchAuction : Z := 1.
Definition HowToCall_Call : Z := 0.
Definition FeeMethod_SplitFee : Z := 1.
Definition WyvernSchemaName_ERC721 : string := "ERC721".
Definition WyvernSchemaName_ERC1155 : string := "ERC1155".
Definition WyvernSchemaName_LegacyEnjin : string := "Enjin".
Definition WyvernSchemaName_ENSShortNameAuction : string := "ENSShortNameAuction".

Record Order : Type := {
  basePrice : BigNumber;
  calldata : string;
  englishAuctionReservePrice : option BigNumber;
  exchange : string;
  expirationTime : BigNumber;
  extra : BigNumber;
  feeMethod : Z;
  feeRecipient : string;
  howToCall : Z;
  listingTime : BigNumber;
  maker : string;
  makerProtocolFee : BigNumber;
  makerReferrerFee : BigNumber;
  makerRelayerFee : BigNumber;
  metadata : Metadata;
  paymentToken : string;
  quantity : BigNumber;
  replacementPattern : string;
  saleKind : Z;
  salt : string;
  side : Z;
  staticExtradata : string;
  staticTarget : string;
  taker : string;
  takerProtocolFee : BigNumber;
  takerRelayerFee : BigNumber;
  target : string;
  waitingForBestCounterOrder : bool;
  hash : option string
}.

(** ** The libraries the module calls *)

Class Libraries : Type := {
  (* ethers.utils *)
  solidityKeccak256 : list SolidityTypes -> list JsValue -> Result string;
  defaultAbiCoder_encode : list string -> list JsValue -> Result string;
  Interface_getSighash : FunctionAbi -> Result string;
  (* new ethers.utils.Interface(ERC1155_ABI).encodeFunctionData *)
  ERC1155_encodeFunctionData : string -> list JsValue -> Result string;
  utils_getAddress : string -> Result string;
  utils_parseEther : string -> Result BigNumber;
  (* Number.prototype.toString, BigNumber.prototype.toString *)
  Number_toString : number -> string;
  BigNumber_toString : BigNumber -> string;
  (* new BigNumber(s) of a string *)
  BigNumber_fromString : string -> BigNumber;
  (* new BN(s, 10).toString(), as a total function: bn.js 4 reads every
     string; the assertion that bn.js 5 makes on a string that is not a
     numeral is not modelled *)
  BN_decimal : string -> string
}.

(** The schema table of the wallet, [schemaMap]. *)
Class Schemas : Type := {
  schemaMap : string -> option Schema
}.

(** What one call observes of the clock and of the random generator. *)
Record World : Type := {
  Date_now : Z;                 (* milliseconds *)
  BigNumber_random : BigNumber  (* the outcome of [BigNumber.random(72)], in [0, 1) *)
}.

(** ** Order hash *)

(** [{ ...order, feeMethod: ..., feeRecipient: ..., ... }]: the order with the
    seven properties that getOrderHash overrides. *)
Record OrderWithStringTypes : Type := {
  ows_order : Order;
  ows_feeMethod : string;
  ows_feeRecipient : string;
  ows_howToCall : string;
  ows_maker : string;
  ows_saleKind : string;
  ows_side : string;
  ows_taker : string
}.

Section Hash.
Context {L : Libraries}.

Definition orderParts (o : OrderWithStringTypes) : list (SolidityTypes * JsValue) :=
  let order := ows_order o in
  [ (Address, JStr (exchange order));
    (Address, JStr (ows_maker o));
    (Address, JStr (ows_taker o));
    (Uint256, JStr (BigNumber_toString (makerRelayerFee order)));
    (Uint256, JStr (BigNumber_toString (takerRelayerFee order)));
    (Uint256, JStr (BigNumber_toString (makerProtocolFee order)));
    (Uint256, JStr (BigNumber_toString (takerProtocolFee order)));
    (Address, JStr (ows_feeRecipient o));
    (Uint8, JStr (ows_feeMethod o));
    (Uint8, JStr (ows_side o));
    (Uint8, JStr (ows_saleKind o));
    (Address, JStr (target order));
    (Uint8, JStr (ows_howToCall o));
    (Bytes, JBuf (Buffer_from_hex (slice 2 (calldata order))));
    (Bytes, JBuf (Buffer_from_hex (slice 2 (replacementPattern order))));
    (Address, JStr (staticTarget order));
    (Bytes, JBuf (Buffer_from_hex (slice 2 (staticExtradata order))));
    (Address, JStr (paymentToken order));
    (Uint256, JStr (BigNumber_toString (basePrice order)));
    (Uint256, JStr (BigNumber_toString (extra order)));
    (Uint256, JStr (BigNumber_toString (listingTime order)));
    (Uint256, JStr (BigNumber_toString (expirationTime order)));
    (Uint256, JStr (salt order)) ].

Definition getOrderHashHex (o : OrderWithStringTypes) : Result string :=
  let types := map fst (orderParts o) in
  let values := map snd (orderParts o) in
  solidityKeccak256 types values.

Definition orderWithStringTypes (order : Order) : OrderWithStringTypes :=
  {| ows_order := order;
     ows_feeMethod := Z_toString (feeMethod order);
     ows_feeRecipient := toLowerCase (feeRecipient order);
     ows_howToCall := Z_toString (howToCall order);
     ows_maker := toLowerCase (maker order);
     ows_saleKind := Z_toString (saleKind order);
     ows_side := Z_toString (side order);
     ows_taker := toLowerCase (taker order) |}.

Definition getOrderHash (order : Order) : Result string :=
  getOrderHashHex (orderWithStringTypes order).

(** The arguments that getOrderHash hands to solidityKeccak256. *)
Definition hashArguments (order : Order) : list (SolidityTypes * JsValue) :=
  orderParts (orderWithStringTypes order).

End Hash.

(** ** Calldata and replacement patterns *)

Definition generateDefaultValue (ty : string) : Result JsValue :=
  if (ty =? "address")%string || (ty =? "bytes20")%string then
    Ok (JStr "0x0000000000000000000000000000000000000000")
  else if (ty =? "bytes32")%string then
    Ok (JStr "0x0000000000000000000000000000000000000000000000000000000000000000")
  else if (ty =? "bool")%string then Ok (JBool false)
  else if (ty =? "int")%string || (ty =? "uint")%string || (ty =? "uint8")%string
          || (ty =? "uint16")%string || (ty =? "uint32")%string
          || (ty =? "uint64")%string || (ty =? "uint256")%string then
    Ok (JNum 0%Q)
  else Throw DefaultValueNotImplemented.

Module ethABI_local.

Definition startsWith (p s : string) : bool := String.prefix p s.

Definition elementaryName (name : string) : string :=
  if startsWith "int[" name then "int256" ++ slice 3 name
  else if (name =? "int")%string then "int256"
  else if startsWith "uint[" name then "uint256" ++ slice 4 name
  else if (name =? "uint")%string then "uint256"
  else if startsWith "fixed[" name then "fixed128x128" ++ slice 5 name
  else if (name =? "fixed")%string then "fixed128x128"
  else if startsWith "ufixed[" name then "ufixed128x128" ++ slice 6 name
  else if (name =? "ufixed")%string then "ufixed128x128"
  else name.

(** [parseInt(s, 10)]: leading white space (tab, line feed, vertical tab,
    form feed, carriage return, space) is skipped, then an optional sign and
    the leading decimal digits are read; [None] is NaN. *)
Fixpoint skipWhiteSpace (s : list ascii) : list ascii :=
  match s with
  | c :: r =>
      let n := nat_of_ascii c in
      if (((9 <=? n) && (n <=? 13)) || (n =? 32))%nat then skipWhiteSpace r else s
  | [] => []
  end.

Fixpoint leadingDigits (acc : option Z) (s : list ascii) : option Z :=
  match s with
  | c :: r =>
      let n := Z.of_nat (nat_of_ascii c) in
      if (48 <=? n) && (n <=? 57) then
        leadingDigits (Some (10 * match acc with Some a => a | None => 0 end + (n - 48))) r
      else acc
  | [] => acc
  end.

Definition parseInt (s : string) : option Z :=
  match skipWhiteSpace (list_ascii_of_string s) with
  | "-"%char :: r => option_map Z.opp (leadingDigits None r)
  | "+"%char :: r => leadingDigits None r
  | l => leadingDigits None l
  end.

(** The text between the last opening bracket and a closing bracket that ends
    the string: the second group of the regular expression of parseTypeArray
    (a greedy prefix, a bracketed lazy group, the end of the string). *)
Fixpoint untilOpen (rev_s : list ascii) (acc : list ascii) : option (list ascii) :=
  match rev_s with
  | [] => None
  | "["%char :: _ => Some acc
  | c :: r => untilOpen r (c :: acc)
  end.

Definition lastBracket (s : string) : option string :=
  match rev (list_ascii_of_string s) with
  | "]"%char :: r => option_map string_of_list_ascii (untilOpen r [])
  | _ => None
  end.

Inductive TypeArray : Type := NotArray | Dynamic | Sized (n : option Z).

Definition parseTypeArray (ty : string) : TypeArray :=
  match lastBracket ty with
  | Some tmp2 => if (tmp2 =? "")%string then Dynamic else Sized (parseInt tmp2)
  | None => NotArray
  end.

Definition isDynamic (ty : string) : bool :=
  (ty =? "string")%string || (ty =? "bytes")%string
  || match parseTypeArray ty with Dynamic => true | _ => false end.

End ethABI_local.

(** The group of the regular expression of the dynamic offset (a bracketed
    non-empty greedy group, the end of the string): the text between the first
    opening bracket that leaves at least one character before a closing
    bracket ending the string, and that closing bracket. *)
Fixpoint firstBracket (s : list ascii) : option (list ascii) :=
  match s with
  | [] => None
  | c :: r =>
      match c, rev r with
      | "["%char, "]"%char :: (_ :: _) as m => Some (rev (tl m))
      | _, _ => firstBracket r
      end
  end.

Definition FunctionInputKind_ReplaceableDefault : FunctionInputKind := Replaceable.

(** One entry of the mapped input list of encodeReplacementPattern. *)
Record MaskedInput : Type := {
  mi_bitmask : Z;
  mi_type : string;
  mi_value : JsValue
}.

(** The accumulator of the reduction: the running offset and the two buffer
    lists [output] and [data] that the callback pushes to. *)
Record PatternState : Type := {
  ps_offset : Z;
  ps_output : list (list byte);
  ps_data : list (list byte)
}.

Fixpoint mapM {A B : Type} (f : A -> Result B) (l : list A) : Result (list B) :=
  match l with
  | [] => Ok []
  | a :: r =>
      let* b := f a in
      let* bs := mapM f r in
      Ok (b :: bs)
  end.

Fixpoint foldM {A S : Type} (f : S -> A -> Result S) (l : list A) (s : S) : Result S :=
  match l with
  | [] => Ok s
  | a :: r => let* s' := f s a in foldM f r s'
  end.

Section Encode.
Context {L : Libraries}.

Definition dynamicOffset (abi : FunctionAbi) : option Z :=
  fold_left
    (fun (len : option Z) (i : AbiInput) =>
       match len with
       | None => None
       | Some l =>
           match firstBracket (list_ascii_of_string (type i)) with
           | Some m1 =>
               match ethABI_local.parseInt (string_of_list_ascii m1) with
               | Some n => Some (l + n * 32)
               | None => None
               end
           | None => Some (l + 32)
           end
       end)
    (inputs abi) (Some 0).

Definition maskInput (replaceKind : FunctionInputKind) (i : AbiInput) : Result MaskedInput :=
  let* v := match value i with
            | JUndefined => generateDefaultValue (type i)
            | v => Ok v
            end in
  Ok {| mi_bitmask := if kind_eqb (kind i) replaceKind then 255 else 0;
        mi_type := ethABI_local.elementaryName (type i);
        mi_value := v |}.

(** [Buffer.from(hex.substring(2), 'hex')] *)
Definition bufferOfEncoded (hex : string) : list byte := Buffer_from_hex (slice 2 hex).

(** [buf.fill(bitmask)] *)
Definition fill (buf : list byte) (bitmask : Z) : list byte :=
  map (fun _ => byte_of_N (Z.to_N bitmask)) buf.

Definition patternStep (dynOffset : option Z) (st : PatternState) (m : MaskedInput)
  : Result PatternState :=
  if negb (truthy (mi_value m)) then Ok st
  else
    let* enc := defaultAbiCoder_encode [mi_type m] [mi_value m] in
    let cur := fill (bufferOfEncoded enc) (mi_bitmask m) in
    if ethABI_local.isDynamic (mi_type m) then
      if negb (mi_bitmask m =? 0) then Throw DynamicReplacement
      else
        let* off := match dynOffset with
                    | Some d => defaultAbiCoder_encode ["uint256"%string] [JNum (inject_Z d)]
                    | None => Throw LibraryError
                    end in
        Ok {| ps_offset := ps_offset st + Z.of_nat (List.length cur);
              ps_output := ps_output st ++ [bufferOfEncoded off];
              ps_data := ps_data st ++ [cur] |}
    else
      Ok {| ps_offset := ps_offset st;
            ps_output := ps_output st ++ [cur];
            ps_data := ps_data st |}.

(** The mask as a buffer: four zero bytes for the method hash, then the
    buffers of [output], then those of [data]. *)
Definition replacementMask (abi : FunctionAbi) (replaceKind : FunctionInputKind)
  : Result (list byte) :=
  let dynOffset := dynamicOffset abi in
  let* masked := mapM (maskInput replaceKind) (inputs abi) in
  let* st := foldM (patternStep dynOffset) masked
               {| ps_offset := match dynOffset with Some d => d | None => 0 end;
                  ps_output := []; ps_data := [] |} in
  let methodIdMask := repeat Byte.x00 4 in
  Ok (methodIdMask ++ List.concat (ps_output st ++ ps_data st)).

Definition bitString (mask : list byte) : string :=
  string_of_list_ascii
    (map (fun b => if (Byte.to_N b =? 0)%N then "0"%char else "1"%char) mask).

Definition encodeReplacementPattern (abi : FunctionAbi) (replaceKind : FunctionInputKind)
    (encodeToBytes : bool) : Result string :=
  let* mask := replacementMask abi replaceKind in
  Ok (if encodeToBytes then ("0x" ++ Buffer_toString_hex mask)%string else bitString mask).

Definition encodeCall (abi : FunctionAbi) (parameters : list JsValue) : Result string :=
  let inputTypes := map type (inputs abi) in
  let* sighash := Interface_getSighash abi in
  let* enc := defaultAbiCoder_encode inputTypes parameters in
  Ok (sighash ++ slice 2 enc)%string.

(** The asset object handed to encodeSell: the function reads
    [asset.asset_contract.address], [asset.token_id] and [asset.name]. *)
Inductive AssetObject : Type :=
| OfNftAsset (a : NftAsset)
| OfWyvernAsset (w : WyvernAsset).

Record CallEncoding : Type := {
  ce_calldata : string;
  ce_replacementPattern : string;
  ce_target : string
}.

Definition optStr (o : option string) : JsValue :=
  match o with
  | Some s => JStr s
  | None => JUndefined
  end.

Definition encodeSell (schema : Schema) (asset : AssetObject) (address : string)
  : Result CallEncoding :=
  match asset with
  | OfWyvernAsset _ => Throw TypeError     (* [asset.asset_contract] is undefined *)
  | OfNftAsset asset =>
      let wyvAsset := assetFromFields schema
                        {| f_Address := ac_address (asset_contract asset);
                           f_ID := token_id asset;
                           f_Name := asset_name asset;
                           f_Quantity := "1" |} in
      let transfer := functions_transfer schema wyvAsset in
      let* calldata := ERC1155_encodeFunctionData "safeTransferFrom"
                         [ JStr (toLowerCase address); JStr NULL_ADDRESS;
                           JStr (token_id asset); optStr (wy_quantity wyvAsset);
                           JEmptyArray ] in
      let* pattern := encodeReplacementPattern transfer
                        FunctionInputKind_ReplaceableDefault true in
      Ok {| ce_calldata := calldata;
            ce_replacementPattern := pattern;
            ce_target := abi_target transfer |}
  end.

(** [input.value.toString()] *)
Definition value_toString (v : JsValue) : Result string :=
  match v with
  | JUndefined => Throw TypeError
  | JBool b => Ok (if b then "true" else "false")%string
  | JNum n => Ok (Number_toString n)
  | JStr s => Ok s
  | JBuf b => Ok (string_of_list_ascii (map (fun x => ascii_of_N (Byte.to_N x)) b))
  | JEmptyArray => Ok ""%string
  end.

Definition encodeBuy (schema : Schema) (asset : WyvernAsset) (address : string)
  : Result CallEncoding :=
  let transfer := functions_transfer schema asset in
  let replaceables := filter (fun i => kind_eqb (kind i) Replaceable) (inputs transfer) in
  let ownerInputs := filter (fun i => kind_eqb (kind i) Owner) (inputs transfer) in
  if negb (List.length replaceables =? 1)%nat then Throw OnlyOneDestination
  else
    let* parameters :=
      mapM (fun input =>
              match kind input with
              | Replaceable => Ok (JStr address)
              | Owner => generateDefaultValue (type input)
              | Asset => let* s := value_toString (value input) in Ok (JStr s)
              end) (inputs transfer) in
    let* calldata := encodeCall transfer parameters in
    let* pattern :=
      if (0 <? List.length ownerInputs)%nat
      then encodeReplacementPattern transfer Owner true
      else Ok "0x"%string in
    Ok {| ce_calldata := calldata;
          ce_replacementPattern := pattern;
          ce_target := abi_target transfer |}.

End Encode.

(** ** Fees *)

Record ComputedFees : Type := {
  devBuyerFeeBasisPoints : number;
  devSellerFeeBasisPoints : number;
  openseaBuyerFeeBasisPoints : number;
  openseaSellerFeeBasisPoints : number;
  sellerBountyBasisPoints : number;
  totalBuyerFeeBasisPoints : number;
  totalSellerFeeBasisPoints : number;
  transferFee : BigNumber;
  transferFeeTokenAddress : option string
}.

(** [+a + parseInt(c) || 0]: the sum, or zero when [parseInt] reads no number
    (the collection is missing or its field is not numeric). *)
Definition devFee (a : number) (parsed : option number) : number :=
  match parsed with
  | Some p => if truthy_num (a + p)%Q then (a + p)%Q else 0%Q
  | None => 0%Q
  end.

Definition maxTotalBountyBPS (asset : option NftAsset) : number :=
  match asset with
  | Some a => opensea_seller_fee_basis_points (asset_contract a)
  | None => inject_Z DEFAULT_MAX_BOUNTY
  end.

Definition computeFees (asset : option NftAsset) (extraBountyBasisPoints : number)
    (side : Z) : Result ComputedFees :=
  let openseaBuyer :=
    match asset with
    | Some a => opensea_buyer_fee_basis_points (asset_contract a)
    | None => inject_Z DEFAULT_BUYER_FEE_BASIS_POINTS
    end in
  let openseaSeller :=
    match asset with
    | Some a => opensea_seller_fee_basis_points (asset_contract a)
    | None => inject_Z DEFAULT_SELLER_FEE_BASIS_POINTS
    end in
  let devBuyer :=
    match asset with
    | Some a => devFee (dev_buyer_fee_basis_points (asset_contract a))
                  (match collection a with
                   | Some c => col_dev_buyer_fee_basis_points c
                   | None => None
                   end)
    | None => 0%Q
    end in
  let devSeller :=
    match asset with
    | Some a => devFee (dev_seller_fee_basis_points (asset_contract a))
                  (match collection a with
                   | Some c => col_dev_seller_fee_basis_points c
                   | None => None
                   end)
    | None => 0%Q
    end in
  let maxBounty := maxTotalBountyBPS asset in
  let fee :=
    match asset with
    | Some a => if side =? NftOrderSide_Sell
                then match transfer_fee a with Some f => f | None => 0%Q end
                else 0%Q
    | None => 0%Q
    end in
  let feeToken :=
    match asset with
    | Some a => if side =? NftOrderSide_Sell then transfer_fee_payment_token a else None
    | None => None
    end in
  let sellerBounty := if side =? NftOrderSide_Sell then extraBountyBasisPoints else 0%Q in
  let bountyTooLarge :=
    num_gtb (sellerBounty + inject_Z OPENSEA_SELLER_BOUNTY_BASIS_POINTS)%Q maxBounty in
  throwIf (num_gtb sellerBounty 0%Q && bountyTooLarge) BountyExceedsCap
    (Ok {| devBuyerFeeBasisPoints := devBuyer;
           devSellerFeeBasisPoints := devSeller;
           openseaBuyerFeeBasisPoints := openseaBuyer;
           openseaSellerFeeBasisPoints := openseaSeller;
           sellerBountyBasisPoints := sellerBounty;
           totalBuyerFeeBasisPoints := (openseaBuyer + devBuyer)%Q;
           totalSellerFeeBasisPoints := (openseaSeller + devSeller)%Q;
           transferFee := fee;
           transferFeeTokenAddress := feeToken |}).

Record FeeParameters : Type := {
  fp_feeMethod : Z;
  fp_feeRecipient : string;
  fp_makerProtocolFee : BigNumber;
  fp_makerReferrerFee : BigNumber;
  fp_makerRelayerFee : BigNumber;
  fp_takerProtocolFee : BigNumber;
  fp_takerRelayerFee : BigNumber
}.

Definition _getSellFeeParameters (totalBuyerFeeBasisPoints totalSellerFeeBasisPoints : number)
    (waitForHighestBid : bool) (sellerBountyBasisPoints : number) : FeeParameters :=
  {| fp_feeMethod := FeeMethod_SplitFee;
     fp_feeRecipient := if waitForHighestBid then NULL_ADDRESS else OPENSEA_FEE_RECIPIENT;
     fp_makerProtocolFee := 0%Q;
     fp_makerReferrerFee := sellerBountyBasisPoints;
     fp_makerRelayerFee :=
       if waitForHighestBid then totalBuyerFeeBasisPoints else totalSellerFeeBasisPoints;
     fp_takerProtocolFee := 0%Q;
     fp_takerRelayerFee :=
       if waitForHighestBid then totalSellerFeeBasisPoints else totalBuyerFeeBasisPoints |}.

(** ** Prices, salt and the order builders *)

Record PriceParameters : Type := {
  pp_basePrice : BigNumber;
  pp_extra : BigNumber;
  pp_paymentToken : string;
  pp_reservePrice : option BigNumber
}.

Section Builders.
Context {L : Libraries} {SM : Schemas}.

Definition _getPriceParameters (orderSide : Z) (tokenAddress : string)
    (expirationTime startAmount : number) (endAmount : option number)
    (waitingForBestCounterOrder : bool) (englishAuctionReservePrice : option number)
    : Result PriceParameters :=
  let priceDiff := match endAmount with
                   | Some e => (startAmount - e)%Q
                   | None => 0%Q
                   end in
  let paymentToken := toLowerCase tokenAddress in
  let isEther := (tokenAddress =? NULL_ADDRESS)%string in
  let reserve := match englishAuctionReservePrice with Some r => r | None => 0%Q end in
  throwIf (num_ltb startAmount 0%Q) StartingPriceInvalid
  (throwIf (isEther && waitingForBestCounterOrder) EnglishNeedsToken
  (throwIf (isEther && (orderSide =? NftOrderSide_Buy)) OffersNeedToken
  (throwIf (num_ltb priceDiff 0%Q) EndPriceAboveStart
  (throwIf (num_gtb priceDiff 0%Q && num_eqb expirationTime 0%Q)
     ExpirationNeededForPriceChange
  (throwIf (truthy_opt englishAuctionReservePrice && negb waitingForBestCounterOrder)
     ReserveOnlyEnglish
  (throwIf (truthy_opt englishAuctionReservePrice && num_ltb reserve startAmount)
     ReserveBelowStart
  (let* basePrice := utils_parseEther (Number_toString startAmount) in
   let* extra := utils_parseEther (Number_toString priceDiff) in
   let* reservePrice :=
     if truthy_opt englishAuctionReservePrice
     then let* r := utils_parseEther (Number_toString reserve) in Ok (Some r)
     else Ok None in
   Ok {| pp_basePrice := basePrice;
         pp_extra := extra;
         pp_paymentToken := paymentToken;
         pp_reservePrice := reservePrice |}))))))).

(** [salt.integerValue()] of a non-negative value (rounding mode half up). *)
Definition integerValue (x : BigNumber) : BigNumber := inject_Z (Qfloor (x + (1 # 2))%Q).

Definition generatePseudoRandomSalt (w : World) : string :=
  let randomNumber := BigNumber_random w in
  let factor := inject_Z (10 ^ (MAX_DIGITS_IN_UNSIGNED_256_INT - 1)) in
  let salt := integerValue (randomNumber * factor)%Q in
  BN_decimal (BigNumber_toString salt).

Record SellOrderArgs : Type := {
  so_accountAddress : string;
  so_asset : NftAsset;
  so_buyerAddress : string;
  so_endAmount : option number;
  so_englishAuctionReservePrice : option number;   (* default 0 *)
  so_expirationTime : number;
  so_extraBountyBasisPoints : option number;       (* default 2.5 *)
  so_listingTime : option number;
  so_paymentTokenAddress : string;
  so_quantity : number;
  so_startAmount : number;
  so_waitForHighestBid : bool
}.

Definition default {A : Type} (d : A) (o : option A) : A :=
  match o with
  | Some a => a
  | None => d
  end.

(** [schemaMap[name]], and the [TypeError] of the first property read on a
    missing entry. *)
Definition lookupSchema (name : string) : Result Schema :=
  match schemaMap name with
  | Some s => Ok s
  | None => Throw TypeError
  end.

Definition SELL_REPLACEMENT_PATTERN : string :=
  "0x000000000000000000000000000000000000000000000000000000000000000000000000ffffffffffffffffffffffffffffffffffffffffffffffffffffffffffffffff0000000000000000000000000000000000000000000000000000000000000000000000000000000000000000000000000000000000000000000000000000000000000000000000000000000000000000000000000000000000000000000000000000000000000000000000000000000000000000000000000000000000000000".

Definition MATCHING_REPLACEMENT_PATTERN : string :=
  "0x00000000ffffffffffffffffffffffffffffffffffffffffffffffffffffffffffffffff00000000000000000000000000000000000000000000000000000000000000000000000000000000000000000000000000000000000000000000000000000000000000000000000000000000000000000000000000000000000000000000000000000000000000000000000000000000000000000000000000000000000000000000000000000000000000000000000000000000000000000000000000000000".

Definition EXCHANGE_ADDRESS : string := "0x7Be8076f4EA4A4AD08075C2508e481d6C946D12b".

Definition _makeSellOrder (w : World) (a : SellOrderArgs) : Result Order :=
  let asset := so_asset a in
  let englishAuctionReservePrice := Some (default 0%Q (so_englishAuctionReservePrice a)) in
  let extraBountyBasisPoints := default (5 # 2)%Q (so_extraBountyBasisPoints a) in
  let* fees := computeFees (Some asset) extraBountyBasisPoints NftOrderSide_Sell in
  let* schema := lookupSchema (default WyvernSchemaName_ERC721
                                 (ac_schema_name (asset_contract asset))) in
  let* enc := encodeSell schema (OfNftAsset asset) (so_accountAddress a) in
  let orderSaleKind :=
    match so_endAmount a with
    | Some e => if negb (num_eqb e (so_startAmount a))
                then NftSaleKind_DutchAuction else NftSaleKind_FixedPrice
    | None => NftSaleKind_FixedPrice
    end in
  let* price := _getPriceParameters NftOrderSide_Sell (so_paymentTokenAddress a)
                  (so_expirationTime a) (so_startAmount a) (so_endAmount a)
                  (so_waitForHighestBid a) englishAuctionReservePrice in
  let* times := _getTimeParameters (Date_now w) 0%Q
                  (Some (inject_Z (Math_round (seconds (Date_now w))))) false in
  let fp := _getSellFeeParameters (totalBuyerFeeBasisPoints fees)
              (totalSellerFeeBasisPoints fees) (so_waitForHighestBid a)
              (sellerBountyBasisPoints fees) in
  let id := toLowerCase (token_id asset) in
  Ok {| basePrice := pp_basePrice price;
        calldata := ce_calldata enc;
        englishAuctionReservePrice := pp_reservePrice price;
        exchange := toLowerCase EXCHANGE_ADDRESS;
        expirationTime := tp_expirationTime times;
        extra := pp_extra price;
        feeMethod := fp_feeMethod fp;
        feeRecipient := fp_feeRecipient fp;
        howToCall := HowToCall_Call;
        listingTime := tp_listingTime times;
        maker := so_accountAddress a;
        makerProtocolFee := fp_makerProtocolFee fp;
        makerReferrerFee := fp_makerReferrerFee fp;
        makerRelayerFee := fp_makerRelayerFee fp;
        metadata :=
          {| md_asset := Some {| wy_address := toLowerCase (ac_address (asset_contract asset));
                                 wy_id := if truthy_str id then id else NULL_ADDRESS;
                                 wy_quantity := Some "1"%string |};
             md_schema := schema_name schema;
             md_referrerAddress := None |};
        paymentToken := pp_paymentToken price;
        quantity := so_quantity a;
        replacementPattern := SELL_REPLACEMENT_PATTERN;
        saleKind := orderSaleKind;
        salt := generatePseudoRandomSalt w;
        side := NftOrderSide_Sell;
        staticExtradata := "0x";
        staticTarget := NULL_ADDRESS;
        taker := so_buyerAddress a;
        takerProtocolFee := fp_takerProtocolFee fp;
        takerRelayerFee := fp_takerRelayerFee fp;
        target := ce_target enc;
        waitingForBestCounterOrder := so_waitForHighestBid a;
        hash := None |}.

(** [{ ...order, hash: h }] *)
Definition withHash (o : Order) (h : string) : Order :=
  {| basePrice := basePrice o;
     calldata := calldata o;
     englishAuctionReservePrice := englishAuctionReservePrice o;
     exchange := exchange o;
     expirationTime := expirationTime o;
     extra := extra o;
     feeMethod := feeMethod o;
     feeRecipient := feeRecipient o;
     howToCall := howToCall o;
     listingTime := listingTime o;
     maker := maker o;
     makerProtocolFee := makerProtocolFee o;
     makerReferrerFee := makerReferrerFee o;
     makerRelayerFee := makerRelayerFee o;
     metadata := metadata o;
     paymentToken := paymentToken o;
     quantity := quantity o;
     replacementPattern := replacementPattern o;
     saleKind := saleKind o;
     salt := salt o;
     side := side o;
     staticExtradata := staticExtradata o;
     staticTarget := staticTarget o;
     taker := taker o;
     takerProtocolFee := takerProtocolFee o;
     takerRelayerFee := takerRelayerFee o;
     target := target o;
     waitingForBestCounterOrder := waitingForBestCounterOrder o;
     hash := Some h |}.

Definition computeOrderParams (order : Order) (recipientAddress : string)
  : Result CallEncoding :=
  match md_asset (metadata order) with
  | Some asset =>
      let* schema := lookupSchema (md_schema (metadata order)) in
      if side order =? NftOrderSide_Buy
      then encodeSell schema (OfWyvernAsset asset) recipientAddress
      else encodeBuy schema asset recipientAddress
  | None => Throw InvalidOrderMetadata
  end.

Definition _makeMatchingOrder (w : World) (accountAddress : string) (offer : option string)
    (order : Order) (recipientAddress : string) : Result Order :=
  let* accountAddress := utils_getAddress accountAddress in
  let* recipientAddress := utils_getAddress recipientAddress in
  let* enc := computeOrderParams order recipientAddress in
  let* times := _getTimeParameters (Date_now w) 0%Q None false in
  let feeRecipient :=
    if (feeRecipient order =? NULL_ADDRESS)%string then OPENSEA_FEE_RECIPIENT
    else NULL_ADDRESS in
  let matchingOrder :=
    {| basePrice := match offer with
                    | Some o => if truthy_str o then BigNumber_fromString o
                                else basePrice order
                    | None => basePrice order
                    end;
       calldata := ce_calldata enc;
       englishAuctionReservePrice := None;
       exchange := exchange order;
       expirationTime := tp_expirationTime times;
       extra := 0%Q;
       feeMethod := feeMethod order;
       feeRecipient := feeRecipient;
       howToCall := howToCall order;
       listingTime := tp_listingTime times;
       maker := accountAddress;
       makerProtocolFee := makerProtocolFee order;
       makerReferrerFee := makerReferrerFee order;
       makerRelayerFee := makerRelayerFee order;
       metadata := metadata order;
       paymentToken := paymentToken order;
       quantity := quantity order;
       replacementPattern := MATCHING_REPLACEMENT_PATTERN;
       saleKind := saleKind order;
       salt := generatePseudoRandomSalt w;
       side := Z.rem (side order + 1) 2;
       staticExtradata := "0x";
       staticTarget := NULL_ADDRESS;
       taker := maker order;
       takerProtocolFee := takerProtocolFee order;
       takerRelayerFee := takerRelayerFee order;
       target := ce_target enc;
       waitingForBestCounterOrder := false;
       hash := None |} in
  let* h := getOrderHash matchingOrder in
  Ok (withHash matchingOrder h).

End Builders.

(** ** On-chain steps: proxy, ownership, approvals, match *)

Inductive GasOutcome : Type :=
| GasEstimate (n : Z)      (* the estimation answers *)
| GasUnpredictable         (* rejects with code UNPREDICTABLE_GAS_LIMIT *)
| GasServerError           (* rejects with code SERVER_ERROR *)
| GasOtherError.           (* rejects with another code *)

Record TxnData : Type := {
  txn_from : string;
  txn_gasLimit : Z;
  txn_value : string
}.

(** The answers of the node and of the signer. A read that is repeated after
    a delay carries the number of the attempt, so that a later attempt may
    answer differently. *)
(** The receipt of a mined transaction, by what the module reads of it. *)
Record Receipt : Type := {
  receipt_status : bool;
  receipt_logs : nat       (* receipt.logs.length *)
}.

Class Chain : Type := {
  signer_getAddress : string;
  (* wyvernProxyRegistry.proxies(address) *)
  registry_proxies : nat -> Result (option string);
  (* registerProxy followed by the wait for its receipt *)
  registry_registerProxy : Result unit;
  estimateGas_registerProxy : GasOutcome;
  (* erc1155Contract.balanceOf(account, id); [None] is an undefined count *)
  erc1155_balanceOf : string -> string -> string -> nat -> Result (option Z);
  (* erc721Contract.ownerOf(id) *)
  erc721_ownerOf : string -> string -> nat -> Result (option string);
  (* parseInt(await tokenContract.isApprovedForAll(account, proxy)); the last
     argument tells the check before the transaction from the one after *)
  token_isApprovedForAll : string -> string -> string -> bool -> Result (option Z);
  (* setApprovalForAll(proxy, true) and its receipt: [None] is a null
     transaction *)
  token_setApprovalForAll : string -> string -> Result (option Receipt);
  (* the outcome of the calls made by _buyOrderValidationAndApprovals,
     validateOrderParameters and _validateMatch *)
  buyOrderValidation_outcome : Order -> Result unit;
  (* wyvernExchangeContract.validateOrderParameters_(...), with the
     conversions of its arguments *)
  exchange_validateOrderParameters : Order -> Result bool;
  validateMatch_outcome : Order -> Order -> Result unit;
  estimateGas_atomicMatch : Order -> Order -> TxnData -> GasOutcome
}.

Record AssetRef : Type := {
  ar_schemaName : option string;
  ar_tokenAddress : string;
  ar_tokenId : option string
}.

Section OnChain.
Context {L : Libraries} {SM : Schemas} {C : Chain}.

Definition safeGasEstimation (outcome : GasOutcome) (txData : TxnData) : Result Z :=
  match outcome with
  | GasEstimate n => Ok n
  | GasUnpredictable => Throw TransactionWillFail
  | GasServerError => Ok (txn_gasLimit txData)
  | GasOtherError => Ok (txn_gasLimit txData)
  end.

Fixpoint _getProxy_from (attempt retries : nat) : Result (option string) :=
  let* proxyAddress := registry_proxies attempt in
  match proxyAddress with
  | Some "0x"%string => Throw AccountNotRetrieved
  | _ =>
      let missing :=
        match proxyAddress with
        | Some p => negb (truthy_str p) || (p =? NULL_ADDRESS)%string
        | None => true
        end in
      if missing then
        match retries with
        | S r => _getProxy_from (S attempt) r
        | O => Ok None
        end
      else Ok proxyAddress
  end.

Definition _getProxy (retries : nat) : Result (option string) := _getProxy_from 0 retries.

Definition _initializeProxy : Result string :=
  let* _ := safeGasEstimation estimateGas_registerProxy
              {| txn_from := ""; txn_gasLimit := 410000; txn_value := "" |} in
  let* _ := registry_registerProxy in
  let* proxyAddress := _getProxy_from 1 10 in
  match proxyAddress with
  | Some p => Ok p
  | None => Throw ProxyInitializationFailed
  end.

Fixpoint getAssetBalance_from (attempt : nat) (accountAddress : string) (asset : AssetRef)
    (retries : nat) : Result BigNumber :=
  let schema := schemaMap (default WyvernSchemaName_ERC721 (ar_schemaName asset)) in
  match ar_tokenId asset with
  | None => Throw TokenIdRequired
  | Some tokenId =>
      if negb (truthy_str tokenId) then Throw TokenIdRequired
      else
        let address := toLowerCase (ar_tokenAddress asset) in
        let id := toLowerCase tokenId in
        let again :=
          match retries with
          | O => Throw UnableToGetOwner
          | S r => getAssetBalance_from (S attempt) accountAddress asset r
          end in
        match schema with
        | None => Throw TypeError
        | Some schema =>
            if functions_countOf schema then
              let* count := erc1155_balanceOf address accountAddress id attempt in
              match count with
              | Some c => Ok (inject_Z c)
              | None => again
              end
            else if functions_ownerOf schema then
              let* owner := erc721_ownerOf address id attempt in
              match owner with
              | Some o =>
                  if truthy_str o then
                    Ok (if (toLowerCase o =? toLowerCase accountAddress)%string
                        then 1%Q else 0%Q)
                  else again
              | None => again
              end
            else Throw MissingOwnershipSchema
        end
  end.

(** The default number of retries is 1. *)
Definition getAssetBalance (accountAddress : string) (asset : AssetRef) : Result BigNumber :=
  getAssetBalance_from 0 accountAddress asset 1.

Definition _ownsAssetOnChain (accountAddress : string) (proxyAddress : option string)
    (schemaName : option string) (wyAsset : WyvernAsset) : Result bool :=
  let asset := {| ar_schemaName := schemaName;
                  ar_tokenAddress := wy_address wyAsset;
                  ar_tokenId := if truthy_str (wy_id wyAsset)
                                then Some (wy_id wyAsset) else None |} in
  let minAmount := match wy_quantity wyAsset with
                   | Some q => BigNumber_fromString q
                   | None => 1%Q
                   end in
  let* accountBalance := getAssetBalance accountAddress asset in
  if num_geb accountBalance minAmount then Ok true
  else
    (* without a proxy address the lookup is called with the account address
       in the place of the signer, which the contract constructor refuses *)
    let* proxy := match proxyAddress with
                  | Some p => if truthy_str p then Ok (Some p) else Throw LibraryError
                  | None => Throw LibraryError
                  end in
    match proxy with
    | Some p =>
        let* proxyBalance := getAssetBalance p asset in
        Ok (num_geb proxyBalance minAmount)
    | None => Ok false
    end.

Definition set_has (s : list string) (x : string) : bool := existsb (String.eqb x) s.
Definition set_add (s : list string) (x : string) : list string :=
  if set_has s x then s else s ++ [x].

(** What approveSemiOrNonFungibleToken resolves to, and the set
    [skipApproveAllIfTokenAddressIn] after the call. *)
Inductive Approval : Type :=
| NoTransaction            (* null *)
| Transaction              (* the transaction that was sent *)
| NothingDone.             (* undefined: the contract answered neither 0 nor 1 *)

Definition approveSemiOrNonFungibleToken (tokenAddress accountAddress proxyAddress : string)
    (skipApproveAllIfTokenAddressIn : list string) : Result (Approval * list string) :=
  let skip := skipApproveAllIfTokenAddressIn in
  let* isApprovedForAll :=
    token_isApprovedForAll tokenAddress accountAddress proxyAddress false in
  match isApprovedForAll with
  | Some 1 => Ok (NoTransaction, skip)
  | Some 0 =>
      if set_has skip tokenAddress then Ok (NoTransaction, skip)
      else
        let skip' := set_add skip tokenAddress in
        match token_setApprovalForAll tokenAddress proxyAddress with
        | Throw _ => Throw ApprovalFailed
        | Ok None => Throw ApprovalFailed
        | Ok (Some receipt) =>
            if receipt_status receipt then
              (* [receipt.logs[1].transactionHash] is read for the log line *)
              if (receipt_logs receipt <? 2)%nat then Throw ApprovalFailed
              else
                match token_isApprovedForAll tokenAddress accountAddress proxyAddress
                        true with
                | Throw _ => Throw ApprovalFailed
                | Ok (Some 1) => Ok (Transaction, skip')
                | Ok _ => Ok (NoTransaction, skip')
                end
            else Ok (Transaction, skip')
        end
  | _ => Ok (NothingDone, skip)
  end.

(** The ownership verdict of the callback of _approveAll: the answer of
    _ownsAssetOnChain, and [true] in the handler of the exception. *)
Definition isOwner (accountAddress proxyAddress : string) (schemaName : option string)
    (wyAsset : WyvernAsset) : bool :=
  match _ownsAssetOnChain accountAddress (Some proxyAddress) schemaName wyAsset with
  | Ok b => b
  | Throw _ => true
  end.

(** [case] labels of the switch on the schema name. *)
Definition approvableSchema (schemaName : option string) : bool :=
  match schemaName with
  | Some n => (n =? WyvernSchemaName_ERC721)%string
              || (n =? WyvernSchemaName_ERC1155)%string
              || (n =? WyvernSchemaName_LegacyEnjin)%string
              || (n =? WyvernSchemaName_ENSShortNameAuction)%string
  | None => false
  end.

(** The callback that _approveAll maps over the assets; [schemaName] is
    [schemaNames[i]], [None] when the list is too short. *)
Definition approveOne (accountAddress proxyAddress : string)
    (contractsWithApproveAll : list string) (wyAsset : WyvernAsset)
    (schemaName : option string) : Result (Approval * list string) :=
  if negb (isOwner accountAddress proxyAddress schemaName wyAsset) then Throw NotEnoughOwned
  else if approvableSchema schemaName then
    approveSemiOrNonFungibleToken (wy_address wyAsset) accountAddress proxyAddress
      contractsWithApproveAll
  else Throw UnknownSchema.

(** [wyAssets.map(async (wyAsset, i) => ...)], the assets taken in order, the
    set of contracts shared by the callbacks. *)
Fixpoint approveEach (accountAddress proxyAddress : string) (set : list string)
    (wyAssets : list WyvernAsset) (schemaNames : list string)
  : Result (list Approval) :=
  match wyAssets with
  | [] => Ok []
  | wyAsset :: rest =>
      let* r := approveOne accountAddress proxyAddress set wyAsset (hd_error schemaNames) in
      let* rs := approveEach accountAddress proxyAddress (snd r) rest (tl schemaNames) in
      Ok (fst r :: rs)
  end.

Definition _approveAll (proxyAddress : option string) (schemaNames : list string)
    (wyAssets : list WyvernAsset) : Result (list Approval) :=
  let* found := match proxyAddress with
                | Some p => if truthy_str p then Ok (Some p) else _getProxy 0
                | None => _getProxy 0
                end in
  let* proxy := match found with
                | Some p => Ok p
                | None => _initializeProxy
                end in
  approveEach signer_getAddress proxy [] wyAssets schemaNames.

Definition validateOrderParameters (order : Order) : Result bool :=
  let* orderValid := exchange_validateOrderParameters order in
  if negb orderValid then Throw InvalidOrderParameters else Ok orderValid.

(** The promise of validateOrderParameters is returned as it is, so it is
    the caller's [await] that settles it: an order that the exchange finds
    invalid rejects the call. *)
Definition _sellOrderValidationAndApprovals (order : Order) : Result unit :=
  let wyAssets := match md_asset (metadata order) with
                  | Some a => [a]
                  | None => []
                  end in
  let schemaNames := [md_schema (metadata order)] in
  let* _ := _approveAll None schemaNames wyAssets in
  let* _ := validateOrderParameters order in
  Ok tt.

(** What _atomicMatch has computed when it reaches the submission: the local
    [value] ([None] is undefined) and the transaction data. *)
Record AtomicMatch : Type := {
  am_value : option BigNumber;
  am_txnData : TxnData
}.

Definition _atomicMatch (buy sell : Order) : Result AtomicMatch :=
  let accountAddress := toLowerCase signer_getAddress in
  let* _ :=
    if (toLowerCase (maker sell) =? accountAddress)%string
    then _sellOrderValidationAndApprovals sell
    else if (toLowerCase (maker buy) =? accountAddress)%string
    then buyOrderValidation_outcome buy
    else Ok tt in
  let value :=
    if (paymentToken buy =? NULL_ADDRESS)%string then
      let fee := (takerRelayerFee sell / inject_Z INVERSE_BASIS_POINT * basePrice sell)%Q in
      Some (basePrice sell + fee)%Q
    else None in
  let* _ := validateMatch_outcome buy sell in
  let txnData :=
    {| txn_from := accountAddress;
       txn_gasLimit := 350000;
       txn_value := if (paymentToken sell =? NULL_ADDRESS)%string
                    then BigNumber_toString (basePrice sell) else "0" |} in
  let* gasLimit := safeGasEstimation (estimateGas_atomicMatch buy sell txnData) txnData in
  Ok {| am_value := value;
        am_txnData := {| txn_from := txn_from txnData;
                         txn_gasLimit := gasLimit;
                         txn_value := txn_value txnData |} |}.

End OnChain.

(** ** Statement of the timing rules *)

Module TimeRules.

(** The listing time counts as given when the argument is present and is not
    zero (the source tests its truthiness). *)
Definition listing_given (l : option number) (v : number) : Prop :=
  l = Some v /\ ~ (v == 0)%Q.

(** The conditions under which the timing parameters are accepted. *)
Record accepted (now : Z) (e : number) (l : option number) (w : bool) : Prop := {
  acc_expiration : (e == 0)%Q \/ (minExpirationTimestamp now <= e)%Q;
  acc_listing_not_past : forall v, listing_given l v -> (minListingTimestamp now <= v)%Q;
  acc_listing_before : forall v, listing_given l v -> (e == 0)%Q \/ (v < e)%Q;
  acc_english_expires : w = true -> ~ (e == 0)%Q;
  acc_english_now : w = true -> forall v, ~ listing_given l v;
  acc_whole : exists z : Z, (e == inject_Z z)%Q /\ Z.abs z < 10 ^ 21
}.

(** The parameters returned on success. *)
Definition returned (now : Z) (e : number) (l : option number) (w : bool)
  : TimeParameters :=
  if w then
    {| tp_expirationTime := (e + inject_Z 604800)%Q; tp_listingTime := e |}
  else
    {| tp_expirationTime := e;
       tp_listingTime :=
         match l with
         | Some v => if Qeq_bool v 0 then inject_Z (Math_round (seconds now - inject_Z 100)%Q) else v
         | None => inject_Z (Math_round (seconds now - inject_Z 100)%Q)
         end |}.

End TimeRules.

(** ** Statement of the hash properties *)

Inductive AddressField : Type :=
| FExchange | FMaker | FTaker | FFeeRecipient | FTarget | FStaticTarget | FPaymentToken.

Definition getAddressField (f : AddressField) (o : Order) : string :=
  match f with
  | FExchange => exchange o
  | FMaker => maker o
  | FTaker => taker o
  | FFeeRecipient => feeRecipient o
  | FTarget => target o
  | FStaticTarget => staticTarget o
  | FPaymentToken => paymentToken o
  end.

(** The order with one address field replaced. *)
Definition setAddressField (f : AddressField) (s : string) (o : Order) : Order :=
  {| basePrice := basePrice o;
     calldata := calldata o;
     englishAuctionReservePrice := englishAuctionReservePrice o;
     exchange := match f with FExchange => s | _ => exchange o end;
     expirationTime := expirationTime o;
     extra := extra o;
     feeMethod := feeMethod o;
     feeRecipient := match f with FFeeRecipient => s | _ => feeRecipient o end;
     howToCall := howToCall o;
     listingTime := listingTime o;
     maker := match f with FMaker => s | _ => maker o end;
     makerProtocolFee := makerProtocolFee o;
     makerReferrerFee := makerReferrerFee o;
     makerRelayerFee := makerRelayerFee o;
     metadata := metadata o;
     paymentToken := match f with FPaymentToken => s | _ => paymentToken o end;
     quantity := quantity o;
     replacementPattern := replacementPattern o;
     saleKind := saleKind o;
     salt := salt o;
     side := side o;
     staticExtradata := staticExtradata o;
     staticTarget := match f with FStaticTarget => s | _ => staticTarget o end;
     taker := match f with FTaker => s | _ => taker o end;
     takerProtocolFee := takerProtocolFee o;
     takerRelayerFee := takerRelayerFee o;
     target := match f with FTarget => s | _ => target o end;
     waitingForBestCounterOrder := waitingForBestCounterOrder o;
     hash := hash o |}.

(** The address fields that getOrderHash lowercases. *)
Definition lowercased (f : AddressField) : bool :=
  match f with
  | FMaker | FTaker | FFeeRecipient => true
  | _ => false
  end.

(** The Solidity types of the 23 parts, in the order of getOrderHashHex. *)
Definition orderTypes : list SolidityTypes :=
  [ Address; Address; Address; Uint256; Uint256; Uint256; Uint256; Address;
    Uint8; Uint8; Uint8; Address; Uint8; Bytes; Bytes; Address; Bytes; Address;
    Uint256; Uint256; Uint256; Uint256; Uint256 ].

(** Two orders agree on what the hash reads of them: the 23 hashed fields,
    maker, taker and fee recipient up to letter case, the amounts up to their
    printed form, the three byte strings up to the buffer decoded from them. *)
Record sameHashFields {L : Libraries} (o o' : Order) : Prop := {
  same_exchange : exchange o = exchange o';
  same_maker : toLowerCase (maker o) = toLowerCase (maker o');
  same_taker : toLowerCase (taker o) = toLowerCase (taker o');
  same_makerRelayerFee :
    BigNumber_toString (makerRelayerFee o) = BigNumber_toString (makerRelayerFee o');
  same_takerRelayerFee :
    BigNumber_toString (takerRelayerFee o) = BigNumber_toString (takerRelayerFee o');
  same_makerProtocolFee :
    BigNumber_toString (makerProtocolFee o) = BigNumber_toString (makerProtocolFee o');
  same_takerProtocolFee :
    BigNumber_toString (takerProtocolFee o) = BigNumber_toString (takerProtocolFee o');
  same_feeRecipient : toLowerCase (feeRecipient o) = toLowerCase (feeRecipient o');
  same_feeMethod : feeMethod o = feeMethod o';
  same_side : side o = side o';
  same_saleKind : saleKind o = saleKind o';
  same_target : target o = target o';
  same_howToCall : howToCall o = howToCall o';
  same_calldata :
    Buffer_from_hex (slice 2 (calldata o)) = Buffer_from_hex (slice 2 (calldata o'));
  same_replacementPattern :
    Buffer_from_hex (slice 2 (replacementPattern o))
    = Buffer_from_hex (slice 2 (replacementPattern o'));
  same_staticTarget : staticTarget o = staticTarget o';
  same_staticExtradata :
    Buffer_from_hex (slice 2 (staticExtradata o))
    = Buffer_from_hex (slice 2 (staticExtradata o'));
  same_paymentToken : paymentToken o = paymentToken o';
  same_basePrice : BigNumber_toString (basePrice o) = BigNumber_toString (basePrice o');
  same_extra : BigNumber_toString (extra o) = BigNumber_toString (extra o');
  same_listingTime :
    BigNumber_toString (listingTime o) = BigNumber_toString (listingTime o');
  same_expirationTime :
    BigNumber_toString (expirationTime o) = BigNumber_toString (expirationTime o');
  same_salt : salt o = salt o'
}.

(** ** Reference instances, for running the functions on examples *)

Module Reference.

(** A 32-byte word in hexadecimal (64 digits), big endian. *)
Definition hexWord (z : Z) : string :=
  string_of_list_ascii
    (map (fun i => hexChar (Z.to_N ((z / 16 ^ (63 - Z.of_nat i)) mod 16))) (seq 0 64)).

Definition zeros (n : nat) : string := string_of_list_ascii (repeat "0"%char n).

Definition padLeft (h : string) : string := (zeros (64 - String.length h) ++ h)%string.

Definition padRight (h : string) : string :=
  (h ++ zeros ((64 - Nat.modulo (String.length h) 64) mod 64))%string.

Definition allDigits (s : string) : bool :=
  truthy_str s
  && forallb (fun c => let n := nat_of_ascii c in (48 <=? n)%nat && (n <=? 57)%nat)
       (list_ascii_of_string s).

Inductive Encoded : Type :=
| Head (word : string)       (* a static value: one word in the head *)
| Tail (bytes : string).     (* a dynamic value: an offset in the head, the rest in the tail *)

(** The ABI encoding of one value, for the single-word static types and for
    [bytes]. *)
Definition encodeValue (ty : string) (v : JsValue) : Result Encoded :=
  if (ty =? "bytes")%string then
    match v with
    | JStr s =>
        if String.prefix "0x" s
        then Ok (Tail (hexWord (Z.of_nat (byteLength s))
                       ++ padRight (toLowerCase (slice 2 s))))
        else Throw LibraryError
    | JEmptyArray => Ok (Tail (hexWord 0))
    | _ => Throw LibraryError
    end
  else
    match v with
    | JStr s =>
        if String.prefix "0x" s then Ok (Head (padLeft (toLowerCase (slice 2 s))))
        else if allDigits s then
          match ethABI_local.parseInt s with
          | Some z => Ok (Head (hexWord z))
          | None => Throw LibraryError
          end
        else Throw LibraryError
    | JNum n => Ok (Head (hexWord (Qfloor n)))
    | JBool b => Ok (Head (hexWord (if b then 1 else 0)))
    | _ => Throw LibraryError
    end.

Fixpoint assemble (encs : list Encoded) (offset : Z) : string * string :=
  match encs with
  | [] => (EmptyString, EmptyString)
  | Head w :: r => let (h, t) := assemble r offset in ((w ++ h)%string, t)
  | Tail b :: r =>
      let (h, t) := assemble r (offset + Z.of_nat (String.length b / 2)) in
      ((hexWord offset ++ h)%string, (b ++ t)%string)
  end.

Fixpoint encodeValues (types : list string) (values : list JsValue)
  : Result (list Encoded) :=
  match types, values with
  | [], [] => Ok []
  | ty :: tr, v :: vr =>
      let* e := encodeValue ty v in
      let* es := encodeValues tr vr in
      Ok (e :: es)
  | _, _ => Throw LibraryError
  end.

Definition abiEncode (types : list string) (values : list JsValue) : Result string :=
  let* encs := encodeValues types values in
  let (h, t) := assemble encs (32 * Z.of_nat (List.length types)) in
  Ok ("0x" ++ h ++ t)%string.

Definition sighash (abi : FunctionAbi) : Result string :=
  if (abi_name abi =? "transferFrom")%string then Ok "0x23b872dd"%string
  else if (abi_name abi =? "safeTransferFrom")%string then Ok "0xf242432a"%string
  else Throw LibraryError.

Definition erc1155Encode (fn : string) (values : list JsValue) : Result string :=
  if (fn =? "safeTransferFrom")%string then
    let* enc := abiEncode ["address"; "address"; "uint256"; "uint256"; "bytes"]%string values in
    Ok ("0xf242432a" ++ slice 2 enc)%string
  else Throw LibraryError.

(** A stand-in for the digest: the printed arguments, one after the other. It
    is not a hash; it only makes the functions that call the digest run. *)
Definition printedArguments (types : list SolidityTypes) (values : list JsValue)
  : Result string :=
  Ok (String.concat ","
        (map (fun v => match v with
                       | JStr s => s
                       | JBuf b => Buffer_toString_hex b
                       | _ => ""%string
                       end) values)).

Definition wholeToString (q : Q) : string :=
  if Qeq_bool (inject_Z (Qfloor q)) q then Z_toString (Qfloor q)
  else (Z_toString (Qnum q) ++ "/" ++ Z_toString (Zpos (Qden q)))%string.

Definition wholeOfString (s : string) : Q :=
  match ethABI_local.parseInt s with
  | Some z => inject_Z z
  | None => 0%Q
  end.

#[global] Instance libraries : Libraries := {|
  solidityKeccak256 := printedArguments;
  defaultAbiCoder_encode := abiEncode;
  Interface_getSighash := sighash;
  ERC1155_encodeFunctionData := erc1155Encode;
  utils_getAddress := fun s =>
    if String.prefix "0x" s && (String.length s =? 42)%nat then Ok s else Throw LibraryError;
  utils_parseEther := fun s =>
    if allDigits s then Ok (wholeOfString s * inject_Z (10 ^ 18))%Q else Throw LibraryError;
  Number_toString := wholeToString;
  BigNumber_toString := wholeToString;
  BigNumber_fromString := wholeOfString;
  BN_decimal := fun s => s
|}.

(** Modelled from the spec: the schema table is not among the translated
    sources. This is its ERC-721 entry as the spec describes a transfer
    template: the owner, the replaceable destination and the token id of the
    asset, for [transferFrom(address,address,uint256)], with an ownership
    check by [ownerOf]. *)
Definition ERC721Schema : Schema := {|
  schema_name := "ERC721";
  assetFromFields := fun f =>
    {| wy_address := f_Address f; wy_id := f_ID f; wy_quantity := None |};
  functions_transfer := fun asset =>
    {| abi_name := "transferFrom";
       inputs := [ {| kind := Owner; name := "_from"; type := "address";
                      value := JUndefined |};
                   {| kind := Replaceable; name := "_to"; type := "address";
                      value := JUndefined |};
                   {| kind := Asset; name := "_tokenId"; type := "uint256";
                      value := JStr (wy_id asset) |} ];
       abi_target := wy_address asset |};
  functions_countOf := false;
  functions_ownerOf := true
|}.

(** Modelled from the spec: the ERC-1155 entry of the schema table, for
    [safeTransferFrom(address,address,uint256,uint256,bytes)]: the owner, the
    replaceable destination, the token id and the quantity of the asset, and
    empty data, with an ownership check by balance. *)
Definition ERC1155Schema : Schema := {|
  schema_name := "ERC1155";
  assetFromFields := fun f =>
    {| wy_address := f_Address f; wy_id := f_ID f; wy_quantity := Some (f_Quantity f) |};
  functions_transfer := fun asset =>
    {| abi_name := "safeTransferFrom";
       inputs := [ {| kind := Owner; name := "_from"; type := "address";
                      value := JUndefined |};
                   {| kind := Replaceable; name := "_to"; type := "address";
                      value := JUndefined |};
                   {| kind := Asset; name := "_id"; type := "uint256";
                      value := JStr (wy_id asset) |};
                   {| kind := Asset; name := "_value"; type := "uint256";
                      value := optStr (wy_quantity asset) |};
                   {| kind := Asset; name := "_data"; type := "bytes";
                      value := JStr "" |} ];
       abi_target := wy_address asset |};
  functions_countOf := true;
  functions_ownerOf := false
|}.

#[global] Instance schemas : Schemas := {|
  schemaMap := fun n =>
    if (n =? "ERC721")%string then Some ERC721Schema
    else if (n =? "ERC1155")%string then Some ERC1155Schema
    else None
|}.

Definition account : string := "0x1111111111111111111111111111111111111111".
Definition seller : string := "0x2222222222222222222222222222222222222222".
Definition proxy : string := "0x3333333333333333333333333333333333333333".
Definition token : string := "0x4444444444444444444444444444444444444444".

(** A node on which the account has a proxy, owns nothing that asks for a
    retry, and has not yet approved the proxy. *)
#[global] Instance chain : Chain := {|
  signer_getAddress := account;
  registry_proxies := fun _ => Ok (Some proxy);
  registry_registerProxy := Ok tt;
  estimateGas_registerProxy := GasEstimate 400000;
  erc1155_balanceOf := fun _ _ _ _ => Ok (Some 1);
  erc721_ownerOf := fun _ _ _ => Ok (Some seller);
  token_isApprovedForAll := fun _ _ _ after => Ok (Some (if after then 1 else 0));
  token_setApprovalForAll := fun _ _ =>
    Ok (Some {| receipt_status := true; receipt_logs := 2 |});
  buyOrderValidation_outcome := fun _ => Ok tt;
  exchange_validateOrderParameters := fun _ => Ok true;
  validateMatch_outcome := fun _ _ => Ok tt;
  estimateGas_atomicMatch := fun _ _ _ => GasEstimate 200000
|}.

(** Sunday 1 January 2023, 00:00:00.250 UTC; a draw of 0.5. *)
Definition world : World := {| Date_now := 1672531200250; BigNumber_random := (1 # 2)%Q |}.

Definition asset : NftAsset := {|
  asset_contract := {| ac_address := token;
                       ac_schema_name := Some "ERC1155"%string;
                       opensea_buyer_fee_basis_points := 0%Q;
                       opensea_seller_fee_basis_points := 250%Q;
                       dev_buyer_fee_basis_points := 0%Q;
                       dev_seller_fee_basis_points := 0%Q |};
  collection := None;
  token_id := "42";
  asset_name := "item";
  transfer_fee := None;
  transfer_fee_payment_token := None
|}.

Definition sellArgs : SellOrderArgs := {|
  so_accountAddress := seller;
  so_asset := asset;
  so_buyerAddress := NULL_ADDRESS;
  so_endAmount := None;
  so_englishAuctionReservePrice := None;
  so_expirationTime := 0%Q;
  so_extraBountyBasisPoints := Some 0%Q;
  so_listingTime := None;
  so_paymentTokenAddress := NULL_ADDRESS;
  so_quantity := 1%Q;
  so_startAmount := 1%Q;
  so_waitForHighestBid := false
|}.

(** A fixed-price listing of token 42 of an ERC-721 contract, priced 10000
    base units in the native asset, with a taker relayer fee of 250 basis
    points. *)
Definition sellOrder : Order := {|
  basePrice := 10000%Q;
  calldata := "0x23b872dd";
  englishAuctionReservePrice := None;
  exchange := "0x7be8076f4ea4a4ad08075c2508e481d6c946d12b";
  expirationTime := 0%Q;
  extra := 0%Q;
  feeMethod := FeeMethod_SplitFee;
  feeRecipient := OPENSEA_FEE_RECIPIENT;
  howToCall := HowToCall_Call;
  listingTime := 1672531000%Q;
  maker := seller;
  makerProtocolFee := 0%Q;
  makerReferrerFee := 0%Q;
  makerRelayerFee := 0%Q;
  metadata := {| md_asset := Some {| wy_address := token; wy_id := "42";
                                     wy_quantity := None |};
                 md_schema := "ERC721";
                 md_referrerAddress := None |};
  paymentToken := NULL_ADDRESS;
  quantity := 1%Q;
  replacementPattern := "0x00000000";
  saleKind := NftSaleKind_FixedPrice;
  salt := "1";
  side := NftOrderSide_Sell;
  staticExtradata := "0x";
  staticTarget := NULL_ADDRESS;
  taker := NULL_ADDRESS;
  takerProtocolFee := 0%Q;
  takerRelayerFee := 250%Q;
  target := token;
  waitingForBestCounterOrder := false;
  hash := None
|}.

(** The listing with its maker written in capital and in small letters, and
    with its exchange written in capital letters. *)
Definition makerUpper : string := "0xABCDEFABCDEFABCDEFABCDEFABCDEFABCDEFABCD".
Definition makerLower : string := "0xabcdefabcdefabcdefabcdefabcdefabcdefabcd".
Definition exchangeUpper : string := "0x7BE8076F4EA4A4AD08075C2508E481D6C946D12B".

(** The matching order of the listing and the order built for the asset, as
    the functions return them on the reference node. *)
Definition matchingOrder : Order :=
  Eval vm_compute in
    match _makeMatchingOrder world account None sellOrder account with
    | Ok m => m
    | Throw _ => sellOrder
    end.

Definition builtOrder : Order :=
  Eval vm_compute in
    match _makeSellOrder world sellArgs with
    | Ok o => o
    | Throw _ => sellOrder
    end.

(** The buyer's side of the listing: the same terms, made by the account. *)
Definition buyOrder : Order := setAddressField FMaker account sellOrder.

(** A node that rejects every [ownerOf] call (the call reverts, or the node
    cannot be reached). *)
Definition failingChain : Chain := {|
  signer_getAddress := account;
  registry_proxies := fun _ => Ok (Some proxy);
  registry_registerProxy := Ok tt;
  estimateGas_registerProxy := GasEstimate 400000;
  erc1155_balanceOf := fun _ _ _ _ => Throw LibraryError;
  erc721_ownerOf := fun _ _ _ => Throw LibraryError;
  token_isApprovedForAll := fun _ _ _ after => Ok (Some (if after then 1 else 0));
  token_setApprovalForAll := fun _ _ =>
    Ok (Some {| receipt_status := true; receipt_logs := 2 |});
  buyOrderValidation_outcome := fun _ => Ok tt;
  exchange_validateOrderParameters := fun _ => Ok true;
  validateMatch_outcome := fun _ _ => Ok tt;
  estimateGas_atomicMatch := fun _ _ _ => GasEstimate 200000
|}.

Definition token42 : WyvernAsset :=
  {| wy_address := token; wy_id := "42"; wy_quantity := None |}.

(** A function with one replaceable [uint256] input, and one with a [bytes]
    input that is not replaceable and carries a value. *)
Definition oneUint : FunctionAbi :=
  {| abi_name := "transferFrom";
     inputs := [ {| kind := Replaceable; name := "_amount"; type := "uint256";
                    value := JUndefined |} ];
     abi_target := token |}.

Definition oneBytes : FunctionAbi :=
  {| abi_name := "transferFrom";
     inputs := [ {| kind := Asset; name := "_data"; type := "bytes";
                    value := JStr "0x12" |} ];
     abi_target := token |}.

(** An asset whose collection has a marketplace seller fee of 50 basis
    points. *)
Definition lowFeeAsset : NftAsset := {|
  asset_contract := {| ac_address := token;
                       ac_schema_name := Some "ERC1155"%string;
                       opensea_buyer_fee_basis_points := 0%Q;
                       opensea_seller_fee_basis_points := 50%Q;
                       dev_buyer_fee_basis_points := 0%Q;
                       dev_seller_fee_basis_points := 0%Q |};
  collection := None;
  token_id := "42";
  asset_name := "item";
  transfer_fee := None;
  transfer_fee_payment_token := None
|}.

End Reference.

(** ** Statement of the builder properties *)

(** The arguments of _makeSellOrder with another [listingTime], and with
    another [expirationTime]. *)
Definition withListingTime (a : SellOrderArgs) (l : option number) : SellOrderArgs :=
  {| so_accountAddress := so_accountAddress a;
     so_asset := so_asset a;
     so_buyerAddress := so_buyerAddress a;
     so_endAmount := so_endAmount a;
     so_englishAuctionReservePrice := so_englishAuctionReservePrice a;
     so_expirationTime := so_expirationTime a;
     so_extraBountyBasisPoints := so_extraBountyBasisPoints a;
     so_listingTime := l;
     so_paymentTokenAddress := so_paymentTokenAddress a;
     so_quantity := so_quantity a;
     so_startAmount := so_startAmount a;
     so_waitForHighestBid := so_waitForHighestBid a |}.

Definition withExpirationTime (a : SellOrderArgs) (e : number) : SellOrderArgs :=
  {| so_accountAddress := so_accountAddress a;
     so_asset := so_asset a;
     so_buyerAddress := so_buyerAddress a;
     so_endAmount := so_endAmount a;
     so_englishAuctionReservePrice := so_englishAuctionReservePrice a;
     so_expirationTime := e;
     so_extraBountyBasisPoints := so_extraBountyBasisPoints a;
     so_listingTime := so_listingTime a;
     so_paymentTokenAddress := so_paymentTokenAddress a;
     so_quantity := so_quantity a;
     so_startAmount := so_startAmount a;
     so_waitForHighestBid := so_waitForHighestBid a |}.

(** The build timestamp: [Math.round(Date.now() / 1000)]. *)
Definition buildTimestamp (w : World) : Z := Math_round (seconds (Date_now w)).

(** ** Further functions of the module *)

(** The errors of the functions below, beside those of the functions above. *)
Inductive Failure : Type :=
| Raised (e : Error)
| FeesAboveMaximum             (* Invalid buyer/seller fees: must be less than 100% *)
| FeesBelowZero                (* Invalid buyer/seller fees: must be at least 0% *)
| TooManyDecimalPlaces         (* Invalid unit amount: ... - Too many decimal places *)
| AuthorizationDeclined        (* You declined to authorize your auction *)
| DutchAuctionsNotSupported    (* Dutch auctions not currently supported *)
| SellOrderInvalid             (* Sell order is invalid *)
| BuyOrderInvalid.             (* Buy order is invalid *)

Inductive Outcome (A : Type) : Type :=
| Completed (a : A)
| Failed (f : Failure).
Arguments Completed {A} a.
Arguments Failed {A} f.

Definition raised {A : Type} (r : Result A) : Outcome A :=
  match r with
  | Ok a => Completed a
  | Throw e => Failed (Raised e)
  end.

Definition andThen {A B : Type} (r : Outcome A) (k : A -> Outcome B) : Outcome B :=
  match r with
  | Completed a => k a
  | Failed f => Failed f
  end.

Notation "'let+' x ':=' r 'in' k" := (andThen r (fun x => k))
  (at level 10, x pattern, r at level 100, k at level 200) : result_scope.

Definition _validateFees (totalBuyerFeeBasisPoints totalSellerFeeBasisPoints : number)
  : Outcome unit :=
  if num_gtb totalBuyerFeeBasisPoints (inject_Z INVERSE_BASIS_POINT)
     || num_gtb totalSellerFeeBasisPoints (inject_Z INVERSE_BASIS_POINT)
  then Failed FeesAboveMaximum
  else if num_ltb totalBuyerFeeBasisPoints 0%Q || num_ltb totalSellerFeeBasisPoints 0%Q
  then Failed FeesBelowZero
  else Completed tt.

Definition _getBuyFeeParameters (totalBuyerFeeBasisPoints totalSellerFeeBasisPoints : number)
    (sellOrder : option Order) : Outcome FeeParameters :=
  let+ _ := _validateFees totalBuyerFeeBasisPoints totalSellerFeeBasisPoints in
  let makerFee :=
    match sellOrder with
    | Some so => if waitingForBestCounterOrder so
                 then makerRelayerFee so else takerRelayerFee so
    | None => totalBuyerFeeBasisPoints
    end in
  let takerFee :=
    match sellOrder with
    | Some so => if waitingForBestCounterOrder so
                 then takerRelayerFee so else makerRelayerFee so
    | None => totalSellerFeeBasisPoints
    end in
  Completed {| fp_feeMethod := FeeMethod_SplitFee;
               fp_feeRecipient := OPENSEA_FEE_RECIPIENT;
               fp_makerProtocolFee := 0%Q;
               fp_makerReferrerFee := 0%Q;
               fp_makerRelayerFee := makerFee;
               fp_takerProtocolFee := 0%Q;
               fp_takerRelayerFee := takerFee |}.

(** [new BigNumber(10).pow(decimals)], for a whole number of decimals. *)
Definition unitOf (decimals : Z) : BigNumber := Qpower (inject_Z 10) decimals.

Definition toBaseUnitAmount (amount : BigNumber) (decimals : Z) : Outcome BigNumber :=
  let unit := unitOf decimals in
  let baseUnitAmount := (amount * unit)%Q in
  let hasDecimals := negb (Qeq_bool (inject_Z (Qfloor baseUnitAmount)) baseUnitAmount) in
  if hasDecimals then Failed TooManyDecimalPlaces else Completed baseUnitAmount.

(** An order with the signature fields [r], [s] and [v] of the book of
    orders; each of them may be missing. *)
Record SignedOrder : Type := {
  ord : Order;
  ord_r : option string;
  ord_s : option string;
  ord_v : option Z
}.

Record OrderPair : Type := {
  buy : SignedOrder;
  sell : SignedOrder
}.

Definition assignOrdersToSides (order : SignedOrder) (matchingOrder : Order) : OrderPair :=
  let isSellOrder := side (ord order) =? NftOrderSide_Sell in
  if negb isSellOrder then
    {| buy := order;
       sell := {| ord := matchingOrder; ord_r := ord_r order; ord_s := ord_s order;
                  ord_v := ord_v order |} |}
  else
    {| buy := {| ord := matchingOrder; ord_r := ord_r order; ord_s := ord_s order;
                 ord_v := ord_v order |};
       sell := order |}.

(** [referrerAddress || order.metadata.referrerAddress], or undefined. *)
Definition _getMetadata (order : Order) (referrerAddress : option string) : option string :=
  let referrer :=
    match referrerAddress with
    | Some a => if truthy_str a then Some a else md_referrerAddress (metadata order)
    | None => md_referrerAddress (metadata order)
    end in
  match referrer with
  | Some a => if truthy_str a then Some a else None
  | None => None
  end.

Section DefaultCall.
Context {L : Libraries}.

Definition encodeDefaultCall (abi : FunctionAbi) (address : string) : Result string :=
  let* parameters :=
    mapM (fun input =>
            match kind input with
            | Replaceable => generateDefaultValue (type input)
            | Owner => Ok (JStr address)
            | Asset => Ok (value input)
            end) (inputs abi) in
  encodeCall abi parameters.

End DefaultCall.

(** ** Authorization and fulfilment *)

Record ECSignature : Type := {
  sig_r : string;
  sig_s : string;
  sig_v : Z
}.

(** The provider handed to _authorizeOrder, by the one method that is called
    on it. *)
Record Provider : Type := {
  getCode : string -> Result string
}.

(** The answers of the signer and of the exchange contract. *)
Class Wallet : Type := {
  (* signer.signMessage(ethers.utils.arrayify(message)), then splitSignature;
     the call rejects when the user declines *)
  signMessage_bytes : string -> Result ECSignature;
  (* signer.signMessage(message), then splitSignature *)
  signMessage_text : string -> Result ECSignature;
  (* approveOrder_ and the wait for its receipt *)
  exchange_approveOrder : Order -> Result unit;
  (* validateOrder_ *)
  exchange_validateOrder : SignedOrder -> Result bool
}.

Section Flows.
Context {L : Libraries} {SM : Schemas} {C : Chain} {W : Wallet}.

Definition isContractAddress (address : string) (provider : option Provider) : Result bool :=
  match provider with
  | None => Throw TypeError                (* [provider] is undefined *)
  | Some p =>
      let* code := getCode p address in
      Ok (negb (code =? "0x")%string)
  end.

(** [message] is the hash of the order; arrayify rejects an undefined one. *)
Definition _signMessage (message : option string) : Result (option ECSignature) :=
  match message with
  | Some m => let* sg := signMessage_bytes m in Ok (Some sg)
  | None => Throw LibraryError
  end.

Definition _authorizeOrder (order : Order) (provider : option Provider)
  : Result (option ECSignature) :=
  let message := hash order in
  let signerAddress := maker order in
  let* makerIsSmartContract := isContractAddress signerAddress provider in
  if makerIsSmartContract then
    let* _ := exchange_approveOrder order in
    Ok None
  else
    let* _ := match message with
              | Some m => signMessage_text m
              | None => Throw LibraryError
              end in
    _signMessage message.

(** [{ ...order, ...signature }]: a null signature spreads nothing. *)
Definition withSignature (o : SignedOrder) (signature : option ECSignature) : SignedOrder :=
  match signature with
  | Some sg => {| ord := ord o; ord_r := Some (sig_r sg); ord_s := Some (sig_s sg);
                  ord_v := Some (sig_v sg) |}
  | None => o
  end.

Definition createSellOrder (w : World) (asset : NftAsset) (startPrice : number)
    (endPrice : option number) (waitForHighestBid : bool) : Outcome SignedOrder :=
  let accountAddress := signer_getAddress in
  let+ order := raised (_makeSellOrder w
                  {| so_accountAddress := accountAddress;
                     so_asset := asset;
                     so_buyerAddress := "0x0000000000000000000000000000000000000000";
                     so_endAmount := endPrice;
                     so_englishAuctionReservePrice := None;
                     so_expirationTime := 0%Q;
                     so_extraBountyBasisPoints := Some 0%Q;
                     so_listingTime := None;
                     so_paymentTokenAddress := "0x0000000000000000000000000000000000000000";
                     so_quantity := 1%Q;
                     so_startAmount := startPrice;
                     so_waitForHighestBid := waitForHighestBid |}) in
  let+ _ := raised (_sellOrderValidationAndApprovals order) in
  let+ h := raised (getOrderHash order) in
  let hashedOrder := withHash order h in
  (* the call leaves the provider out *)
  match _authorizeOrder hashedOrder None with
  | Throw _ => Failed AuthorizationDeclined
  | Ok signature =>
      Completed (withSignature {| ord := hashedOrder; ord_r := None; ord_s := None;
                                  ord_v := None |} signature)
  end.

Definition createMatchingOrders (w : World) (order : SignedOrder) : Outcome OrderPair :=
  let accountAddress := signer_getAddress in
  let+ matchingOrder :=
    raised (_makeMatchingOrder w accountAddress None (ord order) accountAddress) in
  let orders := assignOrdersToSides order matchingOrder in
  let+ signature := raised (_signMessage (hash (ord (buy orders)))) in
  let signedBuy := withSignature (buy orders) signature in
  let+ isSellValid := raised (exchange_validateOrder (sell orders)) in
  if negb isSellValid then Failed SellOrderInvalid
  else
    let+ isBuyValid := raised (exchange_validateOrder signedBuy) in
    if negb isBuyValid then Failed BuyOrderInvalid
    else Completed {| buy := signedBuy; sell := sell orders |}.

(** What fulfillNftOrder has done when it returns. *)
Inductive Fulfilment : Type :=
| BidValidated (buy : SignedOrder)     (* English auction: the buy order is only validated *)
| Matched (m : AtomicMatch).           (* fixed price: the orders went to _atomicMatch *)

Definition fulfillNftOrder (w : World) (order : SignedOrder) : Outcome Fulfilment :=
  let+ orders := createMatchingOrders w order in
  if waitingForBestCounterOrder (ord order) then
    let+ _ := raised (buyOrderValidation_outcome (ord (buy orders))) in
    Completed (BidValidated (buy orders))
  else if saleKind (ord order) =? 1 then Failed DutchAuctionsNotSupported
  else
    let+ m := raised (_atomicMatch (ord (buy orders)) (ord (sell orders))) in
    Completed (Matched m).

Definition calculateProxyFees : Result BigNumber :=
  let* proxyAddress := _getProxy 0 in
  match proxyAddress with
  | Some _ => Ok 0%Q
  | None =>
      let* g := safeGasEstimation estimateGas_registerProxy
                  {| txn_from := ""; txn_gasLimit := 410000; txn_value := "" |} in
      Ok (inject_Z g)
  end.

End Flows.

(** ** Statement of the further properties *)

Section FurtherStatements.
Context {L : Libraries}.

(** The order that _makeMatchingOrder hashes, from what the steps before
    returned. *)
Definition matchingFields (w : World) (accountAddress : string) (offer : option string)
    (order : Order) (enc : CallEncoding) : Order :=
  {| basePrice := match offer with
                  | Some o => if truthy_str o then BigNumber_fromString o
                              else basePrice order
                  | None => basePrice order
                  end;
     calldata := ce_calldata enc;
     englishAuctionReservePrice := None;
     exchange := exchange order;
     expirationTime := 0%Q;
     extra := 0%Q;
     feeMethod := feeMethod order;
     feeRecipient := if (feeRecipient order =? NULL_ADDRESS)%string
                     then OPENSEA_FEE_RECIPIENT else NULL_ADDRESS;
     howToCall := howToCall order;
     listingTime := inject_Z (Math_round (seconds (Date_now w) - inject_Z 100)%Q);
     maker := accountAddress;
     makerProtocolFee := makerProtocolFee order;
     makerReferrerFee := makerReferrerFee order;
     makerRelayerFee := makerRelayerFee order;
     metadata := metadata order;
     paymentToken := paymentToken order;
     quantity := quantity order;
     replacementPattern := MATCHING_REPLACEMENT_PATTERN;
     saleKind := saleKind order;
     salt := generatePseudoRandomSalt w;
     side := Z.rem (side order + 1) 2;
     staticExtradata := "0x";
     staticTarget := NULL_ADDRESS;
     taker := maker order;
     takerProtocolFee := takerProtocolFee order;
     takerRelayerFee := takerRelayerFee order;
     target := ce_target enc;
     waitingForBestCounterOrder := false;
     hash := None |}.

(** The value that encodeReplacementPattern takes for an input: its own, or
    the default of its type. *)
Definition effectiveValue (i : AbiInput) : Result JsValue :=
  match value i with
  | JUndefined => generateDefaultValue (type i)
  | v => Ok v
  end.

(** An input that fills one word of the mask: its type is not dynamic, its
    value is truthy, and the library encodes it in 32 bytes. *)
Definition wordInput (i : AbiInput) : Prop :=
  ethABI_local.isDynamic (ethABI_local.elementaryName (type i)) = false
  /\ exists v enc,
       effectiveValue i = Ok v
       /\ truthy v = true
       /\ defaultAbiCoder_encode [ethABI_local.elementaryName (type i)] [v] = Ok enc
       /\ List.length (bufferOfEncoded enc) = 32%nat.

(** A byte of a well-formed mask. *)
Definition binaryByte (x : byte) : Prop := x = Byte.x00 \/ x = Byte.xff.

(** The mask of a function whose inputs each fill one word. *)
Definition wordMask (abi : FunctionAbi) (replaceKind : FunctionInputKind) : list byte :=
  repeat Byte.x00 4
  ++ flat_map (fun i => repeat (if kind_eqb (kind i) replaceKind
                                then Byte.xff else Byte.x00) 32) (inputs abi).

End FurtherStatements.

(** ** Statement of the on-chain properties *)

(** An answer of the registry that names no proxy: null, the empty string or
    the null address. *)
Definition missingProxy (answer : option string) : bool :=
  match answer with
  | Some p => negb (truthy_str p) || (p =? NULL_ADDRESS)%string
  | None => true
  end.

Definition isTransaction (r : Approval) : bool :=
  match r with
  | Transaction => true
  | _ => false
  end.

(** The number of approval transactions sent for the contract [t] in a
    batch, from the assets and the results of their callbacks. *)
Definition transactionsFor (t : string) (wyAssets : list WyvernAsset)
    (results : list Approval) : nat :=
  List.length
    (filter (fun ar => (wy_address (fst ar) =? t)%string && isTransaction (snd ar))
       (combine wyAssets results)).


(** ** Statement of the price rules *)

Module PriceRules.

(** [startAmount - endAmount], or 0 without an end amount. *)
Definition priceDiff (startAmount : number) (endAmount : option number) : number :=
  match endAmount with
  | Some e => (startAmount - e)%Q
  | None => 0%Q
  end.

(** The conditions under which _getPriceParameters goes on to the
    conversion of the amounts. *)
Record accepted (orderSide : Z) (tokenAddress : string) (expirationTime startAmount : number)
    (endAmount : option number) (english : bool) (reserve : option number) : Prop := {
  pr_start : (0 <= startAmount)%Q;
  pr_english_token : tokenAddress = NULL_ADDRESS -> english = false;
  pr_offer_token : tokenAddress = NULL_ADDRESS -> orderSide <> NftOrderSide_Buy;
  pr_end : forall e, endAmount = Some e -> (e <= startAmount)%Q;
  pr_expires : forall e, endAmount = Some e -> (e < startAmount)%Q ->
                         ~ (expirationTime == 0)%Q;
  pr_reserve_english : forall v, reserve = Some v -> ~ (v == 0)%Q -> english = true;
  pr_reserve_start : forall v, reserve = Some v -> ~ (v == 0)%Q -> (startAmount <= v)%Q
}.

End PriceRules.

(** ** A reference wallet *)

Module ReferenceWallet.

(** A signer that signs every message and an exchange that finds every
    order valid. *)
#[global] Instance wallet : Wallet := {|
  signMessage_bytes := fun _ => Ok {| sig_r := "0x01"; sig_s := "0x02"; sig_v := 27 |};
  signMessage_text := fun _ => Ok {| sig_r := "0x01"; sig_s := "0x02"; sig_v := 27 |};
  exchange_approveOrder := fun _ => Ok tt;
  exchange_validateOrder := fun _ => Ok true
|}.

(** The reference listing as the book of orders hands it over, without
    signature fields. *)
Definition listing : SignedOrder :=
  {| ord := Reference.sellOrder; ord_r := None; ord_s := None; ord_v := None |}.

End ReferenceWallet.


(** ** Statement of the listing flow *)

Section ListingStatements.
Context {C : Chain}.

(** The arguments that createSellOrder hands to _makeSellOrder. *)
Definition listingArguments (asset : NftAsset) (startPrice : number)
    (endPrice : option number) (waitForHighestBid : bool) : SellOrderArgs :=
  {| so_accountAddress := signer_getAddress;
     so_asset := asset;
     so_buyerAddress := "0x0000000000000000000000000000000000000000";
     so_endAmount := endPrice;
     so_englishAuctionReservePrice := None;
     so_expirationTime := 0%Q;
     so_extraBountyBasisPoints := Some 0%Q;
     so_listingTime := None;
     so_paymentTokenAddress := "0x0000000000000000000000000000000000000000";
     so_quantity := 1%Q;
     so_startAmount := startPrice;
     so_waitForHighestBid := waitForHighestBid |}.

End ListingStatements.


(** ** Statement of the digest properties *)

(** ethers' [arrayify] of a string: the bytes of a hexadecimal string that
    begins with "0x" and has an even number of digits, capital or small;
    every other string is refused. The digest reads an address through it. *)
Fixpoint hexBytes (d : string) : option (list byte) :=
  match d with
  | EmptyString => Some []
  | String a (String b r) =>
      match hexDigit a, hexDigit b, hexBytes r with
      | Some h, Some l, Some bs => Some (byte_of_N (16 * h + l) :: bs)
      | _, _, _ => None
      end
  | String _ EmptyString => None
  end.

Definition arrayify (s : string) : Result (list byte) :=
  match s with
  | String "0" (String "x" d) =>
      match hexBytes d with
      | Some b => Ok b
      | None => Throw LibraryError
      end
  | _ => Throw LibraryError
  end.

(** A number on [len] bytes, the most significant byte first. *)
Fixpoint bigEndian (len : nat) (z : Z) : list byte :=
  match len with
  | O => []
  | S k => bigEndian k (z / 256) ++ [byte_of_N (Z.to_N (z mod 256))]
  end.

Section Packing.
Context {L : Libraries}.
Variable keccak256 : list byte -> string.
Variable pack : SolidityTypes -> JsValue -> Result (list byte).

(** The parts of solidityPack, one for each typed value; the two lists must
    have the same length. *)
Fixpoint packAll (types : list SolidityTypes) (values : list JsValue)
  : Result (list (list byte)) :=
  match types, values with
  | [], [] => Ok []
  | t :: ts, v :: vs =>
      let* p := pack t v in
      let* ps := packAll ts vs in
      Ok (p :: ps)
  | _, _ => Throw LibraryError
  end.

(** What the properties of the hash take from ethers, which is not among
    the translated sources: solidityKeccak256 is keccak256 of the
    concatenation of the packed parts; an address is packed as the bytes of
    its hexadecimal string; a decimal numeral below 2^256 is packed, for
    [uint256], as the number on 32 bytes. *)
Record PackedDigest : Prop := {
  digest_of_pack : forall types values,
    solidityKeccak256 types values
    = (let* parts := packAll types values in Ok (keccak256 (List.concat parts)));
  pack_address : forall s, pack Address (JStr s) = arrayify s;
  pack_uint256 : forall n, 0 <= n < 2 ^ 256 ->
    pack Uint256 (JStr (Z_toString n)) = Ok (bigEndian 32 n)
}.

(** The packed parts of the 23 hashed fields of an order. *)
Definition packedParts (o : Order) : Result (list (list byte)) :=
  packAll orderTypes (map snd (hashArguments o)).

End Packing.

(** Two lists of parts that differ in exactly one part. *)
Definition onePartChanged (ps ps' : list (list byte)) : Prop :=
  exists before x x' after,
    ps = before ++ x :: after /\ ps' = before ++ x' :: after /\ x <> x'.

(** keccak256 does not collide on the two byte strings. *)
Definition noCollision (keccak256 : list byte -> string) (b b' : list byte) : Prop :=
  keccak256 b = keccak256 b' -> b = b'.

(** The order with another salt. *)
Definition withSalt (o : Order) (s : string) : Order :=
  {| basePrice := basePrice o;
     calldata := calldata o;
     englishAuctionReservePrice := englishAuctionReservePrice o;
     exchange := exchange o;
     expirationTime := expirationTime o;
     extra := extra o;
     feeMethod := feeMethod o;
     feeRecipient := feeRecipient o;
     howToCall := howToCall o;
     listingTime := listingTime o;
     maker := maker o;
     makerProtocolFee := makerProtocolFee o;
     makerReferrerFee := makerReferrerFee o;
     makerRelayerFee := makerRelayerFee o;
     metadata := metadata o;
     paymentToken := paymentToken o;
     quantity := quantity o;
     replacementPattern := replacementPattern o;
     saleKind := saleKind o;
     salt := s;
     side := side o;
     staticExtradata := staticExtradata o;
     staticTarget := staticTarget o;
     taker := taker o;
     takerProtocolFee := takerProtocolFee o;
     takerRelayerFee := takerRelayerFee o;
     target := target o;
     waitingForBestCounterOrder := waitingForBestCounterOrder o;
     hash := hash o |}.

(** ** A reference library with a packed digest *)

Module PackedReference.

(** A decimal numeral that fits [len] bytes. *)
Definition uintBytes (len : nat) (s : string) : Result (list byte) :=
  match NilZero.int_of_string s with
  | Some d =>
      let z := Z.of_int d in
      if (0 <=? z) && (z <? 256 ^ Z.of_nat len) then Ok (bigEndian len z)
      else Throw LibraryError
  | None => Throw LibraryError
  end.

Definition pack (t : SolidityTypes) (v : JsValue) : Result (list byte) :=
  match t, v with
  | Address, JStr s => arrayify s
  | Bytes, JBuf b => Ok b
  | Uint256, JStr s => uintBytes 32 s
  | Uint8, JStr s => uintBytes 1 s
  | _, _ => Throw LibraryError
  end.

(** A stand-in for keccak256 that cannot collide: the packed bytes
    themselves, printed. *)
Definition printed (b : list byte) : string := ("0x" ++ Buffer_toString_hex b)%string.

(** The reference library with the digest of the packed parts. *)
Definition libraries : Libraries := {|
  solidityKeccak256 := fun types values =>
    let* parts := packAll pack types values in Ok (printed (List.concat parts));
  defaultAbiCoder_encode := @defaultAbiCoder_encode Reference.libraries;
  Interface_getSighash := @Interface_getSighash Reference.libraries;
  ERC1155_encodeFunctionData := @ERC1155_encodeFunctionData Reference.libraries;
  utils_getAddress := @utils_getAddress Reference.libraries;
  utils_parseEther := @utils_parseEther Reference.libraries;
  Number_toString := @Number_toString Reference.libraries;
  BigNumber_toString := @BigNumber_toString Reference.libraries;
  BigNumber_fromString := @BigNumber_fromString Reference.libraries;
  BN_decimal := @BN_decimal Reference.libraries
|}.

(** The exchange address of the reference listing as [toUpperCase] gives it,
    the prefix included. *)
Definition exchangeShouted : string := "0X7BE8076F4EA4A4AD08075C2508E481D6C946D12B".

End PackedReference.

(** ** Reference calls of the sell-order builder *)

Module ReferenceSales.

Definition WETH : string := "0xc02aaa39b223fe8d0a0e5c4f27ead9083c756cc2".

(** An English auction in wrapped ether, called with an expiration time and
    a listing time. *)
Definition englishArgs : SellOrderArgs := {|
  so_accountAddress := Reference.seller;
  so_asset := Reference.asset;
  so_buyerAddress := NULL_ADDRESS;
  so_endAmount := None;
  so_englishAuctionReservePrice := None;
  so_expirationTime := 1672617600%Q;
  so_extraBountyBasisPoints := Some 0%Q;
  so_listingTime := Some 1672531300%Q;
  so_paymentTokenAddress := WETH;
  so_quantity := 1%Q;
  so_startAmount := 1%Q;
  so_waitForHighestBid := true
|}.

(** A sale whose price falls from 2 to 1. *)
Definition fallingArgs : SellOrderArgs := {|
  so_accountAddress := Reference.seller;
  so_asset := Reference.asset;
  so_buyerAddress := NULL_ADDRESS;
  so_endAmount := Some 1%Q;
  so_englishAuctionReservePrice := None;
  so_expirationTime := 0%Q;
  so_extraBountyBasisPoints := Some 0%Q;
  so_listingTime := None;
  so_paymentTokenAddress := NULL_ADDRESS;
  so_quantity := 1%Q;
  so_startAmount := 2%Q;
  so_waitForHighestBid := false
|}.

(** A clock that reads a quarter of a second after the epoch. *)
Definition epochWorld : World := {| Date_now := 250; BigNumber_random := (1 # 2)%Q |}.

End ReferenceSales.


(** * Properties *)

Module ResultLemmas.

Lemma bind_ok {A B : Type} (r : Result A) (k : A -> Result B) (b : B) :
  bind r k = Ok b -> exists a, r = Ok a /\ k a = Ok b.
Proof. destruct r as [a|e]; simpl; [eauto | discriminate]. Qed.

Ltac bind_inv H a E :=
  apply bind_ok in H; destruct H as [a [E H]].

End ResultLemmas.

(** ** Timing rules *)

Module TimeRulesLemmas.
Import TimeRules.

Lemma num_eqb_true (x y : number) : num_eqb x y = true <-> (x == y)%Q.
Proof. unfold num_eqb. apply Qeq_bool_iff. Qed.

Lemma num_eqb_false (x y : number) : num_eqb x y = false <-> ~ (x == y)%Q.
Proof.
  rewrite <- num_eqb_true. destruct (num_eqb x y); split; intro H;
    try discriminate; try reflexivity; try (intro; discriminate).
  exfalso; apply H; reflexivity.
Qed.

Lemma num_geb_true (x y : number) : num_geb x y = true <-> (y <= x)%Q.
Proof. unfold num_geb. apply Qle_bool_iff. Qed.

Lemma num_ltb_true (x y : number) : num_ltb x y = true <-> (x < y)%Q.
Proof.
  unfold num_ltb. rewrite negb_true_iff. split; intro H.
  - apply Qnot_le_lt. intro L. apply Qle_bool_iff in L. congruence.
  - destruct (Qle_bool y x) eqn:E; [|reflexivity].
    apply Qle_bool_iff in E. exfalso. exact (Qlt_not_le _ _ H E).
Qed.

Lemma num_ltb_false (x y : number) : num_ltb x y = false <-> (y <= x)%Q.
Proof.
  unfold num_ltb. rewrite negb_false_iff. apply Qle_bool_iff.
Qed.

Lemma isWholeNumber_true (x : number) :
  isWholeNumber x = true <-> exists z : Z, (x == inject_Z z)%Q /\ Z.abs z < 10 ^ 21.
Proof.
  unfold isWholeNumber. rewrite andb_true_iff, Z.ltb_lt. split.
  - intros [E B]. apply Qeq_bool_iff in E. exists (Qfloor x). split.
    + symmetry. exact E.
    + exact B.
  - intros [z [E B]].
    assert (F : Qfloor x = z).
    { rewrite E. apply Qfloor_Z. }
    rewrite F. split; [|exact B].
    apply Qeq_bool_iff. symmetry. exact E.
Qed.

Lemma truthy_opt_true (l : option number) :
  truthy_opt l = true <-> exists v, listing_given l v.
Proof.
  unfold listing_given. destruct l as [v|]; simpl.
  - unfold truthy_num. rewrite negb_true_iff, num_eqb_false. split.
    + intro H. exists v. split; [reflexivity | exact H].
    + intros [v' [E H]]. inversion E. subst. exact H.
  - split; [discriminate|]. intros [v [E _]]. discriminate.
Qed.

Lemma truthy_opt_false (l : option number) :
  truthy_opt l = false <-> forall v, ~ listing_given l v.
Proof.
  split.
  - intros H v G. assert (T : truthy_opt l = true) by (apply truthy_opt_true; eauto).
    congruence.
  - intro H. destruct (truthy_opt l) eqn:E; [|reflexivity].
    apply truthy_opt_true in E. destruct E as [v G]. exfalso. exact (H v G).
Qed.

End TimeRulesLemmas.

Module TimeRulesProofs.
Import TimeRules TimeRulesLemmas.

Ltac bool_hyps :=
  repeat match goal with
  | H : (_ && _) = true |- _ => apply andb_true_iff in H; destruct H
  | H : (_ && _) = false |- _ => apply andb_false_iff in H
  | H : negb _ = true |- _ => apply negb_true_iff in H
  | H : negb _ = false |- _ => apply negb_false_iff in H
  | H : num_eqb _ _ = true |- _ => apply num_eqb_true in H
  | H : num_eqb _ _ = false |- _ => apply num_eqb_false in H
  | H : num_ltb _ _ = true |- _ => apply num_ltb_true in H
  | H : num_ltb _ _ = false |- _ => apply num_ltb_false in H
  | H : num_geb _ _ = true |- _ => apply num_geb_true in H
  | H : num_geb _ _ = false |- _ => rewrite <- num_ltb_false, not_true_iff_false in H
  | H : truthy_opt _ = true |- _ => apply truthy_opt_true in H
  | H : truthy_opt ?l = false |- _ =>
      let H' := fresh H in
      pose proof (proj1 (truthy_opt_false l) H) as H'; clear H; rename H' into H
  | H : isWholeNumber _ = true |- _ => apply isWholeNumber_true in H
  end.

Lemma listing_given_inj l v v' : listing_given l v -> listing_given l v' -> v = v'.
Proof. intros [E _] [E' _]. congruence. Qed.

Lemma rejected_cases now e l w :
  accepted now e l w ->
  _getTimeParameters now e l w = Ok (returned now e l w).
Proof.
  intros [A1 A2 A3 A4 A5 A6].
  unfold _getTimeParameters, throwIf.
  destruct (negb (num_eqb e 0%Q) && num_ltb e (minExpirationTimestamp now)) eqn:C1.
  { bool_hyps. exfalso. destruct A1 as [A1|A1]; [contradiction|].
    exact (Qlt_not_le _ _ H0 A1). }
  destruct (truthy_opt l && num_ltb _ (minListingTimestamp now)) eqn:C2.
  { bool_hyps. destruct H as [v G]. pose proof (A2 v G) as P.
    destruct G as [-> G]. exfalso. exact (Qlt_not_le _ _ H0 P). }
  destruct (truthy_opt l && negb (num_eqb e 0%Q) && num_geb _ e) eqn:C3.
  { bool_hyps. destruct H as [v G]. pose proof (A3 v G) as P.
    destruct G as [-> G]. exfalso. destruct P as [P|P]; [contradiction|].
    exact (Qlt_not_le _ _ P H0). }
  destruct (w && num_eqb e 0%Q) eqn:C4.
  { bool_hyps. exfalso. exact (A4 H H0). }
  destruct (w && truthy_opt l) eqn:C5.
  { bool_hyps. destruct H0 as [v G]. exfalso. exact (A5 H v G). }
  destruct (isWholeNumber e) eqn:C6.
  2:{ exfalso. apply isWholeNumber_true in A6. congruence. }
  simpl. unfold returned. destruct w; [reflexivity|].
  destruct l as [v|]; simpl; [|reflexivity].
  unfold truthy_num, num_eqb. destruct (Qeq_bool v 0%Q); reflexivity.
Qed.

Lemma accepted_of_ok now e l w tp :
  _getTimeParameters now e l w = Ok tp -> accepted now e l w.
Proof.
  unfold _getTimeParameters, throwIf.
  destruct (negb (num_eqb e 0%Q) && num_ltb e (minExpirationTimestamp now)) eqn:C1;
    [discriminate|].
  destruct (truthy_opt l && num_ltb _ (minListingTimestamp now)) eqn:C2; [discriminate|].
  destruct (truthy_opt l && negb (num_eqb e 0%Q) && num_geb _ e) eqn:C3; [discriminate|].
  destruct (w && num_eqb e 0%Q) eqn:C4; [discriminate|].
  destruct (w && truthy_opt l) eqn:C5; [discriminate|].
  destruct (isWholeNumber e) eqn:C6; [|discriminate].
  intros _. bool_hyps. split.
  - destruct C1 as [C1|C1]; bool_hyps; [left|right]; assumption.
  - intros v G. destruct C2 as [C2|C2]; bool_hyps.
    + exfalso. exact (C2 v G).
    + destruct G as [-> _]. exact C2.
  - intros v G. destruct C3 as [C3|C3].
    + apply andb_false_iff in C3. destruct C3 as [C3|C3]; bool_hyps.
      * exfalso. exact (C3 v G).
      * left. exact C3.
    + right. destruct G as [-> _].
      apply Qnot_le_lt. intro LE. apply num_geb_true in LE. congruence.
  - intros ->. destruct C4 as [C4|C4]; [discriminate|]. bool_hyps. exact C4.
  - intros ->. destruct C5 as [C5|C5]; [discriminate|]. bool_hyps. exact C5.
  - exact C6.
Qed.

End TimeRulesProofs.

(** ** C3: the timing rules of _getTimeParameters *)

Module TimeRulesClaims.
Import TimeRules TimeRulesLemmas TimeRulesProofs.

(** C3 (as stated, refuted). The claim says that an expiration of zero is
    accepted whatever the listing time, and that every case outside its list
    of rejections succeeds. At 1 January 2023, an expiration of zero with the
    listing time 5 (long past) is rejected, and so is an expiration of
    1672531250.5, fifty seconds ahead but not a whole number. *)
Lemma getTimeParameters_zero_expiration_rejected :
  _getTimeParameters 1672531200250 0%Q (Some 5%Q) false = Throw ListingInPast
  /\ _getTimeParameters 1672531200250 (3345062501 # 2)%Q None false
     = Throw ExpirationNotWhole.
Proof. split; vm_compute; reflexivity. Qed.

(** C3 (amended). _getTimeParameters succeeds exactly when all of these hold:
    the expiration is zero or at least now + 10 s (rounded); a listing time
    that is given (present and not zero) is not before now (rounded) and,
    when the expiration is not zero, is strictly before it; for an English
    auction the expiration is not zero and no listing time is given; the
    expiration is a whole number of seconds. On success an English auction
    lists at the expiration and expires one week later; any other order keeps
    its expiration and lists at the given time, or 100 s before now. *)
Theorem getTimeParameters_rules (now : Z) (e : number) (l : option number) (w : bool) :
  (accepted now e l w /\ _getTimeParameters now e l w = Ok (returned now e l w))
  \/ (~ accepted now e l w /\ exists err, _getTimeParameters now e l w = Throw err).
Proof.
  destruct (_getTimeParameters now e l w) as [tp|err] eqn:E.
  - left. pose proof (accepted_of_ok _ _ _ _ _ E) as A. split; [exact A|].
    rewrite <- E. apply rejected_cases. exact A.
  - right. split; [|exists err; reflexivity].
    intro A. rewrite (rejected_cases _ _ _ _ A) in E. discriminate.
Qed.

End TimeRulesClaims.

(** ** C6: the bounty cap of computeFees *)

Module FeeClaims.
Import TimeRulesLemmas.

Lemma num_gtb_true (x y : number) : num_gtb x y = true <-> (y < x)%Q.
Proof. unfold num_gtb. apply num_ltb_true. Qed.

(** C6 (as stated, refuted). With no extra bounty, the marketplace bounty of
    100 alone exceeds a maximum of 50, and computeFees still succeeds. *)
Lemma computeFees_no_error_without_extra_bounty :
  (maxTotalBountyBPS (Some Reference.lowFeeAsset)
   < 0 + inject_Z OPENSEA_SELLER_BOUNTY_BASIS_POINTS)%Q
  /\ exists fees, computeFees (Some Reference.lowFeeAsset) 0%Q NftOrderSide_Sell = Ok fees.
Proof.
  split.
  - vm_compute. reflexivity.
  - eexists. vm_compute. reflexivity.
Qed.

(** C6 (amended). For a sell order, computeFees fails with the bounty-cap
    error exactly when the extra seller bounty is strictly positive and the
    extra bounty plus the marketplace bounty (100) strictly exceeds the
    maximum bounty of the asset; it raises no other error; at the boundary
    (sum equal to the maximum) it succeeds with the extra bounty as seller
    bounty. *)
Theorem computeFees_bounty_cap (asset : option NftAsset) (extra : number) :
  (computeFees asset extra NftOrderSide_Sell = Throw BountyExceedsCap
   <-> (0 < extra)%Q
       /\ (maxTotalBountyBPS asset
           < extra + inject_Z OPENSEA_SELLER_BOUNTY_BASIS_POINTS)%Q)
  /\ (forall err, computeFees asset extra NftOrderSide_Sell = Throw err ->
                  err = BountyExceedsCap)
  /\ ((extra + inject_Z OPENSEA_SELLER_BOUNTY_BASIS_POINTS == maxTotalBountyBPS asset)%Q ->
      exists fees, computeFees asset extra NftOrderSide_Sell = Ok fees
                   /\ sellerBountyBasisPoints fees = extra).
Proof.
  unfold computeFees, throwIf. simpl.
  destruct (num_gtb extra 0%Q) eqn:P;
    destruct (num_gtb (extra + inject_Z OPENSEA_SELLER_BOUNTY_BASIS_POINTS)%Q
                (maxTotalBountyBPS asset)) eqn:B; simpl.
  - apply num_gtb_true in P, B. repeat split; auto.
    + intros err H. congruence.
    + intros E. exfalso. rewrite E in B. exact (Qlt_irrefl _ B).
  - repeat split; try discriminate.
    + intros [_ H]. apply num_gtb_true in H. congruence.
    + intros _. eexists. split; reflexivity.
  - repeat split; try discriminate.
    + intros [H _]. apply num_gtb_true in H. congruence.
    + intros _. eexists. split; reflexivity.
  - repeat split; try discriminate.
    + intros [H _]. apply num_gtb_true in H. congruence.
    + intros _. eexists. split; reflexivity.
Qed.

(** An extra bounty of 150 on an asset whose maximum is 250 is at the
    boundary, and is accepted. *)
Lemma computeFees_bounty_cap_witness :
  (150 + inject_Z OPENSEA_SELLER_BOUNTY_BASIS_POINTS
   == maxTotalBountyBPS (Some Reference.asset))%Q
  /\ exists fees, computeFees (Some Reference.asset) 150%Q NftOrderSide_Sell = Ok fees
                  /\ sellerBountyBasisPoints fees = 150%Q.
Proof.
  assert (E : (150 + inject_Z OPENSEA_SELLER_BOUNTY_BASIS_POINTS
               == maxTotalBountyBPS (Some Reference.asset))%Q)
    by (vm_compute; reflexivity).
  split; [exact E|].
  exact (proj2 (proj2 (computeFees_bounty_cap (Some Reference.asset) 150%Q)) E).
Defined.

End FeeClaims.

(** ** C7: the value attached by _atomicMatch *)

Module MatchClaims.

Import ResultLemmas.

Section AnyNode.
Context {L : Libraries} {SM : Schemas} {C : Chain}.

(** Whatever the fee, the transaction data carries the printed base price of
    the sell order when its payment token is the native asset. *)
Lemma atomicMatch_txn_value (buy sell : Order) (r : AtomicMatch) :
  _atomicMatch buy sell = Ok r ->
  paymentToken sell = NULL_ADDRESS ->
  txn_value (am_txnData r) = BigNumber_toString (basePrice sell).
Proof.
  unfold _atomicMatch. intros H N.
  apply bind_ok in H. destruct H as [_ [_ H]].
  apply bind_ok in H. destruct H as [_ [_ H]].
  apply bind_ok in H. destruct H as [g [_ H]].
  inversion H; subst; clear H. simpl.
  rewrite N. reflexivity.
Qed.

End AnyNode.

(** C7 (code at the failing input). A sell order priced 10000 in the native
    asset with a taker relayer fee of 250 basis points, matched by its buyer:
    the local [value] is 10000 + 250 / 10000 * 10000 = 10250, and the
    transaction data carries "10000". *)
Theorem atomicMatch_attaches_base_price :
  exists v txn,
    _atomicMatch Reference.buyOrder Reference.sellOrder
    = Ok {| am_value := Some v; am_txnData := txn |}
    /\ (v == 10250)%Q
    /\ (v == basePrice Reference.sellOrder
             + takerRelayerFee Reference.sellOrder / inject_Z INVERSE_BASIS_POINT
               * basePrice Reference.sellOrder)%Q
    /\ txn_value txn = "10000"%string
    /\ paymentToken Reference.buyOrder = NULL_ADDRESS
    /\ paymentToken Reference.sellOrder = NULL_ADDRESS.
Proof.
  eexists. eexists. split; [vm_compute; reflexivity|].
  repeat split; vm_compute; reflexivity.
Qed.

End MatchClaims.

(** ** C9: the ownership check of _approveAll *)

Module ApprovalClaims.

Section AnyNode.
Context {L : Libraries} {SM : Schemas} {C : Chain}.

(** Every error of the ownership check, whatever its kind, gives the
    verdict "owner". *)
Lemma isOwner_of_any_error (accountAddress proxyAddress : string)
    (schemaName : option string) (wyAsset : WyvernAsset) (e : Error) :
  _ownsAssetOnChain accountAddress (Some proxyAddress) schemaName wyAsset = Throw e ->
  isOwner accountAddress proxyAddress schemaName wyAsset = true.
Proof. unfold isOwner. intros ->. reflexivity. Qed.

End AnyNode.

(** C9 (code at the failing input). The schema is ERC-721, which has an
    ownership call, and the node rejects that call: the ownership check
    raises the error of the library, not the error of a missing ownership
    schema, and the flow goes on to send the approval transaction. *)
Theorem approveAll_proceeds_on_node_error :
  @_ownsAssetOnChain Reference.libraries Reference.schemas Reference.failingChain
    Reference.account (Some Reference.proxy) (Some "ERC721"%string) Reference.token42
  = Throw LibraryError
  /\ LibraryError <> MissingOwnershipSchema
  /\ @_approveAll Reference.libraries Reference.schemas Reference.failingChain
       None ["ERC721"%string] [Reference.token42]
     = Ok [Transaction].
Proof.
  split; [vm_compute; reflexivity|].
  split; [discriminate|].
  vm_compute. reflexivity.
Qed.

End ApprovalClaims.

(** ** C5: the replacement pattern *)

Module PatternClaims.

(** C5 (code at the failing input). For a function with one replaceable
    [uint256] input, whose default value is 0, the pattern is the four zero
    bytes of the method hash and nothing else, with any library: it is
    shorter than the 36 bytes of the calldata and has no 0xFF byte for the
    replaceable input. For the ERC-1155 transfer, whose data input carries the
    empty string, encodeSell returns a calldata of 196 bytes with a pattern of
    132 bytes. For a non-replaceable [bytes] input with a value, the pattern
    holds the byte 0x20 of the encoded offset, which is neither 0x00 nor
    0xFF. *)
Theorem replacement_pattern_defects :
  (forall L : Libraries,
     @encodeReplacementPattern L Reference.oneUint Replaceable true = Ok "0x00000000"%string)
  /\ byteLength "0x00000000" = 4%nat
  /\ (exists c, encodeCall Reference.oneUint [JNum 0%Q] = Ok c /\ byteLength c = 36%nat)
  /\ (exists enc,
        encodeSell Reference.ERC1155Schema (OfNftAsset Reference.asset) Reference.seller
        = Ok enc
        /\ byteLength (ce_calldata enc) = 196%nat
        /\ byteLength (ce_replacementPattern enc) = 132%nat)
  /\ (exists p, encodeReplacementPattern Reference.oneBytes Replaceable true = Ok p
                /\ In Byte.x20 (Buffer_from_hex (slice 2 p))).
Proof.
  split; [intro L; reflexivity|].
  split; [reflexivity|].
  split; [|split].
  - eexists. split; vm_compute; reflexivity.
  - eexists. split; [vm_compute; reflexivity|]. split; vm_compute; reflexivity.
  - eexists. split; [vm_compute; reflexivity|].
    vm_compute. do 35 right. left. reflexivity.
Qed.

End PatternClaims.

(** ** C4, C8, C10: the orders that the builders return *)

Module BuilderLemmas.
Import ResultLemmas TimeRules TimeRulesLemmas TimeRulesProofs.

(** The time parameters of a matching order: [_getTimeParameters(0)]. *)
Lemma getTimeParameters_never (now : Z) :
  _getTimeParameters now 0%Q None false
  = Ok {| tp_expirationTime := 0%Q;
          tp_listingTime := inject_Z (Math_round (seconds now - inject_Z 100)%Q) |}.
Proof. reflexivity. Qed.

(** The time parameters of a sell order:
    [_getTimeParameters(0, Math.round(Date.now() / 1000))]. *)
Lemma getTimeParameters_at_build (now : Z) :
  _getTimeParameters now 0%Q (Some (inject_Z (Math_round (seconds now)))) false
  = Ok {| tp_expirationTime := 0%Q;
          tp_listingTime :=
            if Math_round (seconds now) =? 0
            then inject_Z (Math_round (seconds now - inject_Z 100)%Q)
            else inject_Z (Math_round (seconds now)) |}.
Proof.
  rewrite rejected_cases.
  - unfold returned. f_equal. f_equal.
    unfold Qeq_bool. simpl.
    rewrite Z.mul_1_r.
    destruct (Math_round (seconds now)) eqn:E; reflexivity.
  - split.
    + left. reflexivity.
    + intros v [E _]. inversion E. apply Qle_refl.
    + intros v _. left. reflexivity.
    + discriminate.
    + discriminate.
    + exists 0. split; [reflexivity | reflexivity].
Qed.

Lemma rem_succ_2_neq (s : Z) : Z.rem (s + 1) 2 <> s.
Proof.
  pose proof (Z.rem_bound_abs (s + 1) 2 ltac:(lia)) as B.
  pose proof (Z.quot_rem' (s + 1) 2) as E.
  lia.
Qed.

(** With the flag forwarded, the same call would refuse every order: an
    English auction must have an expiration time. *)
Lemma getTimeParameters_english_at_build (now : Z) :
  _getTimeParameters now 0%Q (Some (inject_Z (Math_round (seconds now)))) true
  = Throw EnglishNeedsExpiration.
Proof.
  unfold _getTimeParameters, throwIf.
  change (num_eqb 0%Q 0%Q) with true. cbn [negb andb].
  assert (N : num_ltb (inject_Z (Math_round (seconds now))) (minListingTimestamp now)
              = false)
    by (apply TimeRulesLemmas.num_ltb_false; apply Qle_refl).
  rewrite N, !andb_false_r. reflexivity.
Qed.

Section Prices.
Context {L : Libraries}.

(** _getPriceParameters reads of the expiration time only whether it is
    zero. *)
Lemma getPriceParameters_expiration (orderSide : Z) (tokenAddress : string)
    (e e' startAmount : number) (endAmount : option number) (english : bool)
    (reserve : option number) :
  num_eqb e 0%Q = num_eqb e' 0%Q ->
  _getPriceParameters orderSide tokenAddress e startAmount endAmount english reserve
  = _getPriceParameters orderSide tokenAddress e' startAmount endAmount english reserve.
Proof.
  intro H. unfold _getPriceParameters. rewrite H. reflexivity.
Qed.

(** For a price that does not fall it does not read it at all. *)
Lemma getPriceParameters_steady (orderSide : Z) (tokenAddress : string)
    (e e' startAmount : number) (endAmount : option number) (english : bool)
    (reserve : option number) :
  (PriceRules.priceDiff startAmount endAmount <= 0)%Q ->
  _getPriceParameters orderSide tokenAddress e startAmount endAmount english reserve
  = _getPriceParameters orderSide tokenAddress e' startAmount endAmount english reserve.
Proof.
  intro H. unfold _getPriceParameters.
  change (match endAmount with Some x => (startAmount - x)%Q | None => 0%Q end)
    with (PriceRules.priceDiff startAmount endAmount).
  cbv zeta.
  assert (G : num_gtb (PriceRules.priceDiff startAmount endAmount) 0%Q = false)
    by (unfold num_gtb; apply TimeRulesLemmas.num_ltb_false; exact H).
  rewrite G. reflexivity.
Qed.

End Prices.

End BuilderLemmas.

Module BuilderClaims.
Import ResultLemmas BuilderLemmas.

Section AnyLibrary.
Context {L : Libraries} {SM : Schemas}.

Lemma encodeSell_calldata (schema : Schema) (asset : AssetObject) (address : string)
    (enc : CallEncoding) :
  encodeSell schema asset address = Ok enc ->
  exists values, ERC1155_encodeFunctionData "safeTransferFrom" values = Ok (ce_calldata enc).
Proof.
  unfold encodeSell. destruct asset as [a|wa]; [|discriminate].
  intro H. bind_inv H c Ec. bind_inv H p Ep.
  inversion H; subst; clear H. simpl. eexists. exact Ec.
Qed.

(** The pattern of a sell order has the length of its calldata as soon as
    the library encodes a call of safeTransferFrom in 196 bytes (the method
    hash, five words of head, and the length word of the empty data). *)
Lemma makeSellOrder_pattern_length (w : World) (a : SellOrderArgs) (o : Order) :
  (forall values c, ERC1155_encodeFunctionData "safeTransferFrom" values = Ok c ->
                    byteLength c = 196%nat) ->
  _makeSellOrder w a = Ok o ->
  byteLength (replacementPattern o) = byteLength (calldata o).
Proof.
  intros Hlen H. unfold _makeSellOrder in H.
  bind_inv H fees Ef. bind_inv H schema Es. bind_inv H enc Ee.
  bind_inv H price Ep. bind_inv H times Et.
  inversion H; subst; clear H. simpl.
  destruct (encodeSell_calldata _ _ _ _ Ee) as [values Ec].
  rewrite (Hlen _ _ Ec). vm_compute. reflexivity.
Qed.

(** C8 (amended). Every order that _makeMatchingOrder returns for an order O
    has the side [(O.side + 1) % 2], which differs from the side of O and is
    the opposite member when O is a buy or a sell order; its salt is the one
    generated in the call from the random draw; its extra is zero; its
    expiration time is zero (it never expires) and its listing time is 100 s
    before the call. *)
Theorem makeMatchingOrder_shape (w : World) (accountAddress : string)
    (offer : option string) (order : Order) (recipientAddress : string) (m : Order) :
  _makeMatchingOrder w accountAddress offer order recipientAddress = Ok m ->
  side m = Z.rem (side order + 1) 2
  /\ side m <> side order
  /\ (side order = NftOrderSide_Sell -> side m = NftOrderSide_Buy)
  /\ (side order = NftOrderSide_Buy -> side m = NftOrderSide_Sell)
  /\ salt m = generatePseudoRandomSalt w
  /\ extra m = 0%Q
  /\ expirationTime m = 0%Q
  /\ listingTime m = inject_Z (Math_round (seconds (Date_now w) - inject_Z 100)%Q).
Proof.
  intro H. unfold _makeMatchingOrder in H.
  bind_inv H acct Ea. bind_inv H rcpt Er. bind_inv H enc Ee.
  rewrite getTimeParameters_never in H. simpl in H.
  bind_inv H h Eh. inversion H; subst; clear H. simpl.
  repeat split.
  - apply rem_succ_2_neq.
  - intros ->. reflexivity.
  - intros ->. reflexivity.
Qed.


End AnyLibrary.

(** C4 (code at the failing input). The matching order of the ERC-721
    listing of the reference node: its calldata is the call of
    [transferFrom(address,address,uint256)], 100 bytes, and its replacement
    pattern is the fixed one of 196 bytes. *)
Theorem makeMatchingOrder_pattern_length_differs :
  exists m,
    _makeMatchingOrder Reference.world Reference.account None Reference.sellOrder
      Reference.account = Ok m
    /\ byteLength (calldata m) = 100%nat
    /\ byteLength (replacementPattern m) = 196%nat.
Proof.
  eexists. split; [vm_compute; reflexivity|].
  split; vm_compute; reflexivity.
Qed.

(** C8 (as stated, refuted). The matching order of the reference listing has
    the expiration time zero: it is not one week after the call, nor at any
    time after the call. *)
Lemma makeMatchingOrder_never_expires :
  _makeMatchingOrder Reference.world Reference.account None Reference.sellOrder
    Reference.account = Ok Reference.matchingOrder
  /\ expirationTime Reference.matchingOrder = 0%Q
  /\ ~ (expirationTime Reference.matchingOrder
        == seconds (Date_now Reference.world) + inject_Z ORDER_MATCHING_LATENCY_SECONDS)%Q
  /\ ~ (seconds (Date_now Reference.world) < expirationTime Reference.matchingOrder)%Q.
Proof.
  split; [vm_compute; reflexivity|].
  split; [reflexivity|].
  split; intro H; vm_compute in H; discriminate.
Qed.

(** The matching order of the reference listing: a buy order that never
    expires, listed 100 s before the call. *)
Lemma makeMatchingOrder_shape_witness :
  _makeMatchingOrder Reference.world Reference.account None Reference.sellOrder
    Reference.account = Ok Reference.matchingOrder
  /\ side Reference.matchingOrder = NftOrderSide_Buy
  /\ extra Reference.matchingOrder = 0%Q
  /\ expirationTime Reference.matchingOrder = 0%Q
  /\ listingTime Reference.matchingOrder = 1672531100%Q.
Proof.
  assert (E : _makeMatchingOrder Reference.world Reference.account None
                Reference.sellOrder Reference.account = Ok Reference.matchingOrder)
    by (vm_compute; reflexivity).
  split; [exact E|].
  destruct (makeMatchingOrder_shape _ _ _ _ _ _ E) as [_ [_ [S [_ [_ [X [T _]]]]]]].
  split; [exact (S eq_refl)|].
  split; [exact X|].
  split; [exact T|].
  reflexivity.
Defined.



End BuilderClaims.

(** ** C1, C2: the order hash *)

Module HashLemmas.
Import ResultLemmas.

Lemma to_int_not_nil (z : Z) :
  Z.to_int z <> Decimal.Pos Decimal.Nil /\ Z.to_int z <> Decimal.Neg Decimal.Nil.
Proof.
  destruct z as [|p|p]; simpl; split; try discriminate;
    intro H; inversion H as [H1]; exact (Unsigned.to_uint_nonnil p H1).
Qed.

Lemma Z_toString_inj (a b : Z) : Z_toString a = Z_toString b -> a = b.
Proof.
  unfold Z_toString. intro H.
  apply (f_equal NilZero.int_of_string) in H.
  destruct (to_int_not_nil a) as [A1 A2]. destruct (to_int_not_nil b) as [B1 B2].
  rewrite !NilZero.isi in H by assumption.
  inversion H as [H1].
  rewrite <- (DecimalZ.of_to a), <- (DecimalZ.of_to b), H1. reflexivity.
Qed.

(** The value of a hexadecimal digit does not depend on its letter case. *)
Lemma hexDigit_lower (c : ascii) : hexDigit (lower_ascii c) = hexDigit c.
Proof.
  destruct c as [b0 b1 b2 b3 b4 b5 b6 b7].
  destruct b0, b1, b2, b3, b4, b5, b6, b7; reflexivity.
Qed.

Lemma hexBytes_lower (d : string) : hexBytes (toLowerCase d) = hexBytes d.
Proof.
  assert (H : forall n d, (String.length d <= n)%nat ->
                          hexBytes (toLowerCase d) = hexBytes d).
  { induction n as [|n IH]; intros [|a [|b r]] Hl; cbn [String.length] in Hl;
      cbn [toLowerCase hexBytes]; try reflexivity; try lia.
    rewrite !hexDigit_lower. rewrite IH by lia. reflexivity. }
  apply (H (String.length d)). apply Nat.le_refl.
Qed.

Lemma arrayify_letter_case (d d' : string) :
  toLowerCase d = toLowerCase d' ->
  arrayify (String "0" (String "x" d)) = arrayify (String "0" (String "x" d')).
Proof.
  intro E. cbn [arrayify]. rewrite <- (hexBytes_lower d), <- (hexBytes_lower d'), E.
  reflexivity.
Qed.

Lemma byte_of_N_inj (n m : N) :
  (n < 256)%N -> (m < 256)%N -> byte_of_N n = byte_of_N m -> n = m.
Proof.
  intros Hn Hm. unfold byte_of_N.
  destruct (Byte.of_N n) as [x|] eqn:En;
    [|apply Byte.of_N_None_iff in En; lia].
  destruct (Byte.of_N m) as [y|] eqn:Em;
    [|apply Byte.of_N_None_iff in Em; lia].
  intros ->. apply Byte.to_of_N in En, Em. congruence.
Qed.

(** Two numbers that fit [len] bytes and have the same bytes are equal. *)
Lemma bigEndian_inj (len : nat) :
  forall z z', 0 <= z < 256 ^ Z.of_nat len -> 0 <= z' < 256 ^ Z.of_nat len ->
               bigEndian len z = bigEndian len z' -> z = z'.
Proof.
  induction len as [|k IH]; intros z z' Hz Hz' E.
  - change (256 ^ Z.of_nat 0) with 1 in Hz, Hz'. lia.
  - rewrite Nat2Z.inj_succ, Z.pow_succ_r in Hz, Hz' by lia.
    cbn [bigEndian] in E. apply app_inj_tail in E. destruct E as [E1 E2].
    assert (Q : z / 256 = z' / 256).
    { apply IH; [| |exact E1].
      - split; [apply Z.div_pos; lia | apply Z.div_lt_upper_bound; lia].
      - split; [apply Z.div_pos; lia | apply Z.div_lt_upper_bound; lia]. }
    assert (R : z mod 256 = z' mod 256).
    { pose proof (Z.mod_pos_bound z 256 eq_refl) as B.
      pose proof (Z.mod_pos_bound z' 256 eq_refl) as B'.
      apply Z2N.inj; [lia | lia |].
      apply byte_of_N_inj; [lia | lia |].
      inversion E2. reflexivity. }
    rewrite (Z.div_mod z 256), (Z.div_mod z' 256) by lia.
    rewrite Q, R. reflexivity.
Qed.

Lemma Ok_inj {A : Type} (a b : A) : Ok a = Ok b -> a = b.
Proof. intro H. injection H. auto. Qed.

Lemma pow256_32 : 256 ^ Z.of_nat 32 = 2 ^ 256.
Proof. vm_compute. reflexivity. Qed.

Section AnyLibrary.
Context {L : Libraries}.

Lemma getOrderHash_unfold (o : Order) :
  getOrderHash o = solidityKeccak256 orderTypes (map snd (hashArguments o)).
Proof. reflexivity. Qed.

Lemma hashArguments_same (o o' : Order) :
  hashArguments o = hashArguments o' <-> sameHashFields o o'.
Proof.
  unfold hashArguments, orderParts, orderWithStringTypes.
  cbn [ows_order ows_feeMethod ows_feeRecipient ows_howToCall ows_maker ows_saleKind
       ows_side ows_taker].
  split.
  - intro H. injection H as H1 H2 H3 H4 H5 H6 H7 H8 H9 H10 H11 H12 H13 H14 H15
      H16 H17 H18 H19 H20 H21 H22 H23.
    apply Z_toString_inj in H9, H10, H11, H13.
    split; assumption.
  - intros [H1 H2 H3 H4 H5 H6 H7 H8 H9 H10 H11 H12 H13 H14 H15
      H16 H17 H18 H19 H20 H21 H22 H23].
    rewrite H1, H2, H3, H4, H5, H6, H7, H8, H9, H10, H11, H12, H13, H14, H15,
      H16, H17, H18, H19, H20, H21, H22, H23.
    reflexivity.
Qed.

Section AnyDigest.
Variable keccak256 : list byte -> string.
Variable pack : SolidityTypes -> JsValue -> Result (list byte).
Hypothesis digest : PackedDigest keccak256 pack.

(** The hash of an order whose parts are packed. *)
Lemma getOrderHash_packed (o : Order) (ps : list (list byte)) :
  packedParts pack o = Ok ps -> getOrderHash o = Ok (keccak256 (List.concat ps)).
Proof.
  intro P. rewrite getOrderHash_unfold, (digest_of_pack _ _ digest).
  unfold packedParts in P. rewrite P. reflexivity.
Qed.

(** Two orders whose packed parts differ in one part have different hashes,
    unless keccak256 collides on them. *)
Lemma one_part_changes_hash (o o' : Order) (ps ps' : list (list byte)) :
  packedParts pack o = Ok ps ->
  packedParts pack o' = Ok ps' ->
  onePartChanged ps ps' ->
  noCollision keccak256 (List.concat ps) (List.concat ps') ->
  exists h h', getOrderHash o = Ok h /\ getOrderHash o' = Ok h' /\ h <> h'.
Proof.
  intros P P' [A [x [x' [B [-> [-> N]]]]]] NC.
  exists (keccak256 (List.concat (A ++ x :: B))), (keccak256 (List.concat (A ++ x' :: B))).
  split; [apply getOrderHash_packed; exact P|].
  split; [apply getOrderHash_packed; exact P'|].
  intro E. apply N. apply NC in E.
  rewrite !concat_app in E. cbn [List.concat] in E.
  apply app_inv_head in E. apply app_inv_tail in E. exact E.
Qed.

Lemma packAll_snoc (ts : list SolidityTypes) :
  forall (vs : list JsValue) (t : SolidityTypes) (v : JsValue),
    List.length ts = List.length vs ->
    packAll pack (ts ++ [t]) (vs ++ [v])
    = (let* front := packAll pack ts vs in
       let* x := pack t v in
       Ok (front ++ [x])).
Proof.
  induction ts as [|t0 ts IH]; intros [|v0 vs] t v Len; try discriminate Len.
  - cbn. destruct (pack t v); reflexivity.
  - cbn [app packAll]. destruct (pack t0 v0) as [p|e]; [|reflexivity].
    cbn [bind]. rewrite IH by (injection Len; auto).
    destruct (packAll pack ts vs) as [front|e]; [|reflexivity].
    cbn [bind]. destruct (pack t v); reflexivity.
Qed.

(** The salt is the last of the packed parts, and the only one that depends
    on it. *)
Lemma packedParts_withSalt (o : Order) (s : string) :
  packedParts pack (withSalt o s)
  = (let* front := packAll pack (firstn 22 orderTypes)
                     (firstn 22 (map snd (hashArguments o))) in
     let* x := pack Uint256 (JStr s) in
     Ok (front ++ [x])).
Proof.
  rewrite <- packAll_snoc by reflexivity. reflexivity.
Qed.

End AnyDigest.

End AnyLibrary.

(** The reference packing has the laws of the digest. *)
Lemma reference_packed_digest :
  @PackedDigest PackedReference.libraries PackedReference.printed PackedReference.pack.
Proof.
  split.
  - intros types values. reflexivity.
  - intro s. reflexivity.
  - intros n Hn. cbn [PackedReference.pack]. unfold PackedReference.uintBytes, Z_toString.
    destruct (to_int_not_nil n) as [N1 N2].
    rewrite NilZero.isi by assumption. rewrite DecimalZ.of_to.
    rewrite pow256_32.
    destruct (Z.leb_spec 0 n); [|lia]. destruct (Z.ltb_spec n (2 ^ 256)); [|lia].
    reflexivity.
Qed.

End HashLemmas.

Module HashClaims.
Import HashLemmas.

Section AnyLibrary.
Context {L : Libraries}.
Variable keccak256 : list byte -> string.
Variable pack : SolidityTypes -> JsValue -> Result (list byte).



End AnyLibrary.




End HashClaims.

(** * Further properties *)

(** ** Time parameters *)

Module TimeExtras.
Import TimeRules TimeRulesLemmas TimeRulesProofs.

Lemma Qfloor_shift (q : Q) (k : Z) : Qfloor q + k <= Qfloor (q + inject_Z k)%Q.
Proof.
  rewrite <- (Qfloor_Z (Qfloor q + k)).
  apply Qfloor_resp_le.
  rewrite inject_Z_plus.
  apply Qplus_le_l. apply Qfloor_le.
Qed.

Lemma Math_round_le (x y : number) : (x <= y)%Q -> Math_round x <= Math_round y.
Proof.
  intro H. unfold Math_round. apply Qfloor_resp_le.
  apply Qplus_le_l. exact H.
Qed.

(** The default listing time is at least 110 s before the least expiration. *)
Lemma default_listing_before_min (now : Z) :
  Math_round (seconds now - inject_Z 100)%Q + 110
  <= Math_round (seconds now + inject_Z MIN_EXPIRATION_SECONDS)%Q.
Proof.
  unfold Math_round.
  eapply Z.le_trans; [apply Qfloor_shift|].
  apply Qfloor_resp_le. unfold MIN_EXPIRATION_SECONDS.
  apply Qle_lteq. right. simpl. ring.
Qed.

Lemma default_listing_le_now (now : Z) :
  Math_round (seconds now - inject_Z 100)%Q <= Math_round (seconds now).
Proof.
  apply Math_round_le.
  rewrite <- (Qplus_0_r (seconds now)) at 2.
  apply Qplus_le_r. discriminate.
Qed.

Lemma inject_Z_le (a b : Z) : a <= b -> (inject_Z a <= inject_Z b)%Q.
Proof. intro H. rewrite <- Zle_Qle. exact H. Qed.

Lemma inject_Z_lt (a b : Z) : a < b -> (inject_Z a < inject_Z b)%Q.
Proof. intro H. rewrite <- Zlt_Qlt. exact H. Qed.

(** X1. The time parameters that _getTimeParameters returns are consistent:
    the order never expires (expiration zero) or its listing time is strictly
    before its expiration time; and the listing time is never earlier than
    100 s before the call. *)
Theorem getTimeParameters_window (now : Z) (e : number) (l : option number) (w : bool)
    (tp : TimeParameters) :
  _getTimeParameters now e l w = Ok tp ->
  ((tp_expirationTime tp == 0)%Q \/ (tp_listingTime tp < tp_expirationTime tp)%Q)
  /\ (inject_Z (Math_round (seconds now - inject_Z 100)%Q) <= tp_listingTime tp)%Q.
Proof.
  intro E. pose proof (accepted_of_ok _ _ _ _ _ E) as A.
  rewrite (rejected_cases _ _ _ _ A) in E. inversion E; subst; clear E.
  destruct A as [A1 A2 A3 A4 A5 A6].
  assert (D : (inject_Z (Math_round (seconds now - inject_Z 100)%Q)
               < minExpirationTimestamp now)%Q).
  { unfold minExpirationTimestamp. apply inject_Z_lt.
    pose proof (default_listing_before_min now). lia. }
  unfold returned. destruct w; simpl.
  - specialize (A4 eq_refl). destruct A1 as [A1|A1]; [contradiction|]. split.
    + right. rewrite <- (Qplus_0_r e) at 1. apply Qplus_lt_r. reflexivity.
    + apply Qlt_le_weak. eapply Qlt_le_trans; [exact D | exact A1].
  - assert (Dflt : ((e == 0)%Q
                    \/ (inject_Z (Math_round (seconds now - inject_Z 100)%Q) < e)%Q)).
    { destruct A1 as [A1|A1]; [left; exact A1|right].
      eapply Qlt_le_trans; [exact D | exact A1]. }
    destruct l as [v|]; [|split; [exact Dflt | apply Qle_refl]].
    destruct (Qeq_bool v 0) eqn:V; [split; [exact Dflt | apply Qle_refl]|].
    assert (G : listing_given (Some v) v).
    { split; [reflexivity|]. intro Z0. apply Qeq_bool_iff in Z0. congruence. }
    split.
    + exact (A3 v G).
    + eapply Qle_trans; [|exact (A2 v G)].
      unfold minListingTimestamp. apply inject_Z_le. apply default_listing_le_now.
Qed.

(** A sale that expires in one hour, listed now. *)
Lemma getTimeParameters_window_witness :
  _getTimeParameters 1672531200250 1672534800%Q (Some 1672531200%Q) false
  = Ok {| tp_expirationTime := 1672534800%Q; tp_listingTime := 1672531200%Q |}
  /\ (1672531200 < 1672534800)%Q.
Proof.
  assert (E : _getTimeParameters 1672531200250 1672534800%Q (Some 1672531200%Q) false
              = Ok {| tp_expirationTime := 1672534800%Q;
                      tp_listingTime := 1672531200%Q |})
    by (vm_compute; reflexivity).
  split; [exact E|].
  destruct (proj1 (getTimeParameters_window _ _ _ _ _ E)) as [Z0|Lt].
  - vm_compute in Z0. discriminate.
  - exact Lt.
Defined.

End TimeExtras.

(** ** Fees *)

Module FeeExtras.
Import ResultLemmas TimeRulesLemmas.

Lemma andThen_completed {A B : Type} (r : Outcome A) (k : A -> Outcome B) (b : B) :
  andThen r k = Completed b -> exists a, r = Completed a /\ k a = Completed b.
Proof. destruct r as [a|f]; simpl; [eauto | discriminate]. Qed.

Ltac ltb_hyps :=
  repeat match goal with
         | H : num_ltb _ _ = true |- _ => apply num_ltb_true in H
         | H : num_ltb _ _ = false |- _ => apply num_ltb_false in H
         end.

Ltac q_absurd :=
  match goal with
  | H1 : (?x < ?y)%Q, H2 : (?y <= ?x)%Q |- _ => exfalso; exact (Qlt_not_le _ _ H1 H2)
  end.

Lemma validateFees_cases (b s : number) :
  (((10000 < b)%Q \/ (10000 < s)%Q) /\ _validateFees b s = Failed FeesAboveMaximum)
  \/ (((b <= 10000)%Q /\ (s <= 10000)%Q) /\ ((b < 0)%Q \/ (s < 0)%Q)
      /\ _validateFees b s = Failed FeesBelowZero)
  \/ ((((0 <= b)%Q /\ (b <= 10000)%Q) /\ ((0 <= s)%Q /\ (s <= 10000)%Q))
      /\ _validateFees b s = Completed tt).
Proof.
  unfold _validateFees, num_gtb, INVERSE_BASIS_POINT.
  destruct (num_ltb (inject_Z 10000) b) eqn:B1;
    [left; ltb_hyps; split; [left; exact B1 | reflexivity]|].
  destruct (num_ltb (inject_Z 10000) s) eqn:S1;
    [left; ltb_hyps; split; [right; exact S1 | reflexivity]|].
  destruct (num_ltb b 0%Q) eqn:B0;
    [right; left; ltb_hyps; repeat split; auto|].
  destruct (num_ltb s 0%Q) eqn:S0;
    [right; left; ltb_hyps; repeat split; auto|].
  right; right. ltb_hyps. repeat split; auto.
Qed.

(** X2. _getBuyFeeParameters returns fee parameters exactly when both totals
    lie between 0 and 10000 basis points. A total above 10000 is reported
    first; a negative total is reported only when neither is above 10000. *)
Theorem getBuyFeeParameters_range (b s : number) (sellOrder : option Order) :
  ((exists fp, _getBuyFeeParameters b s sellOrder = Completed fp)
   <-> ((0 <= b)%Q /\ (b <= 10000)%Q) /\ ((0 <= s)%Q /\ (s <= 10000)%Q))
  /\ (_getBuyFeeParameters b s sellOrder = Failed FeesAboveMaximum
      <-> (10000 < b)%Q \/ (10000 < s)%Q)
  /\ (_getBuyFeeParameters b s sellOrder = Failed FeesBelowZero
      <-> ((b <= 10000)%Q /\ (s <= 10000)%Q) /\ ((b < 0)%Q \/ (s < 0)%Q)).
Proof.
  unfold _getBuyFeeParameters.
  destruct (validateFees_cases b s)
    as [[Hi E] | [[[Hb Hs] [Lo E]] | [[[B0 B1] [S0 S1]] E]]]; rewrite E; simpl.
  - split; [|split].
    + split; [intros [fp F]; discriminate|].
      intros [[? ?] [? ?]]. destruct Hi; q_absurd.
    + split; [intros _; exact Hi | reflexivity].
    + split; [discriminate|]. intros [[? ?] _]. destruct Hi; q_absurd.
  - split; [|split].
    + split; [intros [fp F]; discriminate|].
      intros [[? ?] [? ?]]. destruct Lo; q_absurd.
    + split; [discriminate|]. intros [?|?]; q_absurd.
    + split; [intros _; auto | reflexivity].
  - split; [|split].
    + split; [intros _; auto | intros _; eexists; reflexivity].
    + split; [discriminate|]. intros [?|?]; q_absurd.
    + split; [discriminate|]. intros [_ [?|?]]; q_absurd.
Qed.

(** X3. Whatever the extra bounty, computeFees never fails for a buy order:
    the seller bounty is zero, and no transfer fee is taken from the asset. *)
Theorem computeFees_buy_side (asset : option NftAsset) (extra : number) :
  exists fees,
    computeFees asset extra NftOrderSide_Buy = Ok fees
    /\ sellerBountyBasisPoints fees = 0%Q
    /\ transferFee fees = 0%Q
    /\ transferFeeTokenAddress fees = None.
Proof.
  unfold computeFees, throwIf. simpl.
  eexists. split; [reflexivity|].
  destruct asset; repeat split; reflexivity.
Qed.

(** X4. The totals that computeFees returns are the marketplace fee plus the
    developer fee; the developer fee of an asset without a collection is
    zero, whatever its contract declares, so its totals are the marketplace
    fees alone. *)
Theorem computeFees_totals (a : NftAsset) (extra : number) (side : Z) (fees : ComputedFees) :
  computeFees (Some a) extra side = Ok fees ->
  totalBuyerFeeBasisPoints fees
  = (opensea_buyer_fee_basis_points (asset_contract a) + devBuyerFeeBasisPoints fees)%Q
  /\ totalSellerFeeBasisPoints fees
     = (opensea_seller_fee_basis_points (asset_contract a) + devSellerFeeBasisPoints fees)%Q
  /\ (collection a = None ->
      devBuyerFeeBasisPoints fees = 0%Q /\ devSellerFeeBasisPoints fees = 0%Q
      /\ (totalBuyerFeeBasisPoints fees
          == opensea_buyer_fee_basis_points (asset_contract a))%Q
      /\ (totalSellerFeeBasisPoints fees
          == opensea_seller_fee_basis_points (asset_contract a))%Q).
Proof.
  unfold computeFees, throwIf.
  destruct (num_gtb _ 0%Q && _); [discriminate|].
  intro H. inversion H; subst; clear H. simpl.
  split; [reflexivity|]. split; [reflexivity|].
  intros ->. simpl. repeat split; try reflexivity; apply Qplus_0_r.
Qed.

(** An asset without a collection whose contract declares a developer seller
    fee of 500 basis points. *)
Lemma computeFees_totals_witness :
  exists a fees,
    dev_seller_fee_basis_points (asset_contract a) = 500%Q
    /\ computeFees (Some a) 0%Q NftOrderSide_Sell = Ok fees
    /\ collection a = None
    /\ devSellerFeeBasisPoints fees = 0%Q.
Proof.
  pose (a := {| asset_contract :=
                  {| ac_address := Reference.token;
                     ac_schema_name := None;
                     opensea_buyer_fee_basis_points := 0%Q;
                     opensea_seller_fee_basis_points := 250%Q;
                     dev_buyer_fee_basis_points := 0%Q;
                     dev_seller_fee_basis_points := 500%Q |};
                collection := None;
                token_id := "1";
                asset_name := "";
                transfer_fee := None;
                transfer_fee_payment_token := None |}).
  assert (E : computeFees (Some a) 0%Q NftOrderSide_Sell
              = Ok {| devBuyerFeeBasisPoints := 0%Q;
                      devSellerFeeBasisPoints := 0%Q;
                      openseaBuyerFeeBasisPoints := 0%Q;
                      openseaSellerFeeBasisPoints := 250%Q;
                      sellerBountyBasisPoints := 0%Q;
                      totalBuyerFeeBasisPoints := (0 + 0)%Q;
                      totalSellerFeeBasisPoints := (250 + 0)%Q;
                      transferFee := 0%Q;
                      transferFeeTokenAddress := None |})
    by reflexivity.
  exists a. eexists. split; [reflexivity|]. split; [exact E|]. split; [reflexivity|].
  exact (proj1 (proj2 (proj2 (proj2 (computeFees_totals _ _ _ _ E)) eq_refl))).
Defined.

Section AnyLibrary.
Context {L : Libraries} {SM : Schemas}.

(** X5. No sell order is built with a referrer bounty above the cap: the
    maker referrer fee of an order that _makeSellOrder returns is the extra
    bounty asked for (2.5 by default), and it is not positive or, with the
    marketplace bounty of 100 added, at most the marketplace seller fee of
    the asset. *)
Theorem makeSellOrder_bounty_within_cap (w : World) (a : SellOrderArgs) (o : Order) :
  _makeSellOrder w a = Ok o ->
  makerReferrerFee o = default (5 # 2)%Q (so_extraBountyBasisPoints a)
  /\ ((makerReferrerFee o <= 0)%Q
      \/ (makerReferrerFee o + 100
          <= opensea_seller_fee_basis_points (asset_contract (so_asset a)))%Q).
Proof.
  intro H. unfold _makeSellOrder in H.
  bind_inv H fees Ef. bind_inv H schema Es. bind_inv H enc Ee.
  bind_inv H price Ep. bind_inv H times Et.
  inversion H; subst; clear H. simpl.
  unfold computeFees, throwIf in Ef. simpl in Ef.
  destruct (num_gtb (default (5 # 2)%Q (so_extraBountyBasisPoints a)) 0%Q) eqn:P.
  - destruct (num_gtb _ (opensea_seller_fee_basis_points _)) eqn:B;
      simpl in Ef; [discriminate|].
    inversion Ef; subst; clear Ef. simpl. split; [reflexivity|].
    right. unfold num_gtb in B. apply num_ltb_false in B. exact B.
  - simpl in Ef. inversion Ef; subst; clear Ef. simpl. split; [reflexivity|].
    left. unfold num_gtb in P. apply num_ltb_false in P. exact P.
Qed.

(** X6. A buy order made against an order that _makeSellOrder returned
    carries the buyer's total fee as maker relayer fee and the seller's total
    fee as taker relayer fee, for a fixed-price sale and for an English
    auction alike: the swap of _getBuyFeeParameters undoes the swap of
    _getSellFeeParameters. *)
Theorem buy_fees_mirror_built_sell_order (w : World) (a : SellOrderArgs) (o : Order)
    (b s : number) (fp : FeeParameters) :
  _makeSellOrder w a = Ok o ->
  _getBuyFeeParameters b s (Some o) = Completed fp ->
  exists fees,
    computeFees (Some (so_asset a)) (default (5 # 2)%Q (so_extraBountyBasisPoints a))
      NftOrderSide_Sell = Ok fees
    /\ fp_makerRelayerFee fp = totalBuyerFeeBasisPoints fees
    /\ fp_takerRelayerFee fp = totalSellerFeeBasisPoints fees.
Proof.
  intros H F. unfold _makeSellOrder in H.
  bind_inv H fees Ef. bind_inv H schema Es. bind_inv H enc Ee.
  bind_inv H price Ep. bind_inv H times Et.
  inversion H; subst; clear H.
  exists fees. split; [exact Ef|].
  unfold _getBuyFeeParameters in F.
  apply andThen_completed in F. destruct F as [u [_ F]].
  inversion F; subst; clear F. simpl.
  destruct (so_waitForHighestBid a); split; reflexivity.
Qed.

End AnyLibrary.

(** The order built for the reference asset asks for no bounty. *)
Lemma makeSellOrder_bounty_within_cap_witness :
  _makeSellOrder Reference.world Reference.sellArgs = Ok Reference.builtOrder
  /\ makerReferrerFee Reference.builtOrder = 0%Q.
Proof.
  assert (E : _makeSellOrder Reference.world Reference.sellArgs
              = Ok Reference.builtOrder)
    by (vm_compute; reflexivity).
  split; [exact E|].
  exact (proj1 (makeSellOrder_bounty_within_cap _ _ _ E)).
Defined.

(** A buy order against the order built for the reference asset: no buyer
    fee, and the seller fee of 250 as taker relayer fee. *)
Lemma buy_fees_mirror_built_sell_order_witness :
  exists fp,
    _makeSellOrder Reference.world Reference.sellArgs = Ok Reference.builtOrder
    /\ _getBuyFeeParameters 0%Q 250%Q (Some Reference.builtOrder) = Completed fp
    /\ (fp_makerRelayerFee fp == 0)%Q
    /\ (fp_takerRelayerFee fp == 250)%Q.
Proof.
  assert (E : _makeSellOrder Reference.world Reference.sellArgs
              = Ok Reference.builtOrder)
    by (vm_compute; reflexivity).
  destruct (_getBuyFeeParameters 0%Q 250%Q (Some Reference.builtOrder)) as [fp|f] eqn:F;
    [|vm_compute in F; discriminate].
  exists fp. split; [exact E|]. split; [reflexivity|].
  destruct (buy_fees_mirror_built_sell_order _ _ _ _ _ _ E F) as [fees [Ef [M T]]].
  vm_compute in Ef. inversion Ef; subst; clear Ef.
  rewrite M, T. split; vm_compute; reflexivity.
Defined.

End FeeExtras.

(** ** Matching orders and sides *)

Module MatchingExtras.
Import ResultLemmas BuilderLemmas.

Section AnyLibrary.
Context {L : Libraries} {SM : Schemas}.

Lemma makeMatchingOrder_inv (w : World) (accountAddress : string) (offer : option string)
    (order : Order) (recipientAddress : string) (m : Order) :
  _makeMatchingOrder w accountAddress offer order recipientAddress = Ok m ->
  exists account recipient enc h,
    utils_getAddress accountAddress = Ok account
    /\ utils_getAddress recipientAddress = Ok recipient
    /\ computeOrderParams order recipient = Ok enc
    /\ getOrderHash (matchingFields w account offer order enc) = Ok h
    /\ m = withHash (matchingFields w account offer order enc) h.
Proof.
  intro H. unfold _makeMatchingOrder in H.
  bind_inv H acct Ea. bind_inv H rcpt Er. bind_inv H enc Ee.
  rewrite getTimeParameters_never in H. cbn [bind tp_expirationTime tp_listingTime] in H.
  bind_inv H h Eh. inversion H; subst; clear H.
  exists acct, rcpt, enc, h. repeat split; assumption.
Qed.

Lemma getOrderHash_withHash (o : Order) (h : string) :
  getOrderHash (withHash o h) = getOrderHash o.
Proof. reflexivity. Qed.

(** X7. The hash stored in a matching order is the hash of the order
    itself: computing getOrderHash again on the order that _makeMatchingOrder
    returned gives the stored value. *)
Theorem makeMatchingOrder_hash_reproducible (w : World) (accountAddress : string)
    (offer : option string) (order : Order) (recipientAddress : string) (m : Order) :
  _makeMatchingOrder w accountAddress offer order recipientAddress = Ok m ->
  exists h, hash m = Some h /\ getOrderHash m = Ok h.
Proof.
  intro H. apply makeMatchingOrder_inv in H.
  destruct H as [acct [rcpt [enc [h [_ [_ [_ [Eh ->]]]]]]]].
  exists h. split; [reflexivity|].
  rewrite getOrderHash_withHash. exact Eh.
Qed.

(** X8. A matching order takes the maker of the order it answers as its
    taker, keeps the relayer and protocol fees of that order on the same
    side (maker fees stay maker fees), keeps its payment token, and, with no
    offer, its base price; and exactly one of the two orders names the null
    address as fee recipient. *)
Theorem makeMatchingOrder_terms (w : World) (accountAddress : string)
    (order : Order) (recipientAddress : string) (m : Order) :
  _makeMatchingOrder w accountAddress None order recipientAddress = Ok m ->
  taker m = maker order
  /\ makerRelayerFee m = makerRelayerFee order
  /\ takerRelayerFee m = takerRelayerFee order
  /\ makerProtocolFee m = makerProtocolFee order
  /\ takerProtocolFee m = takerProtocolFee order
  /\ paymentToken m = paymentToken order
  /\ basePrice m = basePrice order
  /\ ((feeRecipient order = NULL_ADDRESS /\ feeRecipient m <> NULL_ADDRESS)
      \/ (feeRecipient order <> NULL_ADDRESS /\ feeRecipient m = NULL_ADDRESS)).
Proof.
  intro H. apply makeMatchingOrder_inv in H.
  destruct H as [acct [rcpt [enc [h [_ [_ [_ [_ ->]]]]]]]]. simpl.
  repeat split.
  destruct (String.eqb_spec (feeRecipient order) NULL_ADDRESS) as [E|N].
  - left. split; [exact E | discriminate].
  - right. split; [exact N | reflexivity].
Qed.

(** X9. For a buy or a sell order and an order of the other side, which is
    the side that _makeMatchingOrder gives the matching order,
    assignOrdersToSides returns one order of each side: the given order
    stays, unchanged, on its own side, and the other side is the matching
    order carrying the signature fields of the given order. *)
Theorem assignOrdersToSides_one_of_each (order : SignedOrder) (m : Order) :
  (side (ord order) = NftOrderSide_Buy /\ side m = NftOrderSide_Sell)
  \/ (side (ord order) = NftOrderSide_Sell /\ side m = NftOrderSide_Buy) ->
  let orders := assignOrdersToSides order m in
  side (ord (buy orders)) = NftOrderSide_Buy
  /\ side (ord (sell orders)) = NftOrderSide_Sell
  /\ ((buy orders = order /\ ord (sell orders) = m)
      \/ (sell orders = order /\ ord (buy orders) = m))
  /\ ord_r (buy orders) = ord_r order /\ ord_r (sell orders) = ord_r order
  /\ ord_s (buy orders) = ord_s order /\ ord_s (sell orders) = ord_s order
  /\ ord_v (buy orders) = ord_v order /\ ord_v (sell orders) = ord_v order.
Proof.
  intros S. unfold assignOrdersToSides.
  destruct S as [[S M]|[S M]]; rewrite S; simpl;
    repeat split; auto.
Qed.

End AnyLibrary.

(** The matching order of the reference listing. *)
Lemma makeMatchingOrder_hash_reproducible_witness :
  _makeMatchingOrder Reference.world Reference.account None Reference.sellOrder
    Reference.account = Ok Reference.matchingOrder
  /\ exists h, hash Reference.matchingOrder = Some h
               /\ getOrderHash Reference.matchingOrder = Ok h.
Proof.
  assert (E : _makeMatchingOrder Reference.world Reference.account None
                Reference.sellOrder Reference.account = Ok Reference.matchingOrder)
    by (vm_compute; reflexivity).
  split; [exact E|].
  exact (makeMatchingOrder_hash_reproducible _ _ _ _ _ _ E).
Defined.

Lemma makeMatchingOrder_terms_witness :
  _makeMatchingOrder Reference.world Reference.account None Reference.sellOrder
    Reference.account = Ok Reference.matchingOrder
  /\ taker Reference.matchingOrder = Reference.seller
  /\ takerRelayerFee Reference.matchingOrder = 250%Q.
Proof.
  assert (E : _makeMatchingOrder Reference.world Reference.account None
                Reference.sellOrder Reference.account = Ok Reference.matchingOrder)
    by (vm_compute; reflexivity).
  split; [exact E|].
  destruct (makeMatchingOrder_terms _ _ _ _ _ E) as [T [_ [F _]]].
  split; [exact T | exact F].
Defined.

(** The reference listing, a sell order, with its matching order; and that
    matching order, a buy order, with the listing. *)
Lemma assignOrdersToSides_one_of_each_witness :
  (side Reference.sellOrder = NftOrderSide_Sell
   /\ buy (assignOrdersToSides
             {| ord := Reference.sellOrder; ord_r := None; ord_s := None;
                ord_v := None |} Reference.matchingOrder)
      <> {| ord := Reference.sellOrder; ord_r := None; ord_s := None; ord_v := None |}
   /\ side (ord (buy (assignOrdersToSides
                        {| ord := Reference.sellOrder; ord_r := None; ord_s := None;
                           ord_v := None |} Reference.matchingOrder)))
      = NftOrderSide_Buy)
  /\ (side Reference.matchingOrder = NftOrderSide_Buy
      /\ buy (assignOrdersToSides
                {| ord := Reference.matchingOrder; ord_r := Some "0x01"%string;
                   ord_s := Some "0x02"%string; ord_v := Some 27 |} Reference.sellOrder)
         = {| ord := Reference.matchingOrder; ord_r := Some "0x01"%string;
              ord_s := Some "0x02"%string; ord_v := Some 27 |}
      /\ side (ord (sell (assignOrdersToSides
                            {| ord := Reference.matchingOrder; ord_r := Some "0x01"%string;
                               ord_s := Some "0x02"%string; ord_v := Some 27 |}
                            Reference.sellOrder)))
         = NftOrderSide_Sell).
Proof.
  split.
  - split; [reflexivity|]. split; [intro H; discriminate H|].
    exact (proj1 (assignOrdersToSides_one_of_each
                    {| ord := Reference.sellOrder; ord_r := None; ord_s := None;
                       ord_v := None |} Reference.matchingOrder
                    (or_intror (conj eq_refl eq_refl)))).
  - split; [reflexivity|]. split; [reflexivity|].
    exact (proj1 (proj2 (assignOrdersToSides_one_of_each
                           {| ord := Reference.matchingOrder; ord_r := Some "0x01"%string;
                              ord_s := Some "0x02"%string; ord_v := Some 27 |}
                           Reference.sellOrder
                           (or_introl (conj eq_refl eq_refl))))).
Defined.

End MatchingExtras.

(** ** Replacement patterns and calldata *)

Module PatternExtras.
Import ResultLemmas.

Lemma hex_pair (x : byte) (r : string) :
  Buffer_from_hex
    (String (hexChar (Byte.to_N x / 16)) (String (hexChar (Byte.to_N x mod 16)) r))
  = x :: Buffer_from_hex r.
Proof. destruct x; reflexivity. Qed.

(** Decoding the hexadecimal text of a buffer gives the buffer back. *)
Theorem Buffer_hex_round_trip (b : list byte) :
  Buffer_from_hex (Buffer_toString_hex b) = b.
Proof.
  induction b as [|x r IH]; [reflexivity|].
  cbn [Buffer_toString_hex]. rewrite hex_pair, IH. reflexivity.
Qed.

Lemma mapM_Forall2 {A B : Type} (f : A -> Result B) (l : list A) (l' : list B) :
  mapM f l = Ok l' -> Forall2 (fun a b => f a = Ok b) l l'.
Proof.
  revert l'. induction l as [|a r IH]; intros l' H; simpl in H.
  - inversion H. constructor.
  - bind_inv H b Eb. bind_inv H bs Ebs. inversion H; subst.
    constructor; [exact Eb | apply IH; exact Ebs].
Qed.

Lemma fill_binary (buf : list byte) (bitmask : Z) :
  bitmask = 0 \/ bitmask = 255 -> Forall binaryByte (fill buf bitmask).
Proof.
  intros [-> | ->]; unfold fill; apply Forall_forall; intros x Hx;
    apply in_map_iff in Hx; destruct Hx as [y [<- _]]; [left | right]; reflexivity.
Qed.

Lemma fill_length (buf : list byte) (bitmask : Z) :
  List.length (fill buf bitmask) = List.length buf.
Proof. unfold fill. apply length_map. Qed.

Lemma fill_repeat (buf : list byte) (bitmask : Z) :
  fill buf bitmask = repeat (byte_of_N (Z.to_N bitmask)) (List.length buf).
Proof. unfold fill. induction buf as [|x r IH]; simpl; [reflexivity | rewrite IH; reflexivity]. Qed.

Section AnyLibrary.
Context {L : Libraries}.

Lemma maskInput_inv (k : FunctionInputKind) (i : AbiInput) (m : MaskedInput) :
  maskInput k i = Ok m ->
  effectiveValue i = Ok (mi_value m)
  /\ mi_type m = ethABI_local.elementaryName (type i)
  /\ mi_bitmask m = (if kind_eqb (kind i) k then 255 else 0).
Proof.
  unfold maskInput, effectiveValue. intro H. bind_inv H v Ev.
  inversion H; subst; clear H. simpl. repeat split. exact Ev.
Qed.

(** X10. The pattern that encodeReplacementPattern returns as bytes is the
    hexadecimal text of its mask: decoding it gives the mask back, which
    begins with the four zero bytes of the method hash. *)
Theorem encodeReplacementPattern_decodes (abi : FunctionAbi) (k : FunctionInputKind)
    (p : string) :
  encodeReplacementPattern abi k true = Ok p ->
  exists mask,
    replacementMask abi k = Ok mask
    /\ Buffer_from_hex (slice 2 p) = mask
    /\ byteLength p = List.length mask
    /\ firstn 4 mask = repeat Byte.x00 4
    /\ (4 <= List.length mask)%nat.
Proof.
  unfold encodeReplacementPattern. intro H. bind_inv H mask Em.
  cbn iota in H. inversion H; subst; clear H. exists mask.
  unfold byteLength. cbn [slice append]. rewrite Buffer_hex_round_trip.
  split; [exact Em|]. split; [reflexivity|]. split; [reflexivity|].
  unfold replacementMask in Em. bind_inv Em masked E1. bind_inv Em st E2.
  inversion Em; subst; clear Em. split; [reflexivity|].
  simpl. lia.
Qed.

Lemma foldM_static_binary (d : option Z) (masked : list MaskedInput) (st st' : PatternState) :
  Forall (fun m => ethABI_local.isDynamic (mi_type m) = false
                   /\ (mi_bitmask m = 0 \/ mi_bitmask m = 255)) masked ->
  Forall (Forall binaryByte) (ps_output st) ->
  Forall (Forall binaryByte) (ps_data st) ->
  foldM (patternStep d) masked st = Ok st' ->
  Forall (Forall binaryByte) (ps_output st') /\ Forall (Forall binaryByte) (ps_data st').
Proof.
  revert st. induction masked as [|m r IH]; intros st F O D H; simpl in H.
  - inversion H; subst. split; assumption.
  - inversion F as [|? ? [Dyn Bm] Fr]; subst.
    bind_inv H s1 E1. apply (IH s1 Fr); [| |exact H];
      unfold patternStep in E1;
      destruct (negb (truthy (mi_value m)));
      try (inversion E1; subst; assumption);
      bind_inv E1 enc Ee; rewrite Dyn in E1; inversion E1; subst; simpl; try assumption.
    apply Forall_app. split; [exact O|].
    constructor; [apply fill_binary; exact Bm | constructor].
Qed.

Lemma masked_static (k : FunctionInputKind) (l : list AbiInput)
    (masked : list MaskedInput) :
  (forall i, In i l ->
             ethABI_local.isDynamic (ethABI_local.elementaryName (type i)) = false) ->
  Forall2 (fun a b => maskInput k a = Ok b) l masked ->
  Forall (fun m => ethABI_local.isDynamic (mi_type m) = false
                   /\ (mi_bitmask m = 0 \/ mi_bitmask m = 255)) masked.
Proof.
  intros S E1. induction E1 as [|i m l l' E _ IH]; constructor.
  - apply maskInput_inv in E. destruct E as [_ [T B]]. rewrite T, B. split.
    + apply S. left. reflexivity.
    + destruct (kind_eqb (kind i) k); [right | left]; reflexivity.
  - apply IH. intros j Hj. apply S. right. exact Hj.
Qed.

(** X11. When no input of the function has a dynamic type, every byte of
    the mask is 0x00 or 0xFF, whatever the library encodes. *)
Theorem replacementMask_static_binary (abi : FunctionAbi) (k : FunctionInputKind)
    (mask : list byte) :
  (forall i, In i (inputs abi) ->
             ethABI_local.isDynamic (ethABI_local.elementaryName (type i)) = false) ->
  replacementMask abi k = Ok mask ->
  Forall binaryByte mask.
Proof.
  intros S H. unfold replacementMask in H.
  bind_inv H masked E1. bind_inv H st E2. inversion H; subst; clear H.
  apply mapM_Forall2 in E1.
  pose proof (masked_static _ _ _ S E1) as F.
  assert (OD : Forall (Forall binaryByte) (ps_output st)
               /\ Forall (Forall binaryByte) (ps_data st)).
  { eapply foldM_static_binary; [exact F | | | exact E2]; constructor. }
  destruct OD as [O D].
  do 4 (constructor; [left; reflexivity|]).
  apply Forall_concat. apply Forall_app. split; assumption.
Qed.

Lemma wordInputs_fold (k : FunctionInputKind) (l : list AbiInput) :
  Forall wordInput l ->
  exists masked,
    mapM (maskInput k) l = Ok masked
    /\ forall d st,
         foldM (patternStep d) masked st
         = Ok {| ps_offset := ps_offset st;
                 ps_output :=
                   ps_output st
                   ++ map (fun i => repeat (if kind_eqb (kind i) k
                                            then Byte.xff else Byte.x00) 32) l;
                 ps_data := ps_data st |}.
Proof.
  induction 1 as [|i r [Dyn [v [enc [Ev [Tv [Ee Len]]]]]] _ [masked [Em IH]]].
  - exists []. split; [reflexivity|]. intros d [o out dat]. simpl.
    rewrite app_nil_r. reflexivity.
  - exists ({| mi_bitmask := if kind_eqb (kind i) k then 255 else 0;
               mi_type := ethABI_local.elementaryName (type i);
               mi_value := v |} :: masked).
    split.
    + cbn [mapM]. unfold maskInput at 1. unfold effectiveValue in Ev. rewrite Ev.
      cbn [bind]. rewrite Em. reflexivity.
    + intros d st. cbn [foldM]. unfold patternStep at 1.
      cbn [mi_value mi_type mi_bitmask]. rewrite Tv. cbn [negb].
      rewrite Ee. cbn [bind]. rewrite Dyn. cbn [bind].
      rewrite IH. cbn [ps_offset ps_output ps_data map].
      rewrite <- app_assoc. cbn [app].
      rewrite fill_repeat, Len.
      destruct (kind_eqb (kind i) k); reflexivity.
Qed.

(** X12. When every input of the function fills one word (a type that is not
    dynamic, a truthy value, 32 bytes from the library), the mask is the four
    zero bytes of the method hash followed, input by input, by 32 bytes of
    0xFF for an input of the replaced kind and 32 bytes of 0x00 for any
    other. *)
Theorem replacementMask_of_words (abi : FunctionAbi) (k : FunctionInputKind) :
  Forall wordInput (inputs abi) ->
  replacementMask abi k = Ok (wordMask abi k).
Proof.
  intro W. destruct (wordInputs_fold k _ W) as [masked [Em Ef]].
  unfold replacementMask, wordMask. rewrite Em. cbn [bind].
  rewrite Ef. cbn [bind ps_output ps_data app].
  rewrite app_nil_r, flat_map_concat_map. reflexivity.
Qed.

Lemma Forall2_In_l {A B : Type} (R : A -> B -> Prop) (l : list A) (l' : list B) (a : A) :
  Forall2 R l l' -> In a l -> exists b, In b l' /\ R a b.
Proof.
  induction 1 as [|x y l l' Rxy _ IH]; intros Ha; [contradiction|].
  destruct Ha as [<- | Ha].
  - exists y. split; [left; reflexivity | exact Rxy].
  - destruct (IH Ha) as [b [Hb Rb]]. exists b. split; [right; exact Hb | exact Rb].
Qed.

Lemma foldM_steps {A S : Type} (f : S -> A -> Result S) (l : list A) (s s' : S) (a : A) :
  foldM f l s = Ok s' -> In a l -> exists s1 s2, f s1 a = Ok s2.
Proof.
  revert s. induction l as [|x r IH]; intros s H Ha; [contradiction|].
  simpl in H. bind_inv H s1 E1. destruct Ha as [<- | Ha].
  - exists s, s1. exact E1.
  - exact (IH s1 H Ha).
Qed.

Lemma kind_eqb_refl (k : FunctionInputKind) : kind_eqb k k = true.
Proof. destruct k; reflexivity. Qed.

(** X13. encodeReplacementPattern never returns a pattern for a function
    that has an input of the replaced kind with a dynamic type and a truthy
    value: when it returns, every such input has a falsy value (and was
    skipped). *)
Theorem encodeReplacementPattern_no_dynamic_replacement (abi : FunctionAbi)
    (k : FunctionInputKind) (toBytes : bool) (p : string) (i : AbiInput) :
  encodeReplacementPattern abi k toBytes = Ok p ->
  In i (inputs abi) ->
  kind i = k ->
  ethABI_local.isDynamic (ethABI_local.elementaryName (type i)) = true ->
  exists v, effectiveValue i = Ok v /\ truthy v = false.
Proof.
  intros H Hi Hk Dyn. unfold encodeReplacementPattern in H. bind_inv H mask Em.
  unfold replacementMask in Em. bind_inv Em masked E1. bind_inv Em st E2.
  apply mapM_Forall2 in E1.
  destruct (Forall2_In_l _ _ _ _ E1 Hi) as [m [Hm Mi]].
  apply maskInput_inv in Mi. destruct Mi as [Ev [Ty Bm]].
  exists (mi_value m). split; [exact Ev|].
  destruct (foldM_steps _ _ _ _ _ E2 Hm) as [s1 [s2 Step]].
  unfold patternStep in Step.
  destruct (truthy (mi_value m)); [|reflexivity]. exfalso.
  cbn [negb] in Step. bind_inv Step enc Ee.
  rewrite Ty, Dyn, Bm, Hk, kind_eqb_refl in Step. discriminate.
Qed.

(** X14. encodeBuy returns an encoding only for a transfer with exactly one
    replaceable input; the target is the target of the transfer; and when
    the transfer has no owner input the pattern is the empty "0x", of no
    byte. *)
Theorem encodeBuy_one_destination (schema : Schema) (asset : WyvernAsset)
    (address : string) (enc : CallEncoding) :
  encodeBuy schema asset address = Ok enc ->
  List.length (filter (fun i => kind_eqb (kind i) Replaceable)
                 (inputs (functions_transfer schema asset))) = 1%nat
  /\ ce_target enc = abi_target (functions_transfer schema asset)
  /\ (filter (fun i => kind_eqb (kind i) Owner)
         (inputs (functions_transfer schema asset)) = [] ->
      ce_replacementPattern enc = "0x"%string
      /\ byteLength (ce_replacementPattern enc) = 0%nat).
Proof.
  unfold encodeBuy. intro H.
  destruct (List.length _ =? 1)%nat eqn:N; [|discriminate].
  cbn [negb] in H. bind_inv H ps Ep. bind_inv H cd Ec. bind_inv H pat Epat.
  inversion H; subst; clear H. cbn [ce_target ce_replacementPattern].
  split; [apply Nat.eqb_eq; exact N|]. split; [reflexivity|].
  intro O. rewrite O in Epat. cbn in Epat. inversion Epat; subst. split; reflexivity.
Qed.

End AnyLibrary.

End PatternExtras.

Module PatternWitnesses.
Import PatternExtras.

(** The transfer of token 42 of the reference ERC-721 schema. *)
Lemma replacementMask_of_words_witness :
  Forall wordInput (inputs (functions_transfer Reference.ERC721Schema Reference.token42))
  /\ encodeReplacementPattern
       (functions_transfer Reference.ERC721Schema Reference.token42) Replaceable true
     = Ok ("0x00000000"
           ++ "0000000000000000000000000000000000000000000000000000000000000000"
           ++ "ffffffffffffffffffffffffffffffffffffffffffffffffffffffffffffffff"
           ++ "0000000000000000000000000000000000000000000000000000000000000000")%string.
Proof.
  assert (W : Forall wordInput
                (inputs (functions_transfer Reference.ERC721Schema Reference.token42))).
  { repeat constructor; eexists; eexists;
      (split; [vm_compute; reflexivity|]); repeat split; vm_compute; reflexivity. }
  split; [exact W|].
  unfold encodeReplacementPattern.
  rewrite (replacementMask_of_words _ Replaceable W). vm_compute. reflexivity.
Defined.

(** The reference listing of an ERC-721 token, answered by the account. *)
Lemma encodeBuy_one_destination_witness :
  exists enc,
    encodeBuy Reference.ERC721Schema Reference.token42 Reference.account = Ok enc
    /\ ce_target enc = Reference.token.
Proof.
  destruct (encodeBuy Reference.ERC721Schema Reference.token42 Reference.account)
    as [enc|e] eqn:E; [|vm_compute in E; discriminate].
  exists enc. split; [reflexivity|].
  exact (proj1 (proj2 (encodeBuy_one_destination _ _ _ _ E))).
Defined.

(** A function with one replaceable word whose default value is falsy: the
    pattern is the four bytes of the method hash. *)
Lemma encodeReplacementPattern_decodes_witness :
  exists mask,
    replacementMask Reference.oneUint Replaceable = Ok mask
    /\ Buffer_from_hex (slice 2 "0x00000000") = mask
    /\ byteLength "0x00000000" = List.length mask
    /\ firstn 4 mask = repeat Byte.x00 4
    /\ (4 <= List.length mask)%nat.
Proof.
  apply (encodeReplacementPattern_decodes Reference.oneUint Replaceable).
  reflexivity.
Defined.

(** The transfer of the reference ERC-721 schema has three static inputs. *)
Lemma replacementMask_static_binary_witness :
  Forall binaryByte
    (wordMask (functions_transfer Reference.ERC721Schema Reference.token42) Replaceable).
Proof.
  apply (replacementMask_static_binary
           (functions_transfer Reference.ERC721Schema Reference.token42) Replaceable).
  - intros i Hi. simpl in Hi.
    destruct Hi as [<- | [<- | [<- | []]]]; vm_compute; reflexivity.
  - vm_compute. reflexivity.
Defined.

(** The ERC-1155 transfer replaced for its asset inputs: the data input is of
    that kind and dynamic, and its value is the empty string. *)
Lemma encodeReplacementPattern_no_dynamic_replacement_witness :
  exists v,
    effectiveValue {| kind := Asset; name := "_data"; type := "bytes"; value := JStr "" |}
    = Ok v
    /\ truthy v = false.
Proof.
  destruct (encodeReplacementPattern
              (functions_transfer Reference.ERC1155Schema
                 {| wy_address := Reference.token; wy_id := "42";
                    wy_quantity := Some "1"%string |}) Asset true) as [p|e] eqn:E;
    [|vm_compute in E; discriminate].
  apply (encodeReplacementPattern_no_dynamic_replacement _ Asset true p _ E).
  - simpl. do 4 right. left. reflexivity.
  - reflexivity.
  - vm_compute. reflexivity.
Defined.

End PatternWitnesses.

(** ** Type names and default values *)

Module TypeExtras.

(** X15. elementaryName is idempotent: the name it returns is already
    elementary, so applying it again changes nothing. *)
Theorem elementaryName_idempotent (name : string) :
  ethABI_local.elementaryName (ethABI_local.elementaryName name)
  = ethABI_local.elementaryName name.
Proof.
  unfold ethABI_local.elementaryName, ethABI_local.startsWith.
  destruct (String.prefix "int[" name) eqn:E1; [reflexivity|].
  destruct (name =? "int")%string eqn:E2; [reflexivity|].
  destruct (String.prefix "uint[" name) eqn:E3; [reflexivity|].
  destruct (name =? "uint")%string eqn:E4; [reflexivity|].
  destruct (String.prefix "fixed[" name) eqn:E5; [reflexivity|].
  destruct (name =? "fixed")%string eqn:E6; [reflexivity|].
  destruct (String.prefix "ufixed[" name) eqn:E7; [reflexivity|].
  destruct (name =? "ufixed")%string eqn:E8; [reflexivity|].
  rewrite E1, E2, E3, E4, E5, E6, E7, E8. reflexivity.
Qed.

Lemma list_ascii_app (s t : string) :
  list_ascii_of_string (s ++ t) = list_ascii_of_string s ++ list_ascii_of_string t.
Proof. induction s as [|c r IH]; simpl; [reflexivity | rewrite IH; reflexivity]. Qed.

(** X16. Every type name that ends in an empty pair of brackets is dynamic,
    whatever comes before the brackets. *)
Theorem isDynamic_unsized_array (t : string) :
  ethABI_local.parseTypeArray (t ++ "[]") = ethABI_local.Dynamic
  /\ ethABI_local.isDynamic (t ++ "[]") = true.
Proof.
  assert (P : ethABI_local.parseTypeArray (t ++ "[]") = ethABI_local.Dynamic).
  { unfold ethABI_local.parseTypeArray, ethABI_local.lastBracket.
    rewrite list_ascii_app, rev_app_distr. reflexivity. }
  split; [exact P|].
  unfold ethABI_local.isDynamic. rewrite P. apply orb_true_r.
Qed.

(** X17. generateDefaultValue has a default for the address, the two fixed
    byte types, bool and seven integer types, and fails for every other type
    name; the default is truthy exactly for address, bytes20 and bytes32. *)
Theorem generateDefaultValue_cases (ty : string) :
  (exists v, generateDefaultValue ty = Ok v
             /\ (truthy v = true
                 <-> ty = "address"%string \/ ty = "bytes20"%string \/ ty = "bytes32"%string))
  \/ (generateDefaultValue ty = Throw DefaultValueNotImplemented
      /\ ~ In ty ["address"; "bytes20"; "bytes32"; "bool"; "int"; "uint"; "uint8";
                  "uint16"; "uint32"; "uint64"; "uint256"]%string).
Proof.
  unfold generateDefaultValue.
  destruct (String.eqb_spec ty "address") as [->|N1];
    [left; eexists; split; [reflexivity|]; split; auto|].
  destruct (String.eqb_spec ty "bytes20") as [->|N2];
    [left; eexists; split; [reflexivity|]; split; auto|].
  destruct (String.eqb_spec ty "bytes32") as [->|N3];
    [left; eexists; split; [reflexivity|]; split; auto|].
  cbn [orb].
  assert (F : forall v : JsValue, truthy v = false ->
                truthy v = true
                <-> ty = "address"%string \/ ty = "bytes20"%string \/ ty = "bytes32"%string).
  { intros v Fv. rewrite Fv. split; [discriminate|]. intros [?|[?|?]]; contradiction. }
  destruct (String.eqb_spec ty "bool") as [->|N4];
    [left; eexists; split; [reflexivity | apply F; reflexivity]|].
  destruct (String.eqb_spec ty "int") as [->|N5];
    [left; eexists; split; [reflexivity | apply F; reflexivity]|].
  destruct (String.eqb_spec ty "uint") as [->|N6];
    [left; eexists; split; [reflexivity | apply F; reflexivity]|].
  destruct (String.eqb_spec ty "uint8") as [->|N7];
    [left; eexists; split; [reflexivity | apply F; reflexivity]|].
  destruct (String.eqb_spec ty "uint16") as [->|N8];
    [left; eexists; split; [reflexivity | apply F; reflexivity]|].
  destruct (String.eqb_spec ty "uint32") as [->|N9];
    [left; eexists; split; [reflexivity | apply F; reflexivity]|].
  destruct (String.eqb_spec ty "uint64") as [->|N10];
    [left; eexists; split; [reflexivity | apply F; reflexivity]|].
  destruct (String.eqb_spec ty "uint256") as [->|N11];
    [left; eexists; split; [reflexivity | apply F; reflexivity]|].
  right. split; [reflexivity|].
  simpl. intros [E|[E|[E|[E|[E|[E|[E|[E|[E|[E|[E|[]]]]]]]]]]]]; symmetry in E; contradiction.
Qed.

End TypeExtras.

(** ** Proxy, ownership and approvals *)

Module ChainExtras.
Import ResultLemmas.

Lemma match_0x {A : Type} (answer : option string) (a b : A) :
  match answer with
  | Some "0x"%string => a
  | _ => b
  end
  = if match answer with Some s => (s =? "0x")%string | None => false end then a else b.
Proof.
  destruct answer as [s|]; [|reflexivity].
  destruct s as [|c s]; [reflexivity|].
  destruct c as [[] [] [] [] [] [] [] []]; try reflexivity.
  destruct s as [|c s]; [reflexivity|].
  destruct c as [[] [] [] [] [] [] [] []]; try reflexivity.
  destruct s; reflexivity.
Qed.

Section AnyNode.
Context {L : Libraries} {SM : Schemas} {C : Chain}.

Lemma getProxy_from_eq (attempt retries : nat) :
  _getProxy_from attempt retries
  = bind (registry_proxies attempt)
      (fun answer =>
         if match answer with Some s => (s =? "0x")%string | None => false end
         then Throw AccountNotRetrieved
         else if missingProxy answer then
                match retries with
                | S r => _getProxy_from (S attempt) r
                | O => Ok None
                end
              else Ok answer).
Proof.
  destruct retries; simpl; destruct (registry_proxies attempt) as [answer|e];
    simpl; try reflexivity; rewrite match_0x; reflexivity.
Qed.

Lemma getProxy_from_valid (retries attempt : nat) (p : string) :
  _getProxy_from attempt retries = Ok (Some p) ->
  p <> ""%string /\ p <> NULL_ADDRESS /\ p <> "0x"%string.
Proof.
  revert attempt. induction retries as [|r IH]; intros attempt H;
    rewrite getProxy_from_eq in H; bind_inv H answer Ea;
    destruct (match answer with Some s => (s =? "0x")%string | None => false end) eqn:Z;
    try discriminate;
    destruct (missingProxy answer) eqn:M; try discriminate; try (exact (IH _ H));
    inversion H; subst; clear H; simpl in M, Z;
    apply orb_false_iff in M; destruct M as [M1 M2];
    (split; [intros ->; discriminate|]);
    (split; [intros ->; discriminate | intros ->; discriminate]).
Qed.

(** X18. _getProxy never returns an unusable address: the proxy it returns
    is not the empty string, not the null address and not "0x". *)
Theorem getProxy_valid (retries : nat) (p : string) :
  _getProxy retries = Ok (Some p) ->
  p <> ""%string /\ p <> NULL_ADDRESS /\ p <> "0x"%string.
Proof. apply getProxy_from_valid. Qed.

Lemma getProxy_from_found (k attempt retries : nat) (p : string) :
  (forall j, (j < k)%nat ->
             exists answer, registry_proxies (attempt + j) = Ok answer
                            /\ missingProxy answer = true
                            /\ answer <> Some "0x"%string) ->
  registry_proxies (attempt + k) = Ok (Some p) ->
  missingProxy (Some p) = false ->
  p <> "0x"%string ->
  (k <= retries)%nat ->
  _getProxy_from attempt retries = Ok (Some p).
Proof.
  revert attempt retries. induction k as [|k IH]; intros attempt retries Hm Hp V Z Le.
  - rewrite getProxy_from_eq. rewrite Nat.add_0_r in Hp. rewrite Hp. cbn [bind].
    destruct (String.eqb_spec p "0x") as [E|_]; [contradiction|].
    rewrite V. reflexivity.
  - destruct retries as [|r]; [lia|].
    rewrite getProxy_from_eq.
    destruct (Hm 0%nat ltac:(lia)) as [answer [Ea [Ma Za]]].
    rewrite Nat.add_0_r in Ea. rewrite Ea. cbn [bind].
    assert (Zb : match answer with Some s => (s =? "0x")%string | None => false end = false).
    { destruct answer as [s|]; [|reflexivity].
      destruct (String.eqb_spec s "0x") as [->|_]; [contradiction | reflexivity]. }
    rewrite Zb, Ma.
    apply IH; try assumption; try lia.
    + intros j Hj. replace (S attempt + j)%nat with (attempt + S j)%nat by lia.
      apply Hm. lia.
    + replace (S attempt + k)%nat with (attempt + S k)%nat by lia. exact Hp.
Qed.

Lemma getProxy_from_exhausted (retries attempt : nat) :
  (forall j, (j <= retries)%nat ->
             exists answer, registry_proxies (attempt + j) = Ok answer
                            /\ missingProxy answer = true
                            /\ answer <> Some "0x"%string) ->
  _getProxy_from attempt retries = Ok None.
Proof.
  revert attempt. induction retries as [|r IH]; intros attempt Hm;
    rewrite getProxy_from_eq;
    destruct (Hm 0%nat ltac:(lia)) as [answer [Ea [Ma Za]]];
    rewrite Nat.add_0_r in Ea; rewrite Ea; cbn [bind];
    assert (Zb : match answer with Some s => (s =? "0x")%string | None => false end = false)
      by (destruct answer as [s|]; [|reflexivity];
          destruct (String.eqb_spec s "0x") as [->|_]; [contradiction | reflexivity]);
    rewrite Zb, Ma; [reflexivity|].
  apply IH. intros j Hj. replace (S attempt + j)%nat with (attempt + S j)%nat by lia.
  apply Hm. lia.
Qed.

(** X19. _getProxy polls the registry at most retries + 1 times: it returns
    the first proxy that the registry names within these polls, and returns
    null, without an error, when every one of them names none. *)
Theorem getProxy_polls (retries : nat) :
  (forall k p,
      (forall j, (j < k)%nat ->
                 exists answer, registry_proxies j = Ok answer
                                /\ missingProxy answer = true
                                /\ answer <> Some "0x"%string) ->
      registry_proxies k = Ok (Some p) ->
      missingProxy (Some p) = false ->
      p <> "0x"%string ->
      (k <= retries)%nat ->
      _getProxy retries = Ok (Some p))
  /\ ((forall j, (j <= retries)%nat ->
                 exists answer, registry_proxies j = Ok answer
                                /\ missingProxy answer = true
                                /\ answer <> Some "0x"%string) ->
      _getProxy retries = Ok None).
Proof.
  split.
  - intros k p Hm Hp V Z Le. unfold _getProxy.
    apply (getProxy_from_found k 0 retries p); assumption.
  - intro Hm. unfold _getProxy. apply getProxy_from_exhausted. exact Hm.
Qed.

End AnyNode.

(** On the reference node the registry names the proxy at the first poll. *)
Lemma getProxy_valid_witness :
  _getProxy 0 = Ok (Some Reference.proxy) /\ Reference.proxy <> NULL_ADDRESS.
Proof.
  assert (E : _getProxy 0 = Ok (Some Reference.proxy)) by reflexivity.
  split; [exact E|].
  exact (proj1 (proj2 (getProxy_valid 0 _ E))).
Defined.

Lemma getProxy_polls_witness :
  registry_proxies 0 = Ok (Some Reference.proxy)
  /\ _getProxy 3 = Ok (Some Reference.proxy).
Proof.
  assert (E : registry_proxies 0 = Ok (Some Reference.proxy)) by reflexivity.
  split; [exact E|].
  apply (proj1 (getProxy_polls 3) 0%nat Reference.proxy).
  - intros j Hj. exfalso. exact (Nat.nlt_0_r j Hj).
  - exact E.
  - reflexivity.
  - discriminate.
  - apply Nat.le_0_l.
Defined.

End ChainExtras.

Module OwnershipExtras.
Import ResultLemmas.

Section AnyNode.
Context {L : Libraries} {SM : Schemas} {C : Chain}.

(** X20. The errors of getAssetBalance that no retry changes: a missing or
    empty token id is refused first, whatever the schema and the node answer;
    then a schema name without entry in the table; then a schema that has
    neither a balance call nor an owner call. *)
Theorem getAssetBalance_errors (attempt : nat) (accountAddress : string)
    (asset : AssetRef) (retries : nat) :
  (ar_tokenId asset = None \/ ar_tokenId asset = Some ""%string ->
   getAssetBalance_from attempt accountAddress asset retries = Throw TokenIdRequired)
  /\ (forall t, ar_tokenId asset = Some t -> t <> ""%string ->
        schemaMap (default WyvernSchemaName_ERC721 (ar_schemaName asset)) = None ->
        getAssetBalance_from attempt accountAddress asset retries = Throw TypeError)
  /\ (forall t schema, ar_tokenId asset = Some t -> t <> ""%string ->
        schemaMap (default WyvernSchemaName_ERC721 (ar_schemaName asset)) = Some schema ->
        functions_countOf schema = false -> functions_ownerOf schema = false ->
        getAssetBalance_from attempt accountAddress asset retries
        = Throw MissingOwnershipSchema).
Proof.
  split; [|split].
  - intros [E|E]; destruct retries; simpl; rewrite E; reflexivity.
  - intros t E N S. destruct t as [|c t]; [contradiction|].
    destruct retries; simpl; rewrite E, S; reflexivity.
  - intros t schema E N S Cn Ow. destruct t as [|c t]; [contradiction|].
    destruct retries; simpl; rewrite E, S, Cn, Ow; reflexivity.
Qed.

Lemma getAssetBalance_from_owner (retries attempt : nat) (accountAddress : string)
    (asset : AssetRef) (schema : Schema) (b : BigNumber) :
  schemaMap (default WyvernSchemaName_ERC721 (ar_schemaName asset)) = Some schema ->
  functions_countOf schema = false ->
  getAssetBalance_from attempt accountAddress asset retries = Ok b ->
  exists t k owner,
    ar_tokenId asset = Some t
    /\ (attempt <= k <= attempt + retries)%nat
    /\ erc721_ownerOf (toLowerCase (ar_tokenAddress asset)) (toLowerCase t) k
       = Ok (Some owner)
    /\ owner <> ""%string
    /\ b = (if (toLowerCase owner =? toLowerCase accountAddress)%string
            then 1%Q else 0%Q).
Proof.
  intros S Cn. revert attempt.
  induction retries as [|r IH]; intros attempt H; simpl in H;
    rewrite S, Cn in H;
    destruct (ar_tokenId asset) as [t|] eqn:T; try discriminate;
    destruct (truthy_str t) eqn:Tt; simpl in H; try discriminate;
    destruct (functions_ownerOf schema); try discriminate;
    bind_inv H ans Eo;
    destruct ans as [o|]; try discriminate.
  - destruct (truthy_str o) eqn:To; [|discriminate].
    inversion H; subst; clear H.
    exists t, attempt, o. repeat split; try lia; try assumption.
    intros ->. discriminate.
  - destruct (truthy_str o) eqn:To.
    + inversion H; subst; clear H.
      exists t, attempt, o. repeat split; try lia; try assumption.
      intros ->. discriminate.
    + destruct (IH _ H) as [t' [k [o' [Et [Hk [Eo' [No Eb]]]]]]].
      inversion Et; subst. exists t', k, o'. repeat split; try lia; assumption.
  - destruct (IH _ H) as [t' [k [o' [Et [Hk [Eo' [No Eb]]]]]]].
    inversion Et; subst. exists t', k, o'. repeat split; try lia; assumption.
Qed.

(** X21. For a schema that is checked by owner (no balance call), the
    balance that getAssetBalance returns is 1 or 0, read from an owner that
    the contract named at the first or at the second read; it is 1 exactly
    when that owner is the account, letter case apart. *)
Theorem getAssetBalance_by_owner (accountAddress : string) (asset : AssetRef)
    (schema : Schema) (b : BigNumber) :
  schemaMap (default WyvernSchemaName_ERC721 (ar_schemaName asset)) = Some schema ->
  functions_countOf schema = false ->
  getAssetBalance accountAddress asset = Ok b ->
  (b = 1%Q \/ b = 0%Q)
  /\ exists t k owner,
       ar_tokenId asset = Some t
       /\ (k <= 1)%nat
       /\ erc721_ownerOf (toLowerCase (ar_tokenAddress asset)) (toLowerCase t) k
          = Ok (Some owner)
       /\ (b = 1%Q <-> toLowerCase owner = toLowerCase accountAddress).
Proof.
  intros S Cn H. unfold getAssetBalance in H.
  destruct (getAssetBalance_from_owner _ _ _ _ _ _ S Cn H)
    as [t [k [o [Et [Hk [Eo [No Eb]]]]]]].
  split.
  - rewrite Eb. destruct (_ =? _)%string; [left | right]; reflexivity.
  - exists t, k, o. repeat split; try assumption; try lia.
    + intro B1. rewrite Eb in B1.
      destruct (String.eqb_spec (toLowerCase o) (toLowerCase accountAddress)) as [E|_];
        [exact E | discriminate].
    + intro E. rewrite Eb, E, String.eqb_refl. reflexivity.
Qed.

Lemma set_has_add (s : list string) (x : string) : set_has (set_add s x) x = true.
Proof.
  unfold set_add. destruct (set_has s x) eqn:H; [exact H|].
  unfold set_has. rewrite existsb_app. simpl. rewrite String.eqb_refl.
  rewrite orb_true_r. reflexivity.
Qed.

Lemma set_has_add_mono (s : list string) (x t : string) :
  set_has s t = true -> set_has (set_add s x) t = true.
Proof.
  intro H. unfold set_add. destruct (set_has s x); [exact H|].
  unfold set_has in *. rewrite existsb_app, H. reflexivity.
Qed.

(** What a call of approveSemiOrNonFungibleToken that returns has done to
    the set of the batch. *)
Lemma approval_inv (tokenAddress accountAddress proxyAddress : string)
    (skip skip' : list string) (r : Approval) :
  approveSemiOrNonFungibleToken tokenAddress accountAddress proxyAddress skip
  = Ok (r, skip') ->
  (forall t, set_has skip t = true -> set_has skip' t = true)
  /\ (r = Transaction ->
      set_has skip tokenAddress = false /\ set_has skip' tokenAddress = true)
  /\ (set_has skip tokenAddress = true -> r <> Transaction /\ skip' = skip)
  /\ (token_isApprovedForAll tokenAddress accountAddress proxyAddress false = Ok (Some 1) ->
      r = NoTransaction /\ skip' = skip).
Proof.
  unfold approveSemiOrNonFungibleToken. intro H. bind_inv H a Ea.
  assert (Fin : forall r0 s0, Ok (r0, s0) = Ok (r, skip') -> r0 = r /\ s0 = skip')
    by (intros r0 s0 E; inversion E; split; reflexivity).
  destruct a as [z|]; [destruct z as [|p|p]; [|destruct p|]|];
    try (destruct (Fin _ _ H) as [<- <-]; clear H Fin;
         split; [intros t Ht; exact Ht|];
         split; [intro R; discriminate R|];
         split; [intros _; split; [discriminate | reflexivity]|];
         intro E; first [congruence | split; reflexivity]).
  destruct (set_has skip tokenAddress) eqn:Hs.
  - destruct (Fin _ _ H) as [<- <-]; clear H Fin.
    split; [intros t Ht; exact Ht|].
    split; [intro R; discriminate R|].
    split; [intros _; split; [discriminate | reflexivity]|].
    intro E; congruence.
  - assert (Sent : forall r0, Ok (r0, set_add skip tokenAddress) = Ok (r, skip') ->
        (forall t, set_has skip t = true -> set_has skip' t = true)
        /\ (r = Transaction ->
            false = false /\ set_has skip' tokenAddress = true)
        /\ (false = true -> r <> Transaction /\ skip' = skip)
        /\ (token_isApprovedForAll tokenAddress accountAddress proxyAddress false
            = Ok (Some 1) -> r = NoTransaction /\ skip' = skip)).
    { intros r0 E. destruct (Fin _ _ E) as [<- <-].
      split; [intros t Ht; apply set_has_add_mono; exact Ht|].
      split; [intros _; split; [reflexivity | apply set_has_add]|].
      split; [discriminate|]. intro E1; congruence. }
    destruct (token_setApprovalForAll tokenAddress proxyAddress) as [[receipt|]|e];
      try discriminate.
    destruct (receipt_status receipt).
    + destruct (receipt_logs receipt <? 2)%nat; [discriminate|].
      destruct (token_isApprovedForAll tokenAddress accountAddress proxyAddress true)
        as [[[|[q|q|]|q]|]|e]; try discriminate; exact (Sent _ H).
    + exact (Sent _ H).
Qed.

(** X22. approveSemiOrNonFungibleToken answers with a transaction only for
    a contract that is not yet in the set of the batch, and then adds it; the
    set never loses a contract; and for a contract that is already in the
    set, or already approved for all, its answer is no transaction and the
    set stays as it is. *)
Theorem approveSemiOrNonFungibleToken_set (tokenAddress accountAddress proxyAddress : string)
    (skip skip' : list string) (r : Approval) :
  approveSemiOrNonFungibleToken tokenAddress accountAddress proxyAddress skip
  = Ok (r, skip') ->
  (forall t, set_has skip t = true -> set_has skip' t = true)
  /\ (isTransaction r = true ->
      set_has skip tokenAddress = false /\ set_has skip' tokenAddress = true)
  /\ (set_has skip tokenAddress = true \/
      token_isApprovedForAll tokenAddress accountAddress proxyAddress false = Ok (Some 1) ->
      isTransaction r = false /\ skip' = skip).
Proof.
  intro H. destruct (approval_inv _ _ _ _ _ _ H) as [M [T [S1 A1]]].
  split; [exact M|]. split.
  - intro R. apply T. destruct r; try discriminate R; reflexivity.
  - intros [Hs|Ha].
    + destruct (S1 Hs) as [N ->]. split; [|reflexivity].
      destruct r; try reflexivity. contradiction N; reflexivity.
    + destruct (A1 Ha) as [-> ->]. split; reflexivity.
Qed.

Lemma transactionsFor_cons (t : string) (a : WyvernAsset) (r : Approval)
    (rest : list WyvernAsset) (rs : list Approval) :
  transactionsFor t (a :: rest) (r :: rs)
  = ((if (wy_address a =? t)%string && isTransaction r then 1 else 0)
     + transactionsFor t rest rs)%nat.
Proof.
  unfold transactionsFor. simpl.
  destruct ((wy_address a =? t)%string && isTransaction r); reflexivity.
Qed.

Lemma approveEach_counts (wyAssets : list WyvernAsset) :
  forall (accountAddress proxyAddress : string) (set : list string)
         (schemaNames : list string) (results : list Approval),
  approveEach accountAddress proxyAddress set wyAssets schemaNames = Ok results ->
  List.length results = List.length wyAssets
  /\ forall t, (transactionsFor t wyAssets results
                <= if set_has set t then 0 else 1)%nat.
Proof.
  induction wyAssets as [|a rest IH]; intros acct proxy set names results H.
  - simpl in H. inversion H; subst. split; [reflexivity|].
    intro t. unfold transactionsFor. simpl. lia.
  - simpl in H. bind_inv H r Er. bind_inv H rs Ers.
    inversion H; subst; clear H. destruct r as [r set'].
    cbn [fst snd] in *.
    destruct (IH _ _ _ _ _ Ers) as [Len Cnt].
    split; [simpl; rewrite Len; reflexivity|].
    intro t. rewrite transactionsFor_cons. specialize (Cnt t).
    unfold approveOne in Er.
    destruct (negb (isOwner acct proxy (hd_error names) a)); [discriminate|].
    destruct (approvableSchema (hd_error names)); [|discriminate].
    destruct (approval_inv _ _ _ _ _ _ Er) as [M [T _]].
    destruct (String.eqb_spec (wy_address a) t) as [<-|Ne]; cbn [andb].
    + destruct r; cbn [isTransaction].
      * destruct (set_has set (wy_address a)) eqn:Hs;
          [rewrite (M _ Hs) in Cnt; lia | destruct (set_has set' (wy_address a)); lia].
      * destruct (T eq_refl) as [Hs Hs']. rewrite Hs. rewrite Hs' in Cnt. lia.
      * destruct (set_has set (wy_address a)) eqn:Hs;
          [rewrite (M _ Hs) in Cnt; lia | destruct (set_has set' (wy_address a)); lia].
    + destruct (set_has set t) eqn:Hs;
        [rewrite (M _ Hs) in Cnt; lia | destruct (set_has set' t); lia].
Qed.

(** X23. _approveAll answers with one result for each asset, and at most
    one of them is an approval transaction for any one token contract,
    however many assets of that contract the batch holds. *)
Theorem approveAll_one_transaction_per_contract (proxyAddress : option string)
    (schemaNames : list string) (wyAssets : list WyvernAsset) (results : list Approval) :
  _approveAll proxyAddress schemaNames wyAssets = Ok results ->
  List.length results = List.length wyAssets
  /\ forall t, (transactionsFor t wyAssets results <= 1)%nat.
Proof.
  unfold _approveAll. intro H. bind_inv H found Ef. bind_inv H proxy Ep.
  destruct (approveEach_counts _ _ _ _ _ _ H) as [Len Cnt].
  split; [exact Len|]. intro t. exact (Cnt t).
Qed.

End AnyNode.

(** A token id that is the empty string, on the reference node. *)
Lemma getAssetBalance_errors_witness :
  getAssetBalance_from 0 Reference.account
    {| ar_schemaName := None; ar_tokenAddress := Reference.token;
       ar_tokenId := Some ""%string |} 1
  = Throw TokenIdRequired.
Proof.
  apply (proj1 (getAssetBalance_errors 0 Reference.account
                  {| ar_schemaName := None; ar_tokenAddress := Reference.token;
                     ar_tokenId := Some ""%string |} 1)).
  right. reflexivity.
Defined.

(** Token 42 of the reference ERC-721 contract, which the seller owns. *)
Lemma getAssetBalance_by_owner_witness :
  exists b,
    getAssetBalance Reference.seller
      {| ar_schemaName := Some "ERC721"%string; ar_tokenAddress := Reference.token;
         ar_tokenId := Some "42"%string |} = Ok b
    /\ (b = 1%Q \/ b = 0%Q).
Proof.
  destruct (getAssetBalance Reference.seller
              {| ar_schemaName := Some "ERC721"%string; ar_tokenAddress := Reference.token;
                 ar_tokenId := Some "42"%string |}) as [b|e] eqn:E;
    [|vm_compute in E; discriminate].
  exists b. split; [reflexivity|].
  exact (proj1 (getAssetBalance_by_owner Reference.seller
                  {| ar_schemaName := Some "ERC721"%string;
                     ar_tokenAddress := Reference.token;
                     ar_tokenId := Some "42"%string |}
                  Reference.ERC721Schema b eq_refl eq_refl E)).
Defined.

(** The first approval of the reference token contract in a batch. *)
Lemma approveSemiOrNonFungibleToken_set_witness :
  set_has [] Reference.token = false /\ set_has [Reference.token] Reference.token = true.
Proof.
  assert (E : approveSemiOrNonFungibleToken Reference.token Reference.seller
                Reference.proxy [] = Ok (Transaction, [Reference.token]))
    by reflexivity.
  exact (proj1 (proj2 (approveSemiOrNonFungibleToken_set _ _ _ _ _ _ E)) eq_refl).
Defined.

(** Two assets of the reference token contract in one batch: one
    transaction. *)
Lemma approveAll_one_transaction_per_contract_witness :
  _approveAll None ["ERC1155"; "ERC1155"]%string [Reference.token42; Reference.token42]
  = Ok [Transaction; NoTransaction]
  /\ (transactionsFor Reference.token [Reference.token42; Reference.token42]
        [Transaction; NoTransaction] <= 1)%nat.
Proof.
  assert (E : _approveAll None ["ERC1155"; "ERC1155"]%string
                [Reference.token42; Reference.token42]
              = Ok [Transaction; NoTransaction]) by (vm_compute; reflexivity).
  split; [exact E|].
  exact (proj2 (approveAll_one_transaction_per_contract _ _ _ _ E) Reference.token).
Defined.

End OwnershipExtras.

Module PriceExtras.
Import ResultLemmas TimeRules TimeRulesLemmas.

Section AnyLibrary.
Context {L : Libraries}.

(** X24. _getPriceParameters returns prices only under its rules: a start
    amount that is not negative; a payment token other than the null address
    for an English auction and for a buy order; an end amount not above the
    start amount, and an expiration time when it is below; a reserve price
    only for an English auction and not below the start amount. The payment
    token is returned in small letters, the base price and the extra are the
    conversions of the start amount and of the price difference. Under the
    rules the only failures left are those of the conversion. *)
Theorem getPriceParameters_rules (orderSide : Z) (tokenAddress : string)
    (expirationTime startAmount : number) (endAmount : option number) (english : bool)
    (reserve : option number) :
  (forall pp,
      _getPriceParameters orderSide tokenAddress expirationTime startAmount endAmount
        english reserve = Ok pp ->
      PriceRules.accepted orderSide tokenAddress expirationTime startAmount endAmount
        english reserve
      /\ pp_paymentToken pp = toLowerCase tokenAddress
      /\ utils_parseEther (Number_toString startAmount) = Ok (pp_basePrice pp)
      /\ utils_parseEther (Number_toString (PriceRules.priceDiff startAmount endAmount))
         = Ok (pp_extra pp)
      /\ (pp_reservePrice pp = None <-> truthy_opt reserve = false))
  /\ (PriceRules.accepted orderSide tokenAddress expirationTime startAmount endAmount
        english reserve ->
      (exists bp, utils_parseEther (Number_toString startAmount) = Ok bp) ->
      (exists ex, utils_parseEther
                    (Number_toString (PriceRules.priceDiff startAmount endAmount)) = Ok ex) ->
      (forall v, reserve = Some v ->
                 exists rp, utils_parseEther (Number_toString v) = Ok rp) ->
      exists pp,
        _getPriceParameters orderSide tokenAddress expirationTime startAmount endAmount
          english reserve = Ok pp).
Proof.
  split.
  - intros pp H. unfold _getPriceParameters, throwIf in H.
    change (match endAmount with Some e => (startAmount - e)%Q | None => 0%Q end)
      with (PriceRules.priceDiff startAmount endAmount) in H.
    destruct (num_ltb startAmount 0%Q) eqn:G1; [discriminate|].
    destruct ((tokenAddress =? NULL_ADDRESS)%string && english) eqn:G2; [discriminate|].
    destruct ((tokenAddress =? NULL_ADDRESS)%string && (orderSide =? NftOrderSide_Buy))
      eqn:G3; [discriminate|].
    destruct (num_ltb (PriceRules.priceDiff startAmount endAmount) 0%Q) eqn:G4; [discriminate|].
    destruct (num_gtb (PriceRules.priceDiff startAmount endAmount) 0%Q
              && num_eqb expirationTime 0%Q) eqn:G5; [discriminate|].
    destruct (truthy_opt reserve && negb english) eqn:G6; [discriminate|].
    destruct (truthy_opt reserve
              && num_ltb match reserve with Some r => r | None => 0%Q end startAmount)
      eqn:G7; [discriminate|].
    bind_inv H bp Ebp. bind_inv H xt Eex. bind_inv H rp Erp.
    inversion H; subst; clear H. cbn [pp_paymentToken pp_basePrice pp_extra pp_reservePrice].
    apply num_ltb_false in G1, G4.
    split; [|split; [reflexivity|split; [exact Ebp|split; [exact Eex|]]]].
    + constructor.
      * exact G1.
      * intros ->. rewrite String.eqb_refl in G2. exact G2.
      * intros -> S. rewrite String.eqb_refl in G3. cbn [andb] in G3.
        apply Z.eqb_neq in G3. contradiction.
      * intros e ->. unfold PriceRules.priceDiff in G4. lra.
      * intros e -> Lt Z0. unfold PriceRules.priceDiff in G5.
        assert (P : num_gtb (startAmount - e)%Q 0%Q = true)
          by (unfold num_gtb; apply num_ltb_true; lra).
        rewrite P in G5. cbn [andb] in G5. unfold num_eqb in G5.
        apply Qeq_bool_iff in Z0. congruence.
      * intros v -> N.
        assert (T : truthy_opt (Some v) = true)
          by (apply truthy_opt_true; exists v; split; [reflexivity | exact N]).
        rewrite T in G6. cbn [andb] in G6. apply negb_false_iff. exact G6.
      * intros v -> N.
        assert (T : truthy_opt (Some v) = true)
          by (apply truthy_opt_true; exists v; split; [reflexivity | exact N]).
        rewrite T in G7. cbn [andb] in G7. apply num_ltb_false. exact G7.
    + destruct (truthy_opt reserve).
      * bind_inv Erp r0 Er0. inversion Erp; subst. split; discriminate.
      * inversion Erp; subst. split; reflexivity.
  - intros [A1 A2 A3 A4 A5 A6 A7] [bp Ebp] [xt Eex] Hr.
    unfold _getPriceParameters, throwIf.
    change (match endAmount with Some e => (startAmount - e)%Q | None => 0%Q end)
      with (PriceRules.priceDiff startAmount endAmount).
    assert (D : (0 <= PriceRules.priceDiff startAmount endAmount)%Q).
    { unfold PriceRules.priceDiff. destruct endAmount as [e|]; [|lra].
      specialize (A4 e eq_refl). lra. }
    rewrite (proj2 (num_ltb_false startAmount 0%Q) A1).
    assert (G2 : (tokenAddress =? NULL_ADDRESS)%string && english = false).
    { destruct (String.eqb_spec tokenAddress NULL_ADDRESS) as [E|_]; [|reflexivity].
      rewrite (A2 E). reflexivity. }
    rewrite G2.
    assert (G3 : (tokenAddress =? NULL_ADDRESS)%string && (orderSide =? NftOrderSide_Buy)
                 = false).
    { destruct (String.eqb_spec tokenAddress NULL_ADDRESS) as [E|_]; [|reflexivity].
      cbn [andb]. apply Z.eqb_neq. exact (A3 E). }
    rewrite G3.
    rewrite (proj2 (num_ltb_false _ 0%Q) D).
    assert (G5 : num_gtb (PriceRules.priceDiff startAmount endAmount) 0%Q
                 && num_eqb expirationTime 0%Q = false).
    { destruct (num_gtb (PriceRules.priceDiff startAmount endAmount) 0%Q) eqn:P;
        [|reflexivity].
      cbn [andb]. unfold num_gtb in P. apply num_ltb_true in P.
      unfold PriceRules.priceDiff in P. destruct endAmount as [e|]; [|lra].
      assert (Lt : (e < startAmount)%Q) by lra.
      pose proof (A5 e eq_refl Lt) as N. unfold num_eqb.
      destruct (Qeq_bool expirationTime 0%Q) eqn:B; [|reflexivity].
      apply Qeq_bool_iff in B. contradiction. }
    rewrite G5.
    destruct (truthy_opt reserve) eqn:T.
    + apply truthy_opt_true in T. destruct T as [v [-> N]].
      rewrite (A6 v eq_refl N). cbn [andb negb].
      rewrite (proj2 (num_ltb_false v startAmount) (A7 v eq_refl N)).
      destruct (Hr v eq_refl) as [rp Erp].
      rewrite Ebp, Eex, Erp. cbn [bind]. eexists. reflexivity.
    + cbn [andb]. rewrite Ebp, Eex. cbn [bind]. eexists. reflexivity.
Qed.

End AnyLibrary.

(** The reference sale: one unit of the native asset, at a fixed price. *)
Lemma getPriceParameters_rules_witness :
  PriceRules.accepted NftOrderSide_Sell NULL_ADDRESS 0%Q 1%Q None false (Some 0%Q).
Proof.
  destruct (_getPriceParameters NftOrderSide_Sell NULL_ADDRESS 0%Q 1%Q None false (Some 0%Q))
    as [pp|e] eqn:E; [|vm_compute in E; discriminate].
  exact (proj1 (proj1 (getPriceParameters_rules NftOrderSide_Sell NULL_ADDRESS 0%Q 1%Q
                         None false (Some 0%Q)) pp E)).
Defined.

End PriceExtras.

Module UnitExtras.

Lemma whole_iff (x : Q) :
  Qeq_bool (inject_Z (Qfloor x)) x = true <-> exists z : Z, (x == inject_Z z)%Q.
Proof.
  split.
  - intro H. apply Qeq_bool_iff in H. exists (Qfloor x). symmetry. exact H.
  - intros [z E]. apply Qeq_bool_iff. rewrite E at 2. rewrite E, Qfloor_Z. reflexivity.
Qed.

Lemma unitOf_nat (d : nat) : (unitOf (Z.of_nat d) == inject_Z (10 ^ Z.of_nat d))%Q.
Proof. unfold unitOf. symmetry. apply Zpower_Qpower. lia. Qed.

Lemma pow10_nonzero (k : nat) : ~ (inject_Z (10 ^ Z.of_nat k) == 0)%Q.
Proof.
  intro E. unfold Qeq in E. cbn [Qnum Qden inject_Z] in E. rewrite Z.mul_1_r in E.
  pose proof (Z.pow_pos_nonneg 10 (Z.of_nat k) eq_refl (Nat2Z.is_nonneg k)) as P.
  rewrite E in P. exact (Z.lt_irrefl 0 P).
Qed.

Lemma scaled (m : Z) (k d : nat) :
  (k <= d)%nat ->
  (inject_Z m / inject_Z (10 ^ Z.of_nat k) * unitOf (Z.of_nat d)
   == inject_Z (m * 10 ^ Z.of_nat (d - k)))%Q.
Proof.
  intro Le. rewrite unitOf_nat.
  replace (Z.of_nat d) with (Z.of_nat k + Z.of_nat (d - k)) by lia.
  rewrite Z.pow_add_r by lia. rewrite !inject_Z_mult.
  field. apply pow10_nonzero.
Qed.

(** X25. toBaseUnitAmount accepts an amount exactly up to the decimal
    places of the token. The amount m / 10^k with k not above the decimals d
    is converted to the whole number m * 10^(d - k); with k above d it is
    refused, for too many decimal places, unless 10^(k - d) divides m. *)
Theorem toBaseUnitAmount_places (m : Z) (k d : nat) :
  ((k <= d)%nat ->
   exists b, toBaseUnitAmount (inject_Z m / inject_Z (10 ^ Z.of_nat k))%Q (Z.of_nat d)
             = Completed b
             /\ (b == inject_Z (m * 10 ^ Z.of_nat (d - k)))%Q)
  /\ ((d < k)%nat -> ~ (10 ^ Z.of_nat (k - d) | m) ->
      toBaseUnitAmount (inject_Z m / inject_Z (10 ^ Z.of_nat k))%Q (Z.of_nat d)
      = Failed TooManyDecimalPlaces).
Proof.
  split.
  - intro Le. unfold toBaseUnitAmount. cbv zeta.
    pose proof (scaled m k d Le) as S.
    assert (W : Qeq_bool (inject_Z (Qfloor (inject_Z m / inject_Z (10 ^ Z.of_nat k)
                                            * unitOf (Z.of_nat d))%Q))
                  (inject_Z m / inject_Z (10 ^ Z.of_nat k) * unitOf (Z.of_nat d))%Q = true).
    { apply whole_iff. eexists. exact S. }
    rewrite W. cbn [negb]. eexists. split; [reflexivity | exact S].
  - intros Lt Nd. unfold toBaseUnitAmount. cbv zeta.
    destruct (Qeq_bool _ _) eqn:W; [|reflexivity]. exfalso. apply Nd.
    apply whole_iff in W. destruct W as [z E]. exists z.
    rewrite unitOf_nat in E.
    assert (E2 : (inject_Z (m * 10 ^ Z.of_nat d) == inject_Z (z * 10 ^ Z.of_nat k))%Q).
    { rewrite !inject_Z_mult. rewrite <- E. field. apply pow10_nonzero. }
    unfold Qeq in E2. cbn [Qnum Qden inject_Z] in E2. rewrite !Z.mul_1_r in E2.
    replace (Z.of_nat k) with (Z.of_nat (k - d) + Z.of_nat d) in E2 by lia.
    rewrite Z.pow_add_r in E2 by lia.
    assert (P : 0 < 10 ^ Z.of_nat d) by (apply Z.pow_pos_nonneg; lia).
    nia.
Qed.

(** 1.5 units of a token with 18 decimal places; 0.15 units of a token with
    one. *)
Lemma toBaseUnitAmount_places_witness :
  (exists b, toBaseUnitAmount (inject_Z 15 / inject_Z (10 ^ Z.of_nat 1))%Q (Z.of_nat 18)
             = Completed b
             /\ (b == inject_Z (15 * 10 ^ Z.of_nat (18 - 1)))%Q)
  /\ toBaseUnitAmount (inject_Z 15 / inject_Z (10 ^ Z.of_nat 2))%Q (Z.of_nat 1)
     = Failed TooManyDecimalPlaces.
Proof.
  split.
  - apply (proj1 (toBaseUnitAmount_places 15 1 18)). repeat constructor.
  - apply (proj2 (toBaseUnitAmount_places 15 2 1)).
    + repeat constructor.
    + intros [z E]. change (10 ^ Z.of_nat (2 - 1)) with 10 in E. lia.
Defined.

End UnitExtras.

Module FlowExtras.
Import ResultLemmas.

Lemma then_completed {A B : Type} (r : Outcome A) (k : A -> Outcome B) (b : B) :
  andThen r k = Completed b -> exists a, r = Completed a /\ k a = Completed b.
Proof. destruct r as [a|f]; simpl; [eauto | discriminate]. Qed.

Lemma raised_completed {A : Type} (r : Result A) (a : A) :
  raised r = Completed a -> r = Ok a.
Proof. destruct r; simpl; intro H; inversion H; reflexivity. Qed.

Ltac then_inv H a E :=
  apply then_completed in H; destruct H as [a [E H]];
  try apply raised_completed in E.

Section AnyWallet.
Context {L : Libraries} {SM : Schemas} {C : Chain} {W : Wallet}.

(** X26. The pair that createMatchingOrders returns: the order it was
    given is not a buy order (an offer cannot be answered); the exchange has
    found both orders valid; the buy order carries the signature that the
    signer gave for its hash; and for a sell order the pair keeps the given
    order as it is, against a buy order made by the signer whose taker is the
    maker of the given order. *)
Theorem createMatchingOrders_pair (w : World) (order : SignedOrder) (orders : OrderPair) :
  createMatchingOrders w order = Completed orders ->
  side (ord order) <> NftOrderSide_Buy
  /\ exchange_validateOrder (sell orders) = Ok true
  /\ exchange_validateOrder (buy orders) = Ok true
  /\ (exists h sg,
        hash (ord (buy orders)) = Some h
        /\ signMessage_bytes h = Ok sg
        /\ ord_r (buy orders) = Some (sig_r sg)
        /\ ord_s (buy orders) = Some (sig_s sg)
        /\ ord_v (buy orders) = Some (sig_v sg))
  /\ (side (ord order) = NftOrderSide_Sell ->
      sell orders = order
      /\ utils_getAddress signer_getAddress = Ok (maker (ord (buy orders)))
      /\ taker (ord (buy orders)) = maker (ord order)
      /\ side (ord (buy orders)) = NftOrderSide_Buy).
Proof.
  unfold createMatchingOrders. intro H.
  then_inv H m Em. then_inv H sg Es. then_inv H sellValid Ev.
  destruct sellValid; [|discriminate]. cbn [negb] in H.
  then_inv H buyValid Eb. destruct buyValid; [|discriminate]. cbn [negb] in H.
  inversion H; subst; clear H. cbn [buy sell].
  unfold _signMessage in Es.
  destruct (hash (ord (buy (assignOrdersToSides order m)))) as [h|] eqn:Eh;
    [|discriminate].
  bind_inv Es s0 E0. inversion Es; subst; clear Es.
  cbn [withSignature ord ord_r ord_s ord_v] in *.
  pose proof (MatchingExtras.makeMatchingOrder_inv _ _ _ _ _ _ Em)
    as [acct [rcpt [enc [h0 [Ea [Er [Ec [Eh0 ->]]]]]]]].
  assert (NB : side (ord order) <> NftOrderSide_Buy).
  { intro B. unfold computeOrderParams in Ec.
    destruct (md_asset (metadata (ord order))); [|discriminate].
    bind_inv Ec schema Esch. rewrite B in Ec. cbn in Ec. discriminate. }
  split; [exact NB|]. split; [exact Ev|]. split; [exact Eb|]. split.
  - exists h, s0. repeat split; assumption.
  - intro S. unfold assignOrdersToSides in *. rewrite S in *.
    cbn [Z.eqb Pos.eqb NftOrderSide_Sell negb buy sell ord] in *.
    split; [reflexivity|]. split; [exact Ea|]. split; [reflexivity|].
    cbn. rewrite S. reflexivity.
Qed.

(** X27. fulfillNftOrder completes only for an order that is not a buy
    order and, unless it is an English auction, not a Dutch auction. For an
    English auction it validates the buy order of the pair and sends no
    match; for any other order it returns what _atomicMatch returned for the
    pair. *)
Theorem fulfillNftOrder_completed (w : World) (order : SignedOrder) (r : Fulfilment) :
  fulfillNftOrder w order = Completed r ->
  side (ord order) <> NftOrderSide_Buy
  /\ exists orders,
       createMatchingOrders w order = Completed orders
       /\ ((waitingForBestCounterOrder (ord order) = true
            /\ buyOrderValidation_outcome (ord (buy orders)) = Ok tt
            /\ r = BidValidated (buy orders))
           \/ (waitingForBestCounterOrder (ord order) = false
               /\ saleKind (ord order) <> NftSaleKind_DutchAuction
               /\ exists m, _atomicMatch (ord (buy orders)) (ord (sell orders)) = Ok m
                            /\ r = Matched m)).
Proof.
  unfold fulfillNftOrder. intro H.
  apply then_completed in H. destruct H as [orders [Eo H]].
  assert (NB : side (ord order) <> NftOrderSide_Buy).
  { unfold createMatchingOrders in Eo. then_inv Eo m Em.
    pose proof (MatchingExtras.makeMatchingOrder_inv _ _ _ _ _ _ Em)
      as [acct [rcpt [enc [h0 [Ea [Er [Ec _]]]]]]].
    intro B. unfold computeOrderParams in Ec.
    destruct (md_asset (metadata (ord order))); [|discriminate].
    bind_inv Ec schema Esch. rewrite B in Ec. cbn in Ec. discriminate. }
  split; [exact NB|]. exists orders. split; [exact Eo|].
  destruct (waitingForBestCounterOrder (ord order)).
  - left. then_inv H u Eu. destruct u. inversion H; subst.
    repeat split. exact Eu.
  - right. destruct (saleKind (ord order) =? 1) eqn:K; [discriminate|].
    then_inv H m Em. inversion H; subst.
    split; [reflexivity|]. split; [apply Z.eqb_neq; exact K|].
    exists m. split; [exact Em | reflexivity].
Qed.

(** X28. createSellOrder never returns an order. It asks for the
    authorization without a provider, so the check of the maker's address
    fails before anything is signed: whenever the order is built, approved
    and hashed, the call ends with the error of a declined authorization. *)
Theorem createSellOrder_never_completes (w : World) (asset : NftAsset)
    (startPrice : number) (endPrice : option number) (waitForHighestBid : bool) :
  (forall signed,
      createSellOrder w asset startPrice endPrice waitForHighestBid <> Completed signed)
  /\ (forall order h,
        _makeSellOrder w (listingArguments asset startPrice endPrice waitForHighestBid)
        = Ok order ->
        _sellOrderValidationAndApprovals order = Ok tt ->
        getOrderHash order = Ok h ->
        createSellOrder w asset startPrice endPrice waitForHighestBid
        = Failed AuthorizationDeclined).
Proof.
  split.
  - intros signed H. unfold createSellOrder in H.
    then_inv H built Eo. then_inv H u Eu. then_inv H h Eh.
    unfold _authorizeOrder, isContractAddress in H. cbn [bind] in H. discriminate.
  - intros order h Eo Eu Eh. unfold createSellOrder.
    unfold listingArguments in Eo. rewrite Eo. cbn [raised andThen].
    rewrite Eu. cbn [raised andThen]. rewrite Eh. cbn [raised andThen].
    reflexivity.
Qed.

End AnyWallet.

(** The reference listing, answered by the account on the reference node. *)
Lemma createMatchingOrders_pair_witness :
  exists orders,
    createMatchingOrders Reference.world ReferenceWallet.listing = Completed orders
    /\ sell orders = ReferenceWallet.listing
    /\ taker (ord (buy orders)) = Reference.seller.
Proof.
  destruct (createMatchingOrders Reference.world ReferenceWallet.listing)
    as [orders|f] eqn:E; [|vm_compute in E; discriminate].
  exists orders. split; [reflexivity|].
  destruct (proj2 (proj2 (proj2 (proj2
              (createMatchingOrders_pair Reference.world ReferenceWallet.listing orders E))))
              eq_refl) as [S [_ [T _]]].
  split; [exact S | exact T].
Defined.

Lemma fulfillNftOrder_completed_witness :
  exists r,
    fulfillNftOrder Reference.world ReferenceWallet.listing = Completed r
    /\ side (ord ReferenceWallet.listing) <> NftOrderSide_Buy.
Proof.
  destruct (fulfillNftOrder Reference.world ReferenceWallet.listing)
    as [r|f] eqn:E; [|vm_compute in E; discriminate].
  exists r. split; [reflexivity|].
  exact (proj1 (fulfillNftOrder_completed Reference.world ReferenceWallet.listing r E)).
Defined.

(** The reference asset, listed by the account at a fixed price of one
    unit. *)
Lemma createSellOrder_never_completes_witness :
  createSellOrder Reference.world Reference.asset 1%Q None false
  = Failed AuthorizationDeclined.
Proof.
  destruct (_makeSellOrder Reference.world
              (listingArguments Reference.asset 1%Q None false)) as [order|e] eqn:Eo;
    [|vm_compute in Eo; discriminate].
  destruct (getOrderHash order) as [h|e] eqn:Eh.
  - apply (proj2 (createSellOrder_never_completes Reference.world Reference.asset
                    1%Q None false) order h Eo); [|exact Eh].
    vm_compute in Eo. inversion Eo; subst. vm_compute. reflexivity.
  - vm_compute in Eo. inversion Eo; subst. vm_compute in Eh. discriminate.
Defined.

End FlowExtras.
